(** * pdfchat: a shallow embedding of [app.py]

    The program is sequential glue between a PDF parser, a hosted
    text-generation service and Python's [eval] / [json.dumps].  The
    functions of [app.py] are embedded as computations in a state and
    exception monad; the libraries they call are fields of a [world]
    record, so every statement below holds for any behaviour of those
    libraries.

    Conventions.
    - A Python [str] the program handles is a [string]; its characters
      stand for code points below 256.  [text[:5000]] is
      [py_slice_to 5000 text].  The JSON export is also modelled over
      texts of all code points ([unicode]).
    - A Python exception is a [pyexn].  [except Exception] catches every
      exception but [SystemExit], which only derives from [BaseException].
    - Observable effects are appended, in program order, to the [trace]
      of the state; temporary files live in the map [fs].
    - The widget tree of [main] is a computation over a [page_state]:
      what the user has set on the input widgets is a [session], and
      what the run draws is appended to the [screen]. *)

From Stdlib Require Import ZArith Ascii String List Lia.
From stdpp Require Import gmap strings list pretty stringmap.
Import ListNotations.

Local Open Scope string_scope.
Local Open Scope list_scope.

#[local] Set Warnings "-register-all".
#[local] Arguments String.append !s1 s2 : simpl nomatch.

(** ** Python values *)

(** The values that flow through the program: what [eval] may return and
    what [json.dumps] is given.  A [dict] with [str] keys keeps its
    entries in insertion order.  Of the values [eval] can return these
    are [None], [bool], [int], [str], [list] and [dict] with [str] keys;
    floats, tuples, sets and other objects have no counterpart here. *)
Inductive pyval : Type :=
| PNone
| PBool (b : bool)
| PInt (z : Z)
| PStr (s : string)
| PList (l : list pyval)
| PDict (d : list (string * pyval)).

(** ** Strings: [repr] *)

Definition dquote : ascii := ascii_of_nat 34.

(** The digit [format(n, 'x')] prints for [n < 16]. *)
Definition hex_digit (n : N) : ascii :=
  ascii_of_N (if (n <? 10)%N then 48 + n else 87 + n)%N.

Definition has_char (c : ascii) (s : string) : bool :=
  existsb (Ascii.eqb c) (list_ascii_of_string s).

(** The quote [repr] puts around a [str]: the double quote when the
    string holds a single quote and no double quote. *)
Definition repr_quote (s : string) : ascii :=
  if has_char "'" s && negb (has_char dquote s) then dquote else "'"%char.

(** [chr(n).isprintable()] below 256: outside ASCII, all but the control
    characters, the no-break space and the soft hyphen. *)
Definition is_printable (n : N) : bool :=
  ((32 <=? n) && (n <=? 126) || (161 <=? n) && negb (n =? 173))%N.

Definition repr_char (quote c : ascii) : string :=
  let n := N_of_ascii c in
  if Ascii.eqb c quote || (n =? 92)%N then String "\" (String c "")
  else if (n =? 9)%N then "\t"
  else if (n =? 10)%N then "\n"
  else if (n =? 13)%N then "\r"
  else if is_printable n then String c ""
  else "\x" +:+ String (hex_digit (n / 16)) (String (hex_digit (n mod 16)) "").

Fixpoint repr_chars (quote : ascii) (s : string) : string :=
  match s with
  | "" => ""
  | String c s' => repr_char quote c +:+ repr_chars quote s'
  end.

(** [repr(s)] for a [str] *)
Definition repr_str (s : string) : string :=
  let quote := repr_quote s in
  String quote (repr_chars quote s +:+ String quote "").

(** ** Exceptions *)

Inductive pyexn : Type :=
| Exception_ (msg : string)   (* an instance of a subclass of Exception *)
| KeyError (key : string)     (* raised by a dict subscript *)
| SystemExit.                 (* raised by exit() *)

(** [isinstance(e, Exception)] *)
Definition is_Exception (e : pyexn) : bool :=
  match e with
  | SystemExit => false
  | _ => true
  end.

(** [str(e)]; for a [KeyError] it is the [repr] of the key. *)
Definition str_exn (e : pyexn) : string :=
  match e with
  | Exception_ msg => msg
  | KeyError key => repr_str key
  | SystemExit => ""
  end.

Inductive outcome (A : Type) : Type :=
| Ret (a : A)
| Raise (e : pyexn).
Arguments Ret {A} a.
Arguments Raise {A} e.

(** ** State, effects and the monad *)

Inductive event : Type :=
| EvPrint (s : string)            (* print(s) *)
| EvStTitle (s : string)          (* st.title(s) *)
| EvStWrite (s : string)          (* st.write(s) *)
| EvStError (s : string)          (* st.error(s) *)
| EvGenaiConfigure (key : string) (* genai.configure(api_key=key) *)
| EvGenerate (prompt : string)    (* model.generate_content(prompt) *)
| EvEval (code : string).         (* eval(code) *)

Record state : Type := mkState {
  fs : gmap string (list Byte.byte);   (* files on disk: path -> content *)
  trace : list event
}.

Definition M (A : Type) : Type := state -> state * outcome A.

Definition ret {A} (a : A) : M A := fun st => (st, Ret a).

Definition raise {A} (e : pyexn) : M A := fun st => (st, Raise e).

Definition bind {A B} (m : M A) (k : A -> M B) : M B :=
  fun st =>
    match m st with
    | (st', Ret a) => k a st'
    | (st', Raise e) => (st', Raise e)
    end.

Notation "'let!' x ':=' c 'in' k" := (bind c (fun x => k))
  (at level 10, x name, c at level 100, k at level 200).
Notation "'do!' c 'in' k" := (bind c (fun _ => k))
  (at level 10, c at level 100, k at level 200).

(** [try: body except Exception as e: handler(e)] *)
Definition try_except {A} (body : M A) (handler : pyexn -> M A) : M A :=
  fun st =>
    match body st with
    | (st', Ret a) => (st', Ret a)
    | (st', Raise e) =>
        if is_Exception e then handler e st' else (st', Raise e)
    end.

(** A library call that touches no modelled state. *)
Definition lift {A} (o : outcome A) : M A := fun st => (st, o).

(** The state after more events. *)
Definition add_events (st : state) (evs : list event) : state :=
  mkState (fs st) (trace st ++ evs).

Definition emit (ev : event) : M unit :=
  fun st => (add_events st [ev], Ret tt).

Definition print (s : string) : M unit := emit (EvPrint s).
Definition st_title (s : string) : M unit := emit (EvStTitle s).
Definition st_write (s : string) : M unit := emit (EvStWrite s).
Definition st_error (s : string) : M unit := emit (EvStError s).

(** [exit()] *)
Definition exit {A} : M A := raise SystemExit.

(** ** The libraries *)

(** A page of an opened document: what its text-extraction method
    returns. *)
Definition page : Type := outcome string.

(** The handle returned by [genai.GenerativeModel]:
    [generate_content(prompt).text]. *)
Record model : Type := mkModel {
  generate_content_text : string -> outcome string
}.

(** An uploaded file: [file.name] and [file.getvalue()]. *)
Record uploaded_file : Type := mkFile {
  name : string;
  getvalue : list Byte.byte
}.

Record world : Type := mkWorld {
  (* config.GOOGLE_API_KEY *)
  GOOGLE_API_KEY : option string;
  (* genai.GenerativeModel(model_name), under the configured key *)
  GenerativeModel : string -> string -> model;
  (* the name tempfile.NamedTemporaryFile picks, given the files on disk *)
  tmp_name : gmap string (list Byte.byte) -> string;
  (* fitz.open on a file with this content: the pages of the document *)
  fitz_pages : list Byte.byte -> outcome (list page);
  (* PyPDF2.PdfReader(stream).pages *)
  pypdf2_pages : list Byte.byte -> outcome (list page);
  (* the builtin eval *)
  py_eval : string -> outcome pyval
}.

(** [with tempfile.NamedTemporaryFile(delete=False, suffix='.pdf') as f:
       f.write(data); tmp_path = f.name] *)
Definition NamedTemporaryFile_write (w : world) (data : list Byte.byte) : M string :=
  fun st =>
    let tmp_path := tmp_name w (fs st) in
    (mkState (<[tmp_path := data]> (fs st)) (trace st), Ret tmp_path).

(** [fitz.open(path)] *)
Definition fitz_open (w : world) (path : string) : M (list page) :=
  fun st =>
    match fs st !! path with
    | Some data => (st, fitz_pages w data)
    | None => (st, Raise (Exception_ ("no such file: '" ++ path ++ "'")))
    end.

(** [os.unlink(path)] *)
Definition os_unlink (path : string) : M unit :=
  fun st =>
    match fs st !! path with
    | Some _ => (mkState (delete path (fs st)) (trace st), Ret tt)
    | None =>
        (st, Raise (Exception_
           ("[Errno 2] No such file or directory: '" ++ path ++ "'")))
    end.

(** [PyPDF2.PdfReader(pdf_file).pages] *)
Definition PdfReader_pages (w : world) (pdf_file : uploaded_file) : M (list page) :=
  lift (pypdf2_pages w (getvalue pdf_file)).

(** [for page in pages: text += page.get_text()] (or [extract_text()]),
    from the value [text] has before the loop. *)
Fixpoint concat_pages (pages : list page) (text : string) : M string :=
  match pages with
  | [] => ret text
  | p :: rest =>
      let! t := lift p in
      concat_pages rest (text ++ t)
  end.

(** ** Text extraction (app.py, lines 27-53) *)

Definition extract_text_from_pdf (w : world) (pdf_file : uploaded_file)
    (parser_choice : string) : M (option string) :=
  try_except
    (if String.eqb parser_choice "PyMuPDF" then
       let! tmp_path := NamedTemporaryFile_write w (getvalue pdf_file) in
       let! doc := fitz_open w tmp_path in
       let! text := concat_pages doc "" in
       do! os_unlink tmp_path in
       ret (Some text)
     else
       let! pdf_reader_pages := PdfReader_pages w pdf_file in
       let! text := concat_pages pdf_reader_pages "" in
       ret (Some text))
    (fun e =>
       do! st_error ("Error extracting text from PDF: " ++ str_exn e) in
       ret None).

(** ** Prompts (app.py, lines 56-97) *)

Definition nl : string := String (ascii_of_nat 10) "".

(** [text[:n]] *)
Fixpoint py_slice_to (n : nat) (s : string) : string :=
  match n, s with
  | S n', String c s' => String c (py_slice_to n' s')
  | _, _ => ""
  end.

(** [bool(s)] for a [str] *)
Definition str_truthy (s : string) : bool :=
  match s with
  | "" => false
  | _ => true
  end.

(** [template.format(n=value)] for a template whose only replacement
    field is [{n}]; [value] is already [str(n)]. *)
Fixpoint format_n (template value : string) : string :=
  match template with
  | String "{" (String "n" (String "}" rest)) => value +:+ format_n rest value
  | String c rest => String c (format_n rest value)
  | "" => ""
  end.

(** The f-string of [generate_summary] (lines 58-65).  The text after
    the replacement field, comment sign included, is inside the string
    literal. *)
Definition summary_prompt (text : string) : string :=
  nl +:+
  "    Please provide a comprehensive summary of the following text, including:" +:+ nl +:+
  "    1. Main topics and key points" +:+ nl +:+
  "    2. Important findings or conclusions" +:+ nl +:+
  "    3. Notable details or examples" +:+ nl +:+
  nl +:+
  "    Text: " +:+ py_slice_to 5000 text +:+
  "  # Limiting text length to avoid token limits" +:+ nl +:+
  "    ".

Definition prompt_templates : gmap string string :=
  list_to_map
    [ ("factual",
       "Generate {n} factual questions that test knowledge of specific information from the text.");
      ("conceptual",
       "Generate {n} conceptual questions that require understanding of main ideas and themes.");
      ("analytical",
       "Generate {n} analytical questions that require critical thinking and analysis of the content.");
      ("application",
       "Generate {n} questions that ask how the concepts from the text can be applied to real-world situations.") ].

(** [d[key]] on a dict with [str] keys *)
Definition dict_getitem {A} (d : gmap string A) (key : string) : M A :=
  match d !! key with
  | Some v => ret v
  | None => raise (KeyError key)
  end.

(** The f-string of [generate_custom_qa] (lines 84-90), given the
    template already looked up. *)
Definition qa_prompt (template : string) (num_questions : Z) (text : string) : string :=
  nl +:+
  "    " +:+ format_n template (pretty num_questions) +:+ nl +:+
  "    Format the response as a list of dictionaries with 'question' and 'answer' keys." +:+ nl +:+
  "    Make answers detailed and comprehensive." +:+ nl +:+
  nl +:+
  "    Text: " +:+ py_slice_to 5000 text +:+ nl +:+
  "    ".

(** [model.generate_content(prompt).text] *)
Definition generate_content (m : model) (prompt : string) : M string :=
  do! emit (EvGenerate prompt) in
  lift (generate_content_text m prompt).

(** [eval(code)].  What it returns or raises is the field [py_eval] of
    the [world], a function of the code.  Python runs the code in the
    frame of [generate_custom_qa], where it can read [text], [model] and
    the other names in scope and can have effects of its own: send a
    request, draw on the page, write a file.  Such effects are not part
    of the embedding; the trace records that the code was evaluated. *)
Definition eval (w : world) (code : string) : M pyval :=
  do! emit (EvEval code) in
  lift (py_eval w code).

Definition generate_summary (m : model) (text : string) : M (option string) :=
  let prompt := summary_prompt text in
  try_except
    (let! response_text := generate_content m prompt in
     ret (Some response_text))
    (fun e =>
       do! st_error ("Error generating summary: " +:+ str_exn e) in
       ret None).

(** Returns what [eval] returns, or [None] ([PNone]) from the handler. *)
Definition generate_custom_qa (w : world) (m : model) (text question_type : string)
    (num_questions : Z) : M pyval :=
  let! template := dict_getitem prompt_templates question_type in
  let prompt := qa_prompt template num_questions text in
  try_except
    (let! response_text := generate_content m prompt in
     eval w response_text)
    (fun e =>
       do! st_error ("Error generating Q&A: " +:+ str_exn e) in
       ret PNone).

(** ** Batch processing (app.py, lines 100-116) *)

Definition py_of_option_str (o : option string) : pyval :=
  match o with
  | Some s => PStr s
  | None => PNone
  end.

(** [if text:] for the value [extract_text_from_pdf] returns *)
Definition text_truthy (text : option string) : bool :=
  match text with
  | Some s => str_truthy s
  | None => false
  end.

(** The dict literal of lines 110-114. *)
Definition result_dict (filename : string) (summary : option string)
    (qa_pairs : pyval) : pyval :=
  PDict [ ("filename", PStr filename);
          ("summary", py_of_option_str summary);
          ("qa_pairs", qa_pairs) ].

(** The loop of lines 104-114, from the value [results] has before it. *)
Fixpoint process_files (w : world) (files : list uploaded_file) (m : model)
    (results : list pyval) : M (list pyval) :=
  match files with
  | [] => ret results
  | file :: rest =>
      let! text := extract_text_from_pdf w file "PyMuPDF" in
      match text with
      | Some t =>
          if str_truthy t then
            let! summary := generate_summary m t in
            let! qa_pairs := generate_custom_qa w m t "factual" 3 in
            process_files w rest m
              (results ++ [result_dict (name file) summary qa_pairs])
          else process_files w rest m results
      | None => process_files w rest m results
      end
  end.

Definition process_multiple_pdfs (w : world) (files : list uploaded_file)
    (m : model) : M (list pyval) :=
  process_files w files m [].

(** ** Start-up (app.py, lines 14-24 and 124-129) *)

(** [not GOOGLE_API_KEY]: the key is [None] or the empty string. *)
Definition key_missing (key : option string) : bool :=
  negb (text_truthy key).

Definition genai_configure (api_key : option string) : M unit :=
  emit (EvGenaiConfigure (default "" api_key)).

Definition configure_gemini (w : world) : M model :=
  do! (if key_missing (GOOGLE_API_KEY w) then
         do! print "Please set your GOOGLE_API_KEY" in
         exit
       else ret tt) in
  do! genai_configure (GOOGLE_API_KEY w) in
  ret (GenerativeModel w (default "" (GOOGLE_API_KEY w)) "gemini-pro").

(** [main]: the two header widgets, the model handle, then the widget
    tree of lines 131-228, which is given the handle. *)
Definition main (w : world) (widgets : model -> M unit) : M unit :=
  do! st_title "Enhanced PDF Analysis with Gemini AI" in
  do! st_write "Upload PDF files for comprehensive analysis and Q&A generation" in
  let! m := configure_gemini w in
  widgets m.

(** ** JSON export (app.py, lines 119-121) *)

(** [json.dumps(obj, indent=2)] runs the pure-Python encoder with
    [ensure_ascii=True], item separator [","] and key separator [": "]. *)

(** The replacement [py_encode_basestring_ascii] makes for one character
    below 256: the entries of [ESCAPE_DCT], the character itself from
    space to tilde, and [\u00xx] otherwise.  [escape_code_point] below
    is the replacement for any code point. *)
Definition escape_char (c : ascii) : string :=
  let n := N_of_ascii c in
  if (n =? 34)%N then String "\" (String dquote "")
  else if (n =? 92)%N then "\\"
  else if (n =? 10)%N then "\n"
  else if (n =? 13)%N then "\r"
  else if (n =? 9)%N then "\t"
  else if (n =? 12)%N then "\f"
  else if (n =? 8)%N then "\b"
  else if ((32 <=? n) && (n <=? 126))%N then String c ""
  else "\u00" +:+ String (hex_digit (n / 16)) (String (hex_digit (n mod 16)) "").

Fixpoint escape_str (s : string) : string :=
  match s with
  | "" => ""
  | String c s' => escape_char c +:+ escape_str s'
  end.

Definition encode_basestring_ascii (s : string) : string :=
  String dquote (escape_str s +:+ String dquote "").

(** [' ' * n] *)
Fixpoint spaces (n : nat) : string :=
  match n with
  | O => ""
  | S n' => String " " (spaces n')
  end.

(** [sep.join(chunks)]: the chunks the encoder yields for the items of a
    container, the separator before every item but the first. *)
Fixpoint join (sep : string) (chunks : list string) : string :=
  match chunks with
  | [] => ""
  | [x] => x
  | x :: rest => x +:+ sep +:+ join sep rest
  end.

(** [_iterencode(o, _current_indent_level)], chunks concatenated. *)
Fixpoint iterencode (indent level : nat) (o : pyval) : string :=
  match o with
  | PNone => "null"
  | PBool true => "true"
  | PBool false => "false"
  | PInt z => pretty z
  | PStr s => encode_basestring_ascii s
  | PList [] => "[]"
  | PList lst =>
      let newline_indent := nl +:+ spaces (indent * S level) in
      "[" +:+ newline_indent +:+
      join ("," +:+ newline_indent) (map (iterencode indent (S level)) lst) +:+
      nl +:+ spaces (indent * level) +:+ "]"
  | PDict [] => "{}"
  | PDict dct =>
      let newline_indent := nl +:+ spaces (indent * S level) in
      "{" +:+ newline_indent +:+
      join ("," +:+ newline_indent)
        (map (fun item =>
                encode_basestring_ascii (fst item) +:+ ": " +:+
                iterencode indent (S level) (snd item)) dct) +:+
      nl +:+ spaces (indent * level) +:+ "}"
  end.

Definition json_dumps (obj : pyval) (indent : nat) : string :=
  iterencode indent 0 obj.

Definition save_analysis_results (results : list pyval) : string :=
  json_dumps (PList results) 2.

(** ** JSON over all code points (app.py, lines 119-121)

    A Python [str] is a sequence of code points from 0 to 0x10FFFF, the
    surrogates (0xD800 to 0xDFFF) included.  [json.dumps] with
    [ensure_ascii=True] writes every code point outside printable ASCII
    as [\uXXXX], and a code point from 0x10000 on as the two escapes of
    its surrogate pair; [json.loads] joins such a pair again. *)

Definition unicode : Type := list N.

(** The code points of a text whose characters are all below 256. *)
Definition utext (s : string) : unicode :=
  map N_of_ascii (list_ascii_of_string s).

(** Values whose texts range over all code points. *)
Inductive uval : Type :=
| UNone
| UBool (b : bool)
| UInt (z : Z)
| UStr (s : unicode)
| UList (l : list uval)
| UDict (d : list (unicode * uval)).

Fixpoint to_uval (v : pyval) : uval :=
  match v with
  | PNone => UNone
  | PBool b => UBool b
  | PInt z => UInt z
  | PStr s => UStr (utext s)
  | PList l => UList (map to_uval l)
  | PDict d => UDict (map (fun item => (utext (fst item), to_uval (snd item))) d)
  end.

(** ['{0:04x}'.format(n)] for [n < 0x10000] *)
Definition hex4 (n : N) : string :=
  String (hex_digit (n / 4096))
    (String (hex_digit (n / 256 mod 16))
       (String (hex_digit (n / 16 mod 16))
          (String (hex_digit (n mod 16)) ""))).

(** The replacement [py_encode_basestring_ascii] makes for the code
    point [n]: the entries of [ESCAPE_DCT], the character itself from
    space to tilde, [\uXXXX] below 0x10000 and the escapes of the two
    surrogates from there on. *)
Definition escape_code_point (n : N) : string :=
  if (n =? 34)%N then String "\" (String dquote "")
  else if (n =? 92)%N then "\\"
  else if (n =? 10)%N then "\n"
  else if (n =? 13)%N then "\r"
  else if (n =? 9)%N then "\t"
  else if (n =? 12)%N then "\f"
  else if (n =? 8)%N then "\b"
  else if ((32 <=? n) && (n <=? 126))%N then String (ascii_of_N n) ""
  else if (n <? 65536)%N then "\u" +:+ hex4 n
  else
    let n' := (n - 65536)%N in
    let s1 := N.lor 55296 (N.land (N.shiftr n' 10) 1023) in
    let s2 := N.lor 56320 (N.land n' 1023) in
    "\u" +:+ hex4 s1 +:+ "\u" +:+ hex4 s2.

Fixpoint escape_unicode (s : unicode) : string :=
  match s with
  | [] => ""
  | n :: s' => escape_code_point n +:+ escape_unicode s'
  end.

Definition py_encode_basestring_ascii (s : unicode) : string :=
  String dquote (escape_unicode s +:+ String dquote "").

(** [_iterencode(o, _current_indent_level)], chunks concatenated. *)
Fixpoint iterencode_unicode (indent level : nat) (o : uval) : string :=
  match o with
  | UNone => "null"
  | UBool true => "true"
  | UBool false => "false"
  | UInt z => pretty z
  | UStr s => py_encode_basestring_ascii s
  | UList [] => "[]"
  | UList lst =>
      let newline_indent := nl +:+ spaces (indent * S level) in
      "[" +:+ newline_indent +:+
      join ("," +:+ newline_indent) (map (iterencode_unicode indent (S level)) lst) +:+
      nl +:+ spaces (indent * level) +:+ "]"
  | UDict [] => "{}"
  | UDict dct =>
      let newline_indent := nl +:+ spaces (indent * S level) in
      "{" +:+ newline_indent +:+
      join ("," +:+ newline_indent)
        (map (fun item =>
                py_encode_basestring_ascii (fst item) +:+ ": " +:+
                iterencode_unicode indent (S level) (snd item)) dct) +:+
      nl +:+ spaces (indent * level) +:+ "}"
  end.

Definition json_dumps_unicode (obj : uval) (indent : nat) : string :=
  iterencode_unicode indent 0 obj.

(** [save_analysis_results] for results whose texts range over all code
    points. *)
Definition save_analysis_results_unicode (results : list uval) : string :=
  json_dumps_unicode (UList results) 2.

(** ** JSON decoding

    [json.loads], the reader a consumer of the export runs: [null],
    [true], [false], integers, strings, arrays and objects.  The text
    read is a [string], as the export is; the strings decoded are over
    all code points.  [None] stands for [JSONDecodeError] and for a
    document with a float ([1.5], [1e3], [NaN], [Infinity]), which
    [uval] has no value for. *)

Definition is_ws (c : ascii) : bool :=
  let n := N_of_ascii c in
  ((n =? 32) || (n =? 9) || (n =? 10) || (n =? 13))%N.

(** [WHITESPACE.match(s, end).end()] *)
Fixpoint skip_ws (s : string) : string :=
  match s with
  | String c s' => if is_ws c then skip_ws s' else s
  | "" => ""
  end.

Definition hex_value (c : ascii) : option N :=
  let n := N_of_ascii c in
  if ((48 <=? n) && (n <=? 57))%N then Some (n - 48)%N
  else if ((97 <=? n) && (n <=? 102))%N then Some (n - 87)%N
  else if ((65 <=? n) && (n <=? 70))%N then Some (n - 55)%N
  else None.

(** [_decode_uXXXX]: the value of the four hexadecimal digits after
    [\u]. *)
Definition decode_uXXXX (h1 h2 h3 h4 : ascii) : option N :=
  match hex_value h1, hex_value h2, hex_value h3, hex_value h4 with
  | Some a, Some b, Some c, Some d => Some (((a * 16 + b) * 16 + c) * 16 + d)%N
  | _, _, _, _ => None
  end.

(** The table [BACKSLASH] of the decoder. *)
Definition backslash (esc : ascii) : option N :=
  let n := N_of_ascii esc in
  if (n =? 34)%N then Some 34%N
  else if (n =? 92)%N then Some 92%N
  else if (n =? 47)%N then Some 47%N
  else if (n =? 98)%N then Some 8%N
  else if (n =? 102)%N then Some 12%N
  else if (n =? 110)%N then Some 10%N
  else if (n =? 114)%N then Some 13%N
  else if (n =? 116)%N then Some 9%N
  else None.

Definition cons_char (c : N) (r : option (unicode * string)) :
    option (unicode * string) :=
  match r with
  | Some (str, rest) => Some (c :: str, rest)
  | None => None
  end.

(** [0xd800 <= uni <= 0xdbff] *)
Definition is_high_surrogate (uni : N) : bool :=
  ((55296 <=? uni) && (uni <=? 56319))%N.

(** [0xdc00 <= uni2 <= 0xdfff] *)
Definition is_low_surrogate (uni2 : N) : bool :=
  ((56320 <=? uni2) && (uni2 <=? 57343))%N.

(** [0x10000 + (((uni - 0xd800) << 10) | (uni2 - 0xdc00))] *)
Definition join_surrogates (uni uni2 : N) : N :=
  (65536 + N.lor (N.shiftl (uni - 55296) 10) (uni2 - 56320))%N.

(** [py_scanstring(s, end, strict=True)], from the character after the
    opening quote: the decoded string and the text after the closing
    quote.  After [\uXXXX] for a high surrogate, a following [\uYYYY]
    for a low surrogate is read with it as one code point. *)
Fixpoint scanstring (s : string) : option (unicode * string) :=
  match s with
  | "" => None
  | String c s' =>
      if (N_of_ascii c =? 34)%N then Some ([], s')
      else if (N_of_ascii c =? 92)%N then
        match s' with
        | "" => None
        | String esc s'' =>
            if (N_of_ascii esc =? 117)%N then
              match s'' with
              | String h1 (String h2 (String h3 (String h4 s3))) =>
                  match decode_uXXXX h1 h2 h3 h4 with
                  | Some uni =>
                      match s3 with
                      | String b (String u s4) =>
                          if is_high_surrogate uni && (N_of_ascii b =? 92)%N &&
                             (N_of_ascii u =? 117)%N
                          then
                            match s4 with
                            | String k1 (String k2 (String k3 (String k4 s5))) =>
                                match decode_uXXXX k1 k2 k3 k4 with
                                | Some uni2 =>
                                    if is_low_surrogate uni2
                                    then cons_char (join_surrogates uni uni2)
                                           (scanstring s5)
                                    else cons_char uni (scanstring s3)
                                | None => None
                                end
                            | _ => None
                            end
                          else cons_char uni (scanstring s3)
                      | _ => cons_char uni (scanstring s3)
                      end
                  | None => None
                  end
              | _ => None
              end
            else
              match backslash esc with
              | Some ch => cons_char ch (scanstring s'')
              | None => None
              end
        end
      else if (N_of_ascii c <? 32)%N then None
      else cons_char (N_of_ascii c) (scanstring s')
  end.

(** [d[key] = value], insertion order kept. *)
Fixpoint dict_setitem (d : list (unicode * uval)) (key : unicode) (value : uval) :
    list (unicode * uval) :=
  match d with
  | [] => [(key, value)]
  | (k, v) :: rest =>
      if bool_decide (k = key) then (k, value) :: rest
      else (k, v) :: dict_setitem rest key value
  end.

(** [dict(pairs)] *)
Definition dict_of_pairs (pairs : list (unicode * uval)) : list (unicode * uval) :=
  fold_left (fun d kv => dict_setitem d (fst kv) (snd kv)) pairs [].

(** [s[:len(p)] == p], with the text after the prefix. *)
Fixpoint strip_prefix (p s : string) : option string :=
  match p with
  | "" => Some s
  | String a p' =>
      match s with
      | String b s' => if Ascii.eqb a b then strip_prefix p' s' else None
      | "" => None
      end
  end.

(** [[0-9]] *)
Definition is_digit (c : ascii) : bool :=
  let n := N_of_ascii c in ((48 <=? n) && (n <=? 57))%N.

(** The digits at the start of [s], read in base ten after the
    value [acc] of the digits before them, and the text after them. *)
Fixpoint scan_digits (acc : N) (s : string) : N * string :=
  match s with
  | String c s' =>
      if is_digit c then scan_digits (acc * 10 + (N_of_ascii c - 48)) s'
      else (acc, s)
  | "" => (acc, s)
  end.

(** The digits of the integer part of [NUMBER_RE]: a zero alone, or a
    digit from 1 to 9 and the digits after it. *)
Definition scan_natural (s : string) : option (N * string) :=
  match s with
  | String c s' =>
      if Ascii.eqb c "0" then Some (0%N, s')
      else if is_digit c then Some (scan_digits 0 s)
      else None
  | "" => None
  end.

(** Whether [(\.[0-9]+)?([eE][-+]?[0-9]+)?], the rest of [NUMBER_RE],
    matches a fraction or an exponent at the start of [s]. *)
Definition has_frac_or_exp (s : string) : bool :=
  match s with
  | String c (String d s') =>
      if Ascii.eqb c "." then is_digit d
      else if Ascii.eqb c "e" || Ascii.eqb c "E" then
        if is_digit d then true
        else if Ascii.eqb d "+" || Ascii.eqb d "-" then
          match s' with
          | String d' _ => is_digit d'
          | "" => false
          end
        else false
      else false
  | _ => false
  end.

(** [NUMBER_RE.match(string, idx)] and [parse_int]: the integer and the
    text after it; [None] where no number starts and for a float. *)
Definition match_number (s : string) : option (Z * string) :=
  let '(negative, digits) :=
    match s with
    | String c s' => if Ascii.eqb c "-" then (true, s') else (false, s)
    | "" => (false, s)
    end in
  match scan_natural digits with
  | Some (n, rest) =>
      if has_frac_or_exp rest then None
      else Some (if negative then (- Z.of_N n)%Z else Z.of_N n, rest)
  | None => None
  end.

(** [scan_once], [JSONArray] and [JSONObject], as the chain of tests on
    [nextchar] they are in the decoder; [fuel] bounds the nesting and
    the number of items still to read.  [JSONArray_items] is the loop of
    [JSONArray] from a value on; [JSONObject_items] is the loop of
    [JSONObject] from the character after the opening quote of a key. *)
Fixpoint scan_once (fuel : nat) (s : string) {struct fuel} : option (uval * string) :=
  match fuel with
  | O => None
  | S fuel' =>
      match s with
      | "" => None
      | String nextchar s' =>
          if Ascii.eqb nextchar dquote then
            match scanstring s' with
            | Some (str, rest) => Some (UStr str, rest)
            | None => None
            end
          else if Ascii.eqb nextchar "{" then
            match skip_ws s' with
            | "" => None
            | String c r =>
                if Ascii.eqb c "}" then Some (UDict [], r)
                else if Ascii.eqb c dquote then
                  match JSONObject_items fuel' r with
                  | Some (pairs, rest) => Some (UDict (dict_of_pairs pairs), rest)
                  | None => None
                  end
                else None
            end
          else if Ascii.eqb nextchar "[" then
            match skip_ws s' with
            | "" => None
            | String c r =>
                if Ascii.eqb c "]" then Some (UList [], r)
                else
                  match JSONArray_items fuel' (String c r) with
                  | Some (values, rest) => Some (UList values, rest)
                  | None => None
                  end
            end
          else if Ascii.eqb nextchar "n" then
            match strip_prefix "ull" s' with
            | Some rest => Some (UNone, rest)
            | None => None
            end
          else if Ascii.eqb nextchar "t" then
            match strip_prefix "rue" s' with
            | Some rest => Some (UBool true, rest)
            | None => None
            end
          else if Ascii.eqb nextchar "f" then
            match strip_prefix "alse" s' with
            | Some rest => Some (UBool false, rest)
            | None => None
            end
          else
            match match_number s with
            | Some (z, rest) => Some (UInt z, rest)
            | None => None
            end
      end
  end
with JSONArray_items (fuel : nat) (s : string) {struct fuel} :
    option (list uval * string) :=
  match fuel with
  | O => None
  | S fuel' =>
      match scan_once fuel' s with
      | Some (value, r) =>
          match skip_ws r with
          | "" => None
          | String c r' =>
              if Ascii.eqb c "]" then Some ([value], r')
              else if Ascii.eqb c "," then
                match JSONArray_items fuel' (skip_ws r') with
                | Some (values, rest) => Some (value :: values, rest)
                | None => None
                end
              else None
          end
      | None => None
      end
  end
with JSONObject_items (fuel : nat) (s : string) {struct fuel} :
    option (list (unicode * uval) * string) :=
  match fuel with
  | O => None
  | S fuel' =>
      match scanstring s with
      | Some (key, r) =>
          match skip_ws r with
          | "" => None
          | String c r' =>
              if Ascii.eqb c ":" then
                match scan_once fuel' (skip_ws r') with
                | Some (value, r2) =>
                    match skip_ws r2 with
                    | "" => None
                    | String c2 r3 =>
                        if Ascii.eqb c2 "}" then Some ([(key, value)], r3)
                        else if Ascii.eqb c2 "," then
                          match skip_ws r3 with
                          | "" => None
                          | String c3 r4 =>
                              if Ascii.eqb c3 dquote then
                                match JSONObject_items fuel' r4 with
                                | Some (pairs, rest) =>
                                    Some ((key, value) :: pairs, rest)
                                | None => None
                                end
                              else None
                          end
                        else None
                    end
                | None => None
                end
              else None
          end
      | None => None
      end
  end.

(** [json.loads(s)] *)
Definition json_loads (s : string) : option uval :=
  match scan_once (S (String.length s)) (skip_ws s) with
  | Some (obj, rest) =>
      match skip_ws rest with
      | "" => Some obj
      | _ => None
      end
  | None => None
  end.

(** ** Python values at run time *)

(** A [TypeError], an instance of a subclass of [Exception]. *)
Definition TypeError (msg : string) : pyexn := Exception_ msg.

(** [type(v).__name__] *)
Definition type_name (v : pyval) : string :=
  match v with
  | PNone => "NoneType"
  | PBool _ => "bool"
  | PInt _ => "int"
  | PStr _ => "str"
  | PList _ => "list"
  | PDict _ => "dict"
  end.

(** [bool(v)] *)
Definition py_truthy (v : pyval) : bool :=
  match v with
  | PNone => false
  | PBool b => b
  | PInt z => negb (z =? 0)%Z
  | PStr s => str_truthy s
  | PList [] => false
  | PList (_ :: _) => true
  | PDict [] => false
  | PDict (_ :: _) => true
  end.

(** [list(enumerate(v, 1))] without the numbers: the items [iter(v)]
    yields, the characters of a [str] and the keys of a [dict]
    included. *)
Definition py_iter (v : pyval) : outcome (list pyval) :=
  match v with
  | PList l => Ret l
  | PStr s => Ret (map (fun c => PStr (String c "")) (list_ascii_of_string s))
  | PDict d => Ret (map (fun item => PStr (fst item)) d)
  | _ => Raise (TypeError ("'" +:+ type_name v +:+ "' object is not iterable"))
  end.

Fixpoint dict_lookup (d : list (string * pyval)) (key : string) : option pyval :=
  match d with
  | [] => None
  | (k, v) :: rest => if String.eqb k key then Some v else dict_lookup rest key
  end.

(** [v[key]] for a [str] key *)
Definition py_getitem (v : pyval) (key : string) : outcome pyval :=
  match v with
  | PDict d =>
      match dict_lookup d key with
      | Some x => Ret x
      | None => Raise (KeyError key)
      end
  | PList _ => Raise (TypeError "list indices must be integers or slices, not str")
  | PStr _ => Raise (TypeError "string indices must be integers, not 'str'")
  | _ => Raise (TypeError ("'" +:+ type_name v +:+ "' object is not subscriptable"))
  end.

(** [repr(v)] *)
Fixpoint py_repr (v : pyval) : string :=
  match v with
  | PNone => "None"
  | PBool true => "True"
  | PBool false => "False"
  | PInt z => pretty z
  | PStr s => repr_str s
  | PList l => "[" +:+ join ", " (map py_repr l) +:+ "]"
  | PDict d =>
      "{" +:+
      join ", " (map (fun item => repr_str (fst item) +:+ ": " +:+ py_repr (snd item)) d) +:+
      "}"
  end.

(** [str(v)], which a replacement field of an f-string applies. *)
Definition py_str (v : pyval) : string :=
  match v with
  | PStr s => s
  | _ => py_repr v
  end.

(** ** The page (app.py, lines 124-228)

    A run of the script draws the page from top to bottom.  [screen]
    holds what has been drawn, in order: the elements [main] draws
    itself and, as [ElEffect], what the functions above print, show or
    send.  A container ([st.expander], [st.spinner]) is the element that
    opens it; what follows it up to the next element of [main]'s own
    level is inside it. *)

Inductive element : Type :=
| ElEffect (ev : event)
| ElSidebarHeader (body : string)              (* st.sidebar.header *)
| ElWidget (label : string)                    (* an input widget *)
| ElSpinner (text : string)                    (* with st.spinner(text): *)
| ElSuccess (body : string)                    (* st.success *)
| ElExpander (label : string) (expanded : bool) (* with st.expander(label): *)
| ElText (body : string)                       (* st.text *)
| ElSubheader (body : string)                  (* st.subheader *)
| ElWrite (v : pyval)                          (* st.write *)
| ElDownloadButton (label data file_name mime : string).

Record page_state : Type := mkPage {
  disk : gmap string (list Byte.byte);   (* files on disk: path -> content *)
  screen : list element
}.

Definition Page (A : Type) : Type := page_state -> page_state * outcome A.

Definition page_ret {A} (a : A) : Page A := fun u => (u, Ret a).

Definition page_bind {A B} (c : Page A) (k : A -> Page B) : Page B :=
  fun u =>
    match c u with
    | (u', Ret a) => k a u'
    | (u', Raise e) => (u', Raise e)
    end.

Notation "'let*' x ':=' c 'in' k" := (page_bind c (fun x => k))
  (at level 10, x name, c at level 100, k at level 200).
Notation "'do*' c 'in' k" := (page_bind c (fun _ => k))
  (at level 10, c at level 100, k at level 200).

(** An expression that may raise. *)
Definition page_lift {A} (o : outcome A) : Page A := fun u => (u, o).

Definition show (el : element) : Page unit :=
  fun u => (mkPage (disk u) (screen u ++ [el]), Ret tt).

(** A call of one of the functions above.  They only add to the trace
    and never read it: what the call adds is what it leaves on an empty
    trace. *)
Definition call {A} (c : M A) : Page A :=
  fun u =>
    match c (mkState (disk u) []) with
    | (st', o) => (mkPage (fs st') (screen u ++ map ElEffect (trace st')), o)
    end.

(** What the user has set on the input widgets when the script runs:
    the files in the uploader and, by the label of the widget, the
    position of the option chosen, the value of the slider and whether
    the button has just been clicked. *)
Record session : Type := mkSession {
  uploaded : list uploaded_file;
  chosen : string -> nat;
  slid : string -> Z;
  clicked : string -> bool
}.

(** [st.selectbox(label, options)], [st.radio(label, options)]: the
    option chosen; the first option, which the widget starts with, when
    the position is none of an option. *)
Definition st_selectbox {A} (ui : session) (label : string) (first : A)
    (others : list A) : Page A :=
  do* show (ElWidget label) in
  page_ret (nth (chosen ui label) (first :: others) first).

Definition st_radio {A} (ui : session) (label : string) (first : A)
    (others : list A) : Page A :=
  st_selectbox ui label first others.

(** [st.file_uploader(label, type="pdf", accept_multiple_files=True)] *)
Definition st_file_uploader (ui : session) (label : string) :
    Page (list uploaded_file) :=
  do* show (ElWidget label) in
  page_ret (uploaded ui).

(** [st.slider(label, min_value, max_value, value)]: the value set,
    between the bounds; [value], which the widget starts with,
    otherwise. *)
Definition st_slider (ui : session) (label : string) (min_value max_value value : Z) :
    Page Z :=
  do* show (ElWidget label) in
  page_ret (if ((min_value <=? slid ui label) && (slid ui label <=? max_value))%Z
            then slid ui label else value).

(** [st.button(label)] *)
Definition st_button (ui : session) (label : string) : Page bool :=
  do* show (ElWidget label) in
  page_ret (clicked ui label).

(** Line 161: [text[:1000] + "..." if len(text) > 1000 else text] *)
Definition preview (text : string) : string :=
  if Nat.ltb 1000 (String.length text) then py_slice_to 1000 text +:+ "..." else text.

(** Lines 184-186: the loop over [enumerate(qa_pairs, 1)], from item
    number [i] on. *)
Fixpoint show_qa_expanders (i : Z) (items : list pyval) : Page unit :=
  match items with
  | [] => page_ret tt
  | qa :: rest =>
      let* question := page_lift (py_getitem qa "question") in
      do* show (ElExpander ("Q" +:+ pretty i +:+ ": " +:+ py_str question) true) in
      let* answer := page_lift (py_getitem qa "answer") in
      do* show (ElWrite answer) in
      show_qa_expanders (i + 1) rest
  end.

(** Lines 189-190: the list comprehension, from item number [i] on. *)
Fixpoint qa_text_chunks (i : Z) (items : list pyval) : outcome (list string) :=
  match items with
  | [] => Ret []
  | qa :: rest =>
      match py_getitem qa "question" with
      | Ret question =>
          match py_getitem qa "answer" with
          | Ret answer =>
              match qa_text_chunks (i + 1) rest with
              | Ret chunks =>
                  Ret (("Q" +:+ pretty i +:+ ": " +:+ py_str question +:+ nl +:+
                        "A: " +:+ py_str answer) :: chunks)
              | Raise e => Raise e
              end
          | Raise e => Raise e
          end
      | Raise e => Raise e
      end
  end.

(** Lines 183-196: what is drawn for the value [generate_custom_qa]
    returned. *)
Definition show_qa_pairs (selected_file : uploaded_file) (qa_pairs : pyval) :
    Page unit :=
  if py_truthy qa_pairs then
    let* items := page_lift (py_iter qa_pairs) in
    do* show_qa_expanders 1 items in
    let* items' := page_lift (py_iter qa_pairs) in
    let* chunks := page_lift (qa_text_chunks 1 items') in
    let qa_text := join (nl +:+ nl) chunks in
    show (ElDownloadButton "Download Q&A" qa_text
            ("qa_results_" +:+ name selected_file +:+ ".txt") "text/plain")
  else page_ret tt.

(** Lines 150-196 *)
Definition single_file_analysis (w : world) (ui : session) (m : model)
    (parser_choice : string) (file0 : uploaded_file) (others : list uploaded_file) :
    Page unit :=
  let* selected_file := st_selectbox ui "Select file to analyze" file0 others in
  do* show (ElSpinner "Processing PDF...") in
  let* text := call (extract_text_from_pdf w selected_file parser_choice) in
  match text with
  | Some text =>
      if str_truthy text then
        do* show (ElSuccess "PDF processed successfully!") in
        do* show (ElExpander "View extracted text" false) in
        do* show (ElText (preview text)) in
        let* summary_clicked := st_button ui "Generate Summary" in
        do* (if summary_clicked then
               do* show (ElSpinner "Generating summary...") in
               let* summary := call (generate_summary m text) in
               match summary with
               | Some s =>
                   if str_truthy s then
                     do* show (ElSubheader "Document Summary") in
                     show (ElWrite (PStr s))
                   else page_ret tt
               | None => page_ret tt
               end
             else page_ret tt) in
        do* show (ElSubheader "Generate Questions & Answers") in
        let* question_type :=
          st_selectbox ui "Question Type" "factual"
            ["conceptual"; "analytical"; "application"] in
        let* num_questions := st_slider ui "Number of questions" 1 10 5 in
        let* qa_clicked := st_button ui "Generate Q&A" in
        if qa_clicked then
          do* show (ElSpinner "Generating questions and answers...") in
          let* qa_pairs :=
            call (generate_custom_qa w m text question_type num_questions) in
          show_qa_pairs selected_file qa_pairs
        else page_ret tt
      else page_ret tt
  | None => page_ret tt
  end.

(** Lines 216-219: the loop over [enumerate(result['qa_pairs'], 1)],
    from item number [i] on. *)
Fixpoint show_qa_lines (i : Z) (items : list pyval) : Page unit :=
  match items with
  | [] => page_ret tt
  | qa :: rest =>
      let* question := page_lift (py_getitem qa "question") in
      do* show (ElWrite (PStr ("Q" +:+ pretty i +:+ ": " +:+ py_str question))) in
      let* answer := page_lift (py_getitem qa "answer") in
      do* show (ElWrite (PStr ("A: " +:+ py_str answer))) in
      do* show (ElWrite (PStr "---")) in
      show_qa_lines (i + 1) rest
  end.

(** Lines 210-219 *)
Fixpoint show_results (results : list pyval) : Page unit :=
  match results with
  | [] => page_ret tt
  | result :: rest =>
      let* filename := page_lift (py_getitem result "filename") in
      do* show (ElExpander ("Results for " +:+ py_str filename) true) in
      do* show (ElSubheader "Summary") in
      let* summary := page_lift (py_getitem result "summary") in
      do* show (ElWrite summary) in
      do* show (ElSubheader "Key Questions & Answers") in
      let* qa_pairs := page_lift (py_getitem result "qa_pairs") in
      let* items := page_lift (py_iter qa_pairs) in
      do* show_qa_lines 1 items in
      show_results rest
  end.

(** Lines 199-228 *)
Definition batch_analysis (w : world) (ui : session) (m : model)
    (uploaded_files : list uploaded_file) : Page unit :=
  do* show (ElWrite (PStr ("Processing " +:+ pretty (length uploaded_files) +:+
                           " files..."))) in
  let* start := st_button ui "Start Batch Analysis" in
  if start then
    do* show (ElSpinner "Processing files...") in
    let* results := call (process_multiple_pdfs w uploaded_files m) in
    match results with
    | [] => page_ret tt
    | _ :: _ =>
        do* show (ElSuccess "Batch analysis complete!") in
        do* show_results results in
        let json_results := save_analysis_results results in
        show (ElDownloadButton "Download All Results" json_results
                "batch_analysis_results.json" "application/json")
    end
  else page_ret tt.

(** Lines 131-228: the widget tree, given the model handle. *)
Definition page_widgets (w : world) (ui : session) (m : model) : Page unit :=
  do* show (ElSidebarHeader "Configuration") in
  let* parser_choice := st_selectbox ui "PDF Parser" "PyMuPDF" ["PyPDF2"] in
  let* uploaded_files := st_file_uploader ui "Choose PDF files" in
  match uploaded_files with
  | [] => page_ret tt
  | file0 :: others =>
      let* analysis_type :=
        st_radio ui "Choose analysis type" "Single File Analysis" ["Batch Analysis"] in
      if String.eqb analysis_type "Single File Analysis"
      then single_file_analysis w ui m parser_choice file0 others
      else batch_analysis w ui m uploaded_files
  end.

(** [main] (lines 124-228) with its widget tree. *)
Definition main_page (w : world) (ui : session) : Page unit :=
  let* m :=
    call (do! st_title "Enhanced PDF Analysis with Gemini AI" in
          do! st_write "Upload PDF files for comprehensive analysis and Q&A generation" in
          configure_gemini w) in
  page_widgets w ui m.

(** * Vocabulary of the statements *)

(** ** Extraction *)

(** The pages the selected backend reads from the uploaded file. *)
Definition backend_pages (w : world) (pdf_file : uploaded_file)
    (parser_choice : string) : outcome (list page) :=
  if String.eqb parser_choice "PyMuPDF"
  then fitz_pages w (getvalue pdf_file)
  else pypdf2_pages w (getvalue pdf_file).

(** The texts of the pages in page order, joined with nothing between
    them. *)
Fixpoint join_texts (texts : list string) : string :=
  match texts with
  | [] => ""
  | t :: rest => t +:+ join_texts rest
  end.

(** The texts of the pages, up to the first page that raises. *)
Fixpoint page_texts (pages : list page) : outcome (list string) :=
  match pages with
  | [] => Ret []
  | Ret t :: rest =>
      match page_texts rest with
      | Ret texts => Ret (t :: texts)
      | Raise e => Raise e
      end
  | Raise e :: _ => Raise e
  end.

(** What the batch loop gets from the extractor for a file: the text, or
    [None] when opening the document or reading a page raised. *)
Definition extracted_text (w : world) (f : uploaded_file) : option string :=
  match fitz_pages w (getvalue f) with
  | Ret pages =>
      match page_texts pages with
      | Ret texts => Some (join_texts texts)
      | Raise _ => None
      end
  | Raise _ => None
  end.

(** What the handler of [extract_text_from_pdf] makes of an exception
    raised in state [st]. *)
Definition extraction_failed (st : state) (e : pyexn) :
    state * outcome (option string) :=
  if is_Exception e
  then (add_events st [EvStError ("Error extracting text from PDF: " +:+ str_exn e)],
        Ret None)
  else (st, Raise e).

(** What a branch of [extract_text_from_pdf] returns for the pages its
    backend found, from state [st], leaving state [done] when every page
    was read. *)
Definition extraction_run (pages : outcome (list page)) (st done : state) :
    state * outcome (option string) :=
  match pages with
  | Ret pages =>
      match page_texts pages with
      | Ret texts => (done, Ret (Some (join_texts texts)))
      | Raise e => extraction_failed st e
      end
  | Raise e => extraction_failed st e
  end.

(** ** Generation *)

(** What [generate_summary] does, by the answer of the service. *)
Definition summary_run (m : model) (text : string) (st : state) :
    state * outcome (option string) :=
  let prompt := summary_prompt text in
  match generate_content_text m prompt with
  | Ret response_text => (add_events st [EvGenerate prompt], Ret (Some response_text))
  | Raise e =>
      if is_Exception e
      then (add_events st [EvGenerate prompt;
                           EvStError ("Error generating summary: " +:+ str_exn e)],
            Ret None)
      else (add_events st [EvGenerate prompt], Raise e)
  end.

(** What [generate_custom_qa] does once the template is found, by the
    answers of the service and of [eval]. *)
Definition qa_run (w : world) (m : model) (template : string) (n : Z)
    (text : string) (st : state) : state * outcome pyval :=
  let prompt := qa_prompt template n text in
  match generate_content_text m prompt with
  | Ret response_text =>
      match py_eval w response_text with
      | Ret v => (add_events st [EvGenerate prompt; EvEval response_text], Ret v)
      | Raise e =>
          if is_Exception e
          then (add_events st [EvGenerate prompt; EvEval response_text;
                               EvStError ("Error generating Q&A: " +:+ str_exn e)],
                Ret PNone)
          else (add_events st [EvGenerate prompt; EvEval response_text], Raise e)
      end
  | Raise e =>
      if is_Exception e
      then (add_events st [EvGenerate prompt;
                           EvStError ("Error generating Q&A: " +:+ str_exn e)],
            Ret PNone)
      else (add_events st [EvGenerate prompt], Raise e)
  end.

(** A library call that, when it fails, raises an [Exception]. *)
Definition catchable {A} (o : outcome A) : Prop :=
  match o with
  | Ret _ => True
  | Raise e => is_Exception e = true
  end.

(** No library the batch calls raises past [except Exception]. *)
Definition only_exceptions (w : world) (m : model) : Prop :=
  (forall data, catchable (fitz_pages w data)) /\
  (forall data pages, fitz_pages w data = Ret pages -> Forall catchable pages) /\
  (forall prompt, catchable (generate_content_text m prompt)) /\
  (forall code, catchable (py_eval w code)).

(** The [summary] field of a document with text [t]. *)
Definition summary_of (m : model) (t : string) : option string :=
  match generate_content_text m (summary_prompt t) with
  | Ret response_text => Some response_text
  | Raise _ => None
  end.

Definition factual_template : string :=
  default "" (prompt_templates !! "factual").

(** The [qa_pairs] field of a document with text [t]. *)
Definition qa_of (w : world) (m : model) (t : string) : pyval :=
  match generate_content_text m (qa_prompt factual_template 3 t) with
  | Ret response_text =>
      match py_eval w response_text with
      | Ret v => v
      | Raise _ => PNone
      end
  | Raise _ => PNone
  end.

(** The entries of a batch: one per file with non-empty text, in the
    order of the files. *)
Fixpoint batch_entries (w : world) (m : model) (files : list uploaded_file) :
    list pyval :=
  match files with
  | [] => []
  | f :: rest =>
      match extracted_text w f with
      | Some t =>
          if str_truthy t
          then result_dict (name f) (summary_of m t) (qa_of w m t)
               :: batch_entries w m rest
          else batch_entries w m rest
      | None => batch_entries w m rest
      end
  end.

(** The files that get an entry. *)
Definition has_text (w : world) (f : uploaded_file) : bool :=
  text_truthy (extracted_text w f).

(** [entry['filename']] *)
Definition entry_filename (entry : pyval) : option string :=
  match entry with
  | PDict (("filename", PStr s) :: _) => Some s
  | _ => None
  end.

(** The prompts sent to the service, oldest first. *)
Fixpoint prompts_sent (tr : list event) : list string :=
  match tr with
  | [] => []
  | EvGenerate prompt :: rest => prompt :: prompts_sent rest
  | _ :: rest => prompts_sent rest
  end.

(** ** The record types of the specification's data model *)

Record QARecord : Type := mkQA {
  qa_question : string;
  qa_answer : string
}.

Record AnalysisResult : Type := mkResult {
  ar_filename : string;
  ar_summary : option string;          (* [None]: absent *)
  ar_qa_pairs : option (list QARecord) (* [None]: absent *)
}.

Definition qa_to_py (q : QARecord) : pyval :=
  PDict [ ("question", PStr (qa_question q)); ("answer", PStr (qa_answer q)) ].

Definition qa_pairs_to_py (qs : option (list QARecord)) : pyval :=
  match qs with
  | Some l => PList (map qa_to_py l)
  | None => PNone
  end.

(** The dict [process_multiple_pdfs] builds for such a record. *)
Definition result_to_py (r : AnalysisResult) : pyval :=
  result_dict (ar_filename r) (ar_summary r) (qa_pairs_to_py (ar_qa_pairs r)).

(** Follows the specification: a decoded Q&A response is a sequence of
    mappings, each with exactly the keys [question] and [answer]. *)
Definition is_qa_record (v : pyval) : bool :=
  match v with
  | PDict [ (k1, _); (k2, _) ] =>
      (String.eqb k1 "question" && String.eqb k2 "answer") ||
      (String.eqb k1 "answer" && String.eqb k2 "question")
  | _ => false
  end.

Definition is_qa_records (v : pyval) : bool :=
  match v with
  | PList l => forallb is_qa_record l
  | _ => false
  end.

(** ** JSON values of the export *)

(** A Unicode scalar value: a code point up to 0x10FFFF that is no
    surrogate. *)
Definition is_scalar (n : N) : bool :=
  ((n <=? 1114111) && negb ((55296 <=? n) && (n <=? 57343)))%N.

(** A text without surrogates. *)
Definition scalar_text (s : unicode) : Prop := forallb is_scalar s = true.

(** An integer that [str] and [int] convert: Python refuses the
    conversion of an integer of more than 4300 digits
    ([sys.int_info.default_max_str_digits]). *)
Definition int_has_str (z : Z) : Prop := (Z.abs z < 10 ^ 4300)%Z.

(** The values the round trip covers: texts without surrogates,
    integers that can be printed, and no key twice in a dict. *)
Inductive json_plain : uval -> Prop :=
| plain_none : json_plain UNone
| plain_bool (b : bool) : json_plain (UBool b)
| plain_int (z : Z) : int_has_str z -> json_plain (UInt z)
| plain_str (s : unicode) : scalar_text s -> json_plain (UStr s)
| plain_list (l : list uval) :
    Forall json_plain l -> json_plain (UList l)
| plain_dict (d : list (unicode * uval)) :
    List.NoDup (map fst d) ->
    Forall (fun item => scalar_text (fst item)) d ->
    Forall (fun item => json_plain (snd item)) d ->
    json_plain (UDict d).

(** The characters a JSON value of the export can start with. *)
Definition starts_value (c : ascii) : bool :=
  Ascii.eqb c dquote || Ascii.eqb c "{" || Ascii.eqb c "[" ||
  Ascii.eqb c "n" || Ascii.eqb c "t" || Ascii.eqb c "f" ||
  Ascii.eqb c "-" || is_digit c.

(** A text that cannot continue a number: it is empty, or starts with
    the comma or the line feed the export writes after an item. *)
Definition after_value (rest : string) : Prop :=
  match rest with
  | "" => True
  | String c _ => c = ","%char \/ c = "010"%char
  end.

(** The text of a non-empty array from its first item on: the items
    [x], [xs] written by [enc] with [sep] between them, then [closing],
    the bracket and [rest]. *)
Fixpoint array_text (enc : uval -> string) (sep closing : string)
    (x : uval) (xs : list uval) (rest : string) : string :=
  enc x +:+
  match xs with
  | [] => closing +:+ String "]" rest
  | y :: ys => sep +:+ array_text enc sep closing y ys rest
  end.

(** The text of a non-empty object from the character after the opening
    quote of its first key on. *)
Fixpoint object_text (enc : uval -> string) (sep closing : string)
    (key : unicode) (value : uval) (items : list (unicode * uval))
    (rest : string) : string :=
  escape_unicode key +:+
  String dquote
    (": " +:+ enc value +:+
     match items with
     | [] => closing +:+ String "}" rest
     | (k, v) :: items' =>
         sep +:+ String dquote (object_text enc sep closing k v items' rest)
     end).

(** Fuel that suffices to read a value back. *)
Fixpoint json_size (v : uval) : nat :=
  match v with
  | UList l => S (list_sum (map (fun x => S (json_size x)) l))
  | UDict d => S (list_sum (map (fun item => S (json_size (snd item))) d))
  | _ => 1
  end.

(** Fuel that suffices for the items of a container. *)
Definition items_size (items : list uval) : nat :=
  list_sum (map (fun x => S (json_size x)) items).

(** A value that [scan_once] reads back from its encoding, at any
    nesting level and before any text that can follow a value, given
    fuel for its size. *)
Definition reads_back (indent : nat) (v : uval) : Prop :=
  forall (level : nat) (rest : string) (fuel : nat),
    after_value rest ->
    json_size v <= fuel ->
    scan_once fuel (iterencode_unicode indent level v +:+ rest) = Some (v, rest).

(** ** The records over all code points *)

(** The records of the data model with texts over all code points, as
    the values of a Python [str] are. *)
Record UQARecord : Type := mkUQA {
  uqa_question : unicode;
  uqa_answer : unicode
}.

Record UAnalysisResult : Type := mkUResult {
  uar_filename : unicode;
  uar_summary : option unicode;           (* [None]: absent *)
  uar_qa_pairs : option (list UQARecord)  (* [None]: absent *)
}.

Definition uqa_to_uval (q : UQARecord) : uval :=
  UDict [ (utext "question", UStr (uqa_question q));
          (utext "answer", UStr (uqa_answer q)) ].

(** The dict [process_multiple_pdfs] builds for such a record. *)
Definition uresult_to_uval (r : UAnalysisResult) : uval :=
  UDict [ (utext "filename", UStr (uar_filename r));
          (utext "summary",
           match uar_summary r with
           | Some s => UStr s
           | None => UNone
           end);
          (utext "qa_pairs",
           match uar_qa_pairs r with
           | Some l => UList (map uqa_to_uval l)
           | None => UNone
           end) ].

(** A record with texts below 256, among the records over all code
    points. *)
Definition qa_to_unicode (q : QARecord) : UQARecord :=
  mkUQA (utext (qa_question q)) (utext (qa_answer q)).

Definition result_to_unicode (r : AnalysisResult) : UAnalysisResult :=
  mkUResult (utext (ar_filename r)) (option_map utext (ar_summary r))
    (option_map (map qa_to_unicode) (ar_qa_pairs r)).

(** The record a decoded dict stands for. *)
Definition uval_to_qa (v : uval) : option UQARecord :=
  match v with
  | UDict [ (k1, UStr q); (k2, UStr a) ] =>
      if bool_decide (k1 = utext "question") && bool_decide (k2 = utext "answer")
      then Some (mkUQA q a)
      else None
  | _ => None
  end.

Fixpoint uval_to_qa_list (l : list uval) : option (list UQARecord) :=
  match l with
  | [] => Some []
  | v :: rest =>
      match uval_to_qa v, uval_to_qa_list rest with
      | Some q, Some qs => Some (q :: qs)
      | _, _ => None
      end
  end.

Definition uval_to_result (v : uval) : option UAnalysisResult :=
  match v with
  | UDict [ (k1, UStr f); (k2, s); (k3, q) ] =>
      if bool_decide (k1 = utext "filename") && bool_decide (k2 = utext "summary") &&
         bool_decide (k3 = utext "qa_pairs")
      then
        match
          match s with
          | UNone => Some None
          | UStr t => Some (Some t)
          | _ => None
          end,
          match q with
          | UNone => Some None
          | UList l => option_map Some (uval_to_qa_list l)
          | _ => None
          end
        with
        | Some s', Some q' => Some (mkUResult f s' q')
        | _, _ => None
        end
      else None
  | _ => None
  end.

Fixpoint uval_to_results (l : list uval) : option (list UAnalysisResult) :=
  match l with
  | [] => Some []
  | v :: rest =>
      match uval_to_result v, uval_to_results rest with
      | Some r, Some rs => Some (r :: rs)
      | _, _ => None
      end
  end.

(** Records whose texts hold no surrogate code points. *)
Definition scalar_qa (q : UQARecord) : Prop :=
  scalar_text (uqa_question q) /\ scalar_text (uqa_answer q).

Definition scalar_result (r : UAnalysisResult) : Prop :=
  scalar_text (uar_filename r) /\
  match uar_summary r with
  | Some s => scalar_text s
  | None => True
  end /\
  match uar_qa_pairs r with
  | Some l => Forall scalar_qa l
  | None => True
  end.

(** ** A small world to run the program in *)

(** A document is a list of bytes, one page per byte: byte 0 is a page
    whose extraction raises, byte 1 a page without text, any other byte
    a page holding that character.  The empty document cannot be
    opened. *)
Definition demo_page (b : Byte.byte) : page :=
  match b with
  | Byte.x00 => Raise (Exception_ "page has no text layer")
  | Byte.x01 => Ret ""
  | _ => Ret (String (ascii_of_byte b) "")
  end.

Definition demo_pages (data : list Byte.byte) : outcome (list page) :=
  match data with
  | [] => Raise (Exception_ "cannot open empty document")
  | _ => Ret (map demo_page data)
  end.

Definition demo_response : string := "[{'question': 'Q', 'answer': 'A'}]".

(** [eval] on the two expressions the examples use. *)
Definition demo_eval (code : string) : outcome pyval :=
  if String.eqb code demo_response
  then Ret (PList [PDict [("question", PStr "Q"); ("answer", PStr "A")]])
  else if String.eqb code "42" then Ret (PInt 42)
  else Raise (Exception_ "invalid syntax").

(** A service that answers every prompt with the same text. *)
Definition const_model (response_text : string) : model :=
  mkModel (fun _ => Ret response_text).

Definition demo_model : model := const_model demo_response.

Definition demo_tmp_name (files : gmap string (list Byte.byte)) : string :=
  "/tmp/tmp" +:+ pretty (size files) +:+ ".pdf".

Definition demo_world (key : option string) : world :=
  mkWorld key (fun _ _ => demo_model) demo_tmp_name demo_pages demo_pages demo_eval.

Definition st0 : state := mkState ∅ [].

Definition file_of (filename text : string) : uploaded_file :=
  mkFile filename (list_byte_of_string text).

(** A world whose [eval] runs [exit()] whatever it is given. *)
Definition exiting_world : world :=
  mkWorld None (fun _ _ => demo_model) demo_tmp_name demo_pages demo_pages
    (fun _ => Raise SystemExit).

(** A world in which PyMuPDF opens no document and PyPDF2 reads them
    all. *)
Definition pypdf2_world : world :=
  mkWorld None (fun _ _ => demo_model) demo_tmp_name
    (fun _ => Raise (Exception_ "PyMuPDF cannot open the document"))
    demo_pages demo_eval.

(** Splits a prompt, a chain of appends, around [text[:n]]. *)
Ltac split_prompt t :=
  lazymatch t with
  | ?a +:+ ?rest =>
      lazymatch rest with
      | py_slice_to _ _ +:+ ?post => constr:((a, post))
      | _ =>
          let r := split_prompt rest in
          lazymatch r with
          | (?p, ?q) => constr:((a +:+ p, q))
          end
      end
  end.

(** ** Files on disk and requests of a batch *)

(** The extraction of a file gives no text: opening the document or
    reading one of its pages raised. *)
Definition extraction_fails (w : world) (f : uploaded_file) : bool :=
  match extracted_text w f with
  | Some _ => false
  | None => true
  end.

(** The prompts the batch sends for a file: the summary prompt and the
    prompt for three factual questions when the file has text, none
    otherwise. *)
Definition document_prompts (w : world) (f : uploaded_file) : list string :=
  match extracted_text w f with
  | Some t =>
      if str_truthy t
      then [summary_prompt t; qa_prompt factual_template 3 t]
      else []
  | None => []
  end.

(** The small world, with temporary names no file on disk has. *)
Definition fresh_world : world :=
  mkWorld None (fun _ _ => demo_model) (fresh_string "/tmp/tmp.pdf")
    demo_pages demo_pages demo_eval.

(** ** Characters of the export *)

(** Printable ASCII, or the newline. *)
Definition export_char (c : ascii) : bool :=
  let n := N_of_ascii c in
  ((n =? 10) || ((32 <=? n) && (n <=? 126)))%N.

Fixpoint all_chars (p : ascii -> bool) (s : string) : bool :=
  match s with
  | "" => true
  | String c s' => p c && all_chars p s'
  end.

(** ** The page *)

(** A request to the service, or a call of [eval]. *)
Definition is_request (el : element) : bool :=
  match el with
  | ElEffect (EvGenerate _) => true
  | ElEffect (EvEval _) => true
  | _ => false
  end.

Definition no_request (el : element) : bool := negb (is_request el).

(** A computation that only adds to the screen, and only elements that
    satisfy [p]. *)
Definition adds_only {A} (p : element -> bool) (c : Page A) : Prop :=
  forall u, exists els,
    screen (fst (c u)) = screen u ++ els /\ forallb p els = true.

(** The three statements [main] starts with. *)
Definition main_header (w : world) : M model :=
  do! st_title "Enhanced PDF Analysis with Gemini AI" in
  do! st_write "Upload PDF files for comprehensive analysis and Q&A generation" in
  configure_gemini w.

(** A session in which no button has been clicked. *)
Definition idle_session (files : list uploaded_file) (mode : nat) : session :=
  mkSession files (fun label => if String.eqb label "Choose analysis type" then mode else 0)
    (fun _ => 5%Z) (fun _ => false).

Definition u0 : page_state := mkPage ∅ [].

(** The elements [main] draws itself, download buttons apart. *)
Definition own_element (el : element) : bool :=
  match el with
  | ElEffect _ => false
  | ElDownloadButton _ _ _ _ => false
  | _ => true
  end.


(** A value of [qa_pairs] item that has the two keys the page reads. *)
Definition has_qa_keys (qa : pyval) : bool :=
  match py_getitem qa "question", py_getitem qa "answer" with
  | Ret _, Ret _ => true
  | _, _ => false
  end.

(** The entry of the Q&A download for the pair at position [i], counted
    from 0: the pairs are numbered from 1. *)
Definition qa_entry (i : nat) (q : QARecord) : string :=
  "Q" +:+ pretty (Z.of_nat i + 1)%Z +:+ ": " +:+ qa_question q +:+ nl +:+
  "A: " +:+ qa_answer q.

(** The text of the Q&A download: the entries, a blank line between
    them. *)
Definition qa_text (l : list QARecord) : string :=
  join (nl +:+ nl) (imap qa_entry l).

(** What the page draws for the pair at position [i]. *)
Definition qa_expander (i : nat) (q : QARecord) : list element :=
  [ ElExpander ("Q" +:+ pretty (Z.of_nat i + 1)%Z +:+ ": " +:+ qa_question q) true;
    ElWrite (PStr (qa_answer q)) ].

(** A result the batch page can draw: it has the three keys, and its
    [qa_pairs] can be iterated and yields items with the two keys. *)
Definition can_display (result : pyval) : bool :=
  match py_getitem result "filename", py_getitem result "summary",
        py_getitem result "qa_pairs" with
  | Ret _, Ret _, Ret qa_pairs =>
      match py_iter qa_pairs with
      | Ret items => forallb has_qa_keys items
      | Raise _ => false
      end
  | _, _, _ => false
  end.

(** A session of batch analysis in which the start button has just been
    clicked. *)
Definition batch_session (files : list uploaded_file) : session :=
  mkSession files (fun label => if String.eqb label "Choose analysis type" then 1 else 0)
    (fun _ => 5%Z) (fun label => String.eqb label "Start Batch Analysis").

(** The prompts sent to the service in a run of the page, oldest
    first. *)
Fixpoint screen_prompts (scr : list element) : list string :=
  match scr with
  | [] => []
  | ElEffect (EvGenerate prompt) :: rest => prompt :: screen_prompts rest
  | _ :: rest => screen_prompts rest
  end.

(** A session of single-file analysis: the file, the question type and
    the number of questions set, and the buttons clicked. *)
Definition single_session (files : list uploaded_file) (file question_type : nat)
    (num_questions : Z) (summary_clicked qa_clicked : bool) : session :=
  mkSession files
    (fun label =>
       if String.eqb label "Select file to analyze" then file
       else if String.eqb label "Question Type" then question_type
       else 0)
    (fun _ => num_questions)
    (fun label =>
       if String.eqb label "Generate Summary" then summary_clicked
       else if String.eqb label "Generate Q&A" then qa_clicked
       else false).

(** The session [ui] with another parser chosen in the sidebar. *)
Definition with_parser (ui : session) (parser : nat) : session :=
  mkSession (uploaded ui)
    (fun label => if String.eqb label "PDF Parser" then parser else chosen ui label)
    (slid ui) (clicked ui).

(** * Properties *)

(** ** Strings *)

Lemma append_empty_r (s : string) : s +:+ "" = s.
Proof. induction s as [|c s IH]; simpl; [reflexivity | now rewrite IH]. Qed.

Lemma append_assoc (a b c : string) : (a +:+ b) +:+ c = a +:+ (b +:+ c).
Proof. induction a as [|x a IH]; simpl; [reflexivity | now rewrite IH]. Qed.

(** ** Text extraction *)

Lemma concat_pages_run (pages : list page) (text : string) (st : state) :
  concat_pages pages text st =
  (st, match page_texts pages with
       | Ret texts => Ret (text +:+ join_texts texts)
       | Raise e => Raise e
       end).
Proof.
  revert text. induction pages as [|p rest IH]; intros text.
  - cbn [concat_pages page_texts join_texts]. unfold ret.
    now rewrite append_empty_r.
  - cbn [concat_pages page_texts]. unfold bind, lift.
    destruct p as [t|e]; [|reflexivity].
    rewrite IH. destruct (page_texts rest) as [texts|e]; [|reflexivity].
    cbn [join_texts]. now rewrite append_assoc.
Qed.

Lemma page_texts_all (texts : list string) :
  page_texts (map Ret texts) = Ret texts.
Proof.
  induction texts as [|t texts IH]; [reflexivity|].
  cbn [map page_texts]. now rewrite IH.
Qed.

Lemma page_texts_inv (pages : list page) (texts : list string) :
  page_texts pages = Ret texts -> pages = map Ret texts.
Proof.
  revert texts. induction pages as [|p pages IH]; intros texts.
  - intros [= <-]. reflexivity.
  - cbn [page_texts]. destruct p as [t|e]; [|discriminate].
    destruct (page_texts pages) as [texts'|e]; [|discriminate].
    intros [= <-]. cbn [map]. now rewrite (IH texts' eq_refl).
Qed.

(** The PyMuPDF branch up to the end of the page loop: the temporary
    file is on disk and the loop has not touched the state. *)
Lemma fitz_branch_open (w : world) (data : list Byte.byte) (st : state) :
  let st1 := mkState (<[tmp_name w (fs st) := data]> (fs st)) (trace st) in
  fitz_open w (tmp_name w (fs st)) st1 = (st1, fitz_pages w data).
Proof.
  intros st1. unfold fitz_open. simpl. now rewrite lookup_insert_eq.
Qed.

Lemma os_unlink_written (path : string) (data : list Byte.byte) (st : state) :
  os_unlink path (mkState (<[path := data]> (fs st)) (trace st)) =
  (mkState (delete path (fs st)) (trace st), Ret tt).
Proof.
  unfold os_unlink. simpl. rewrite lookup_insert_eq.
  now rewrite delete_insert_eq.
Qed.

(** The PyMuPDF branch, whatever the library does: the file is written
    before the document is opened, and deleted after the last page. *)
Lemma extract_fitz (w : world) (f : uploaded_file) (st : state) :
  let tmp_path := tmp_name w (fs st) in
  extract_text_from_pdf w f "PyMuPDF" st =
  extraction_run (fitz_pages w (getvalue f))
    (mkState (<[tmp_path := getvalue f]> (fs st)) (trace st))
    (mkState (delete tmp_path (fs st)) (trace st)).
Proof.
  intros tmp_path.
  unfold extract_text_from_pdf, try_except, extraction_run.
  change (String.eqb "PyMuPDF" "PyMuPDF") with true. cbv iota.
  unfold bind at 1. unfold NamedTemporaryFile_write.
  unfold bind at 1. rewrite fitz_branch_open. fold tmp_path.
  destruct (fitz_pages w (getvalue f)) as [pages|e].
  - unfold bind at 1. rewrite concat_pages_run.
    destruct (page_texts pages) as [texts|e].
    + unfold bind at 1. unfold tmp_path. rewrite os_unlink_written. reflexivity.
    + unfold extraction_failed. destruct (is_Exception e); reflexivity.
  - unfold extraction_failed. destruct (is_Exception e); reflexivity.
Qed.

(** The other branch: no file is involved. *)
Lemma extract_pypdf2 (w : world) (f : uploaded_file) (parser_choice : string)
    (st : state) :
  parser_choice <> "PyMuPDF" ->
  extract_text_from_pdf w f parser_choice st =
  extraction_run (pypdf2_pages w (getvalue f)) st st.
Proof.
  intros Hne. apply String.eqb_neq in Hne.
  unfold extract_text_from_pdf, try_except, extraction_run. rewrite Hne.
  unfold bind at 1. unfold PdfReader_pages, lift.
  destruct (pypdf2_pages w (getvalue f)) as [pages|e].
  - unfold bind at 1. rewrite concat_pages_run.
    destruct (page_texts pages) as [texts|e]; [reflexivity|].
    unfold extraction_failed. destruct (is_Exception e); reflexivity.
  - unfold extraction_failed. destruct (is_Exception e); reflexivity.
Qed.

Lemma extraction_failed_fs (st : state) (e : pyexn) :
  fs (fst (extraction_failed st e)) = fs st.
Proof. unfold extraction_failed. destruct (is_Exception e); reflexivity. Qed.

Lemma extraction_run_success (pages : outcome (list page)) (st done st' : state)
    (text : string) :
  extraction_run pages st done = (st', Ret (Some text)) ->
  exists texts, pages = Ret (map Ret texts) /\ text = join_texts texts.
Proof.
  unfold extraction_run, extraction_failed.
  destruct pages as [pages|e].
  - destruct (page_texts pages) as [texts|e] eqn:Htexts.
    + intros [= _ <-]. exists texts.
      now rewrite (page_texts_inv _ _ Htexts).
    + destruct (is_Exception e); discriminate.
  - destruct (is_Exception e); discriminate.
Qed.

(** Either branch, by the selector. *)
Lemma extract_by_selector (w : world) (f : uploaded_file) (parser_choice : string)
    (st : state) :
  exists st1 done,
    extract_text_from_pdf w f parser_choice st =
    extraction_run (backend_pages w f parser_choice) st1 done.
Proof.
  unfold backend_pages.
  destruct (String.eqb_spec parser_choice "PyMuPDF") as [->|Hne].
  - eexists _, _. apply extract_fitz.
  - exists st, st. now apply extract_pypdf2.
Qed.

(** ** C9 *)

(** C9: a parser selector other than the exact string "PyMuPDF", a
    supported name or not, is not rejected: extraction runs the PyPDF2
    branch, as it does for "PyPDF2" itself.  It reads the pages PyPDF2
    finds in the upload and writes no file: when every page gives its
    text the call returns the texts joined, in the state it started
    from; when PyPDF2 or a page raises an [Exception] the call shows
    the error of the library and returns [None]; an exception outside
    [Exception] leaves the call.  No error is raised or shown for the
    selector itself. *)
Theorem unknown_selector_uses_pypdf2 :
  forall (w : world) (f : uploaded_file) (parser_choice : string) (st : state),
    parser_choice <> "PyMuPDF" ->
    extract_text_from_pdf w f parser_choice st =
      extract_text_from_pdf w f "PyPDF2" st /\
    backend_pages w f parser_choice = pypdf2_pages w (getvalue f) /\
    fs (fst (extract_text_from_pdf w f parser_choice st)) = fs st /\
    extract_text_from_pdf w f parser_choice st =
      match
        match pypdf2_pages w (getvalue f) with
        | Ret pages => page_texts pages
        | Raise e => Raise e
        end
      with
      | Ret texts => (st, Ret (Some (join_texts texts)))
      | Raise e =>
          if is_Exception e
          then (add_events st
                  [EvStError ("Error extracting text from PDF: " +:+ str_exn e)],
                Ret None)
          else (st, Raise e)
      end.
Proof.
  intros w f parser_choice st Hne.
  rewrite (extract_pypdf2 w f parser_choice st Hne).
  rewrite (extract_pypdf2 w f "PyPDF2" st) by discriminate.
  split; [reflexivity|]. split; [|split].
  - unfold backend_pages. apply String.eqb_neq in Hne. now rewrite Hne.
  - unfold extraction_run.
    destruct (pypdf2_pages w (getvalue f)) as [pages|e];
      [destruct (page_texts pages) as [texts|e]|];
      reflexivity || apply extraction_failed_fs.
  - unfold extraction_run, extraction_failed.
    destruct (pypdf2_pages w (getvalue f)) as [pages|e]; [|reflexivity].
    destruct (page_texts pages) as [texts|e]; reflexivity.
Qed.

Lemma unknown_selector_uses_pypdf2_witness :
  "pdfminer" <> "PyMuPDF" /\
  extract_text_from_pdf pypdf2_world (file_of "a.pdf" "ab") "pdfminer" st0 =
    (st0, Ret (Some "ab")) /\
  extract_text_from_pdf pypdf2_world (file_of "a.pdf" "ab") "PyMuPDF" st0 <>
    (st0, Ret (Some "ab")).
Proof.
  split; [discriminate|]. split.
  - destruct (unknown_selector_uses_pypdf2 pypdf2_world (file_of "a.pdf" "ab")
                "pdfminer" st0) as (_ & _ & _ & Hrun); [discriminate|].
    rewrite Hrun. reflexivity.
  - vm_compute. discriminate.
Defined.

(** ** C6 *)

(** C6: when extraction succeeds, under either backend, the text returned
    is the texts of the pages in page order with nothing inserted
    between them; and when the backend reads every page, extraction
    succeeds with that text. *)
Theorem extract_concatenates_pages :
  forall (w : world) (f : uploaded_file) (parser_choice : string) (st : state),
    (forall st' text,
        extract_text_from_pdf w f parser_choice st = (st', Ret (Some text)) ->
        exists texts,
          backend_pages w f parser_choice = Ret (map Ret texts) /\
          text = join_texts texts) /\
    (forall texts,
        backend_pages w f parser_choice = Ret (map Ret texts) ->
        snd (extract_text_from_pdf w f parser_choice st) =
          Ret (Some (join_texts texts))).
Proof.
  intros w f parser_choice st.
  destruct (extract_by_selector w f parser_choice st) as (st1 & done & ->).
  split.
  - intros st' text. apply extraction_run_success.
  - intros texts ->. unfold extraction_run. now rewrite page_texts_all.
Qed.

Lemma extract_concatenates_pages_witness :
  snd (extract_text_from_pdf (demo_world None) (file_of "a.pdf" "abc") "PyMuPDF" st0) =
    Ret (Some "abc") /\
  snd (extract_text_from_pdf (demo_world None) (file_of "a.pdf" "abc") "PyPDF2" st0) =
    Ret (Some "abc") /\
  exists texts,
    backend_pages (demo_world None) (file_of "a.pdf" "abc") "PyMuPDF" =
      Ret (map Ret texts) /\
    "abc" = join_texts texts.
Proof.
  split; [|split].
  - apply (proj2 (extract_concatenates_pages (demo_world None)
                    (file_of "a.pdf" "abc") "PyMuPDF" st0) ["a"; "b"; "c"]).
    reflexivity.
  - apply (proj2 (extract_concatenates_pages (demo_world None)
                    (file_of "a.pdf" "abc") "PyPDF2" st0) ["a"; "b"; "c"]).
    reflexivity.
  - apply (proj1 (extract_concatenates_pages (demo_world None)
                    (file_of "a.pdf" "abc") "PyMuPDF" st0)
             (mkState ∅ []) "abc").
    vm_compute. reflexivity.
Defined.

(** ** C3 *)

(** C3 (the code departs from the claim): when PyMuPDF cannot open the
    document, or a page raises, the handler reports the error and
    returns [None] with the temporary copy still on disk; the file is
    removed only on the path where every page was read. *)
Theorem temp_file_survives_failed_extraction :
  forall (w : world) (f : uploaded_file) (st : state) (e : pyexn),
    is_Exception e = true ->
    (fitz_pages w (getvalue f) = Raise e \/
     exists pages, fitz_pages w (getvalue f) = Ret pages /\
                   page_texts pages = Raise e) ->
    extract_text_from_pdf w f "PyMuPDF" st =
      (mkState (<[tmp_name w (fs st) := getvalue f]> (fs st))
         (trace st ++ [EvStError ("Error extracting text from PDF: " +:+ str_exn e)]),
       Ret None) /\
    fs (fst (extract_text_from_pdf w f "PyMuPDF" st)) !! tmp_name w (fs st) =
      Some (getvalue f).
Proof.
  intros w f st e He Hfail.
  assert (Hrun : extract_text_from_pdf w f "PyMuPDF" st =
      (mkState (<[tmp_name w (fs st) := getvalue f]> (fs st))
         (trace st ++ [EvStError ("Error extracting text from PDF: " +:+ str_exn e)]),
       Ret None)).
  { rewrite extract_fitz. cbv zeta. unfold extraction_run, extraction_failed.
    destruct Hfail as [-> | (pages & -> & ->)]; now rewrite He. }
  split; [exact Hrun|].
  rewrite Hrun. cbn [fst fs]. apply lookup_insert_eq.
Qed.

Lemma temp_file_survives_failed_extraction_witness :
  fs (fst (extract_text_from_pdf (demo_world None) (file_of "b.pdf" "") "PyMuPDF" st0))
    !! "/tmp/tmp0.pdf" = Some [] /\
  fs st0 !! "/tmp/tmp0.pdf" = None.
Proof.
  split; [|reflexivity].
  apply (temp_file_survives_failed_extraction (demo_world None) (file_of "b.pdf" "")
           st0 (Exception_ "cannot open empty document")).
  - reflexivity.
  - left. reflexivity.
Defined.

(** ** Generation *)

Lemma add_events_app (st : state) (evs evs' : list event) :
  add_events (add_events st evs) evs' = add_events st (evs ++ evs').
Proof. unfold add_events. cbn [fs trace]. now rewrite app_assoc. Qed.

Lemma emit_add (ev : event) (st : state) :
  emit ev st = (add_events st [ev], Ret tt).
Proof. reflexivity. Qed.

Lemma generate_summary_run (m : model) (text : string) (st : state) :
  generate_summary m text st = summary_run m text st.
Proof.
  unfold generate_summary, summary_run, try_except, generate_content.
  unfold bind at 1. unfold bind at 1. rewrite emit_add. unfold lift.
  destruct (generate_content_text m (summary_prompt text)) as [r|e].
  - reflexivity.
  - destruct (is_Exception e); [|reflexivity].
    unfold bind, st_error. rewrite emit_add, add_events_app. reflexivity.
Qed.

Lemma generate_custom_qa_run (w : world) (m : model) (text question_type : string)
    (template : string) (n : Z) (st : state) :
  prompt_templates !! question_type = Some template ->
  generate_custom_qa w m text question_type n st = qa_run w m template n text st.
Proof.
  intros Htpl.
  unfold generate_custom_qa, qa_run, dict_getitem. rewrite Htpl.
  unfold bind at 1. unfold ret at 1.
  unfold try_except, generate_content, eval.
  unfold bind at 1. unfold bind at 1. rewrite emit_add. unfold lift.
  destruct (generate_content_text m (qa_prompt template n text)) as [r|e].
  - unfold bind at 1. rewrite emit_add, add_events_app. cbn [app].
    destruct (py_eval w r) as [v|e]; [reflexivity|].
    destruct (is_Exception e); [|reflexivity].
    unfold bind, st_error. rewrite emit_add, add_events_app. reflexivity.
  - destruct (is_Exception e); [|reflexivity].
    unfold bind, st_error. rewrite emit_add, add_events_app. reflexivity.
Qed.

Lemma prompt_templates_unknown (question_type : string) :
  question_type <> "factual" ->
  question_type <> "conceptual" ->
  question_type <> "analytical" ->
  question_type <> "application" ->
  prompt_templates !! question_type = None.
Proof.
  intros H1 H2 H3 H4. unfold prompt_templates. cbn [list_to_map foldr fst snd].
  rewrite !lookup_insert_ne by congruence. apply lookup_empty.
Qed.

(** ** C4 *)

(** C4: for a question type that is none of the four known ones,
    [generate_custom_qa] raises [KeyError] to its caller and leaves the
    state as it found it: no prompt was sent to the service, no error
    was reported, and no template was substituted. *)
Theorem unknown_question_type_fails_fast :
  forall (w : world) (m : model) (text question_type : string) (n : Z) (st : state),
    question_type <> "factual" ->
    question_type <> "conceptual" ->
    question_type <> "analytical" ->
    question_type <> "application" ->
    generate_custom_qa w m text question_type n st =
      (st, Raise (KeyError question_type)).
Proof.
  intros w m text question_type n st H1 H2 H3 H4.
  unfold generate_custom_qa, dict_getitem.
  rewrite (prompt_templates_unknown _ H1 H2 H3 H4).
  reflexivity.
Qed.

Lemma unknown_question_type_fails_fast_witness :
  generate_custom_qa (demo_world None) demo_model "some text" "trivia" 5 st0 =
    (st0, Raise (KeyError "trivia")).
Proof.
  apply (unknown_question_type_fails_fast (demo_world None) demo_model
           "some text" "trivia" 5 st0); discriminate.
Defined.

(** ** C5 *)

Lemma py_slice_to_length (n : nat) (s : string) :
  String.length (py_slice_to n s) <= n.
Proof.
  revert s. induction n as [|n IH]; intros [|c s]; cbn [py_slice_to String.length];
    try lia.
  specialize (IH s). lia.
Qed.

Lemma py_slice_to_prefix (n : nat) (s : string) :
  exists rest, s = py_slice_to n s +:+ rest.
Proof.
  revert s. induction n as [|n IH]; intros s.
  - exists s. destruct s; reflexivity.
  - destruct s as [|c s]; [exists ""; reflexivity|].
    destruct (IH s) as [rest Hrest]. exists rest.
    cbn [py_slice_to String.append]. now rewrite <- Hrest.
Qed.

Lemma py_slice_to_all (n : nat) (s : string) :
  String.length s <= n -> py_slice_to n s = s.
Proof.
  revert s. induction n as [|n IH]; intros [|c s]; cbn [py_slice_to String.length];
    intros Hlen; try reflexivity; try lia.
  rewrite IH by lia. reflexivity.
Qed.

Lemma prompts_sent_app (tr tr' : list event) :
  prompts_sent (tr ++ tr') = prompts_sent tr ++ prompts_sent tr'.
Proof.
  induction tr as [|ev tr IH]; [reflexivity|].
  destruct ev; cbn [app prompts_sent]; rewrite IH; reflexivity.
Qed.

Lemma summary_run_prompts (m : model) (text : string) (st : state) :
  prompts_sent (trace (fst (summary_run m text st))) =
  prompts_sent (trace st) ++ [summary_prompt text].
Proof.
  unfold summary_run.
  destruct (generate_content_text m (summary_prompt text)) as [r|e];
    [|destruct (is_Exception e)];
    cbn [fst add_events trace]; rewrite prompts_sent_app; reflexivity.
Qed.

Lemma qa_run_prompts (w : world) (m : model) (template : string) (n : Z)
    (text : string) (st : state) :
  prompts_sent (trace (fst (qa_run w m template n text st))) =
  prompts_sent (trace st) ++ [qa_prompt template n text].
Proof.
  unfold qa_run.
  destruct (generate_content_text m (qa_prompt template n text)) as [r|e];
    [destruct (py_eval w r) as [v|e]|];
    try destruct (is_Exception e);
    cbn [fst add_events trace]; rewrite prompts_sent_app; reflexivity.
Qed.

Lemma summary_prompt_shape :
  exists pre post, forall text : string,
    summary_prompt text = pre +:+ py_slice_to 5000 text +:+ post.
Proof.
  let t := eval unfold summary_prompt in (summary_prompt "") in
  let r := split_prompt t in
  lazymatch r with
  | (?p, ?q) => exists p, q
  end.
  intros text. unfold summary_prompt. rewrite !append_assoc. reflexivity.
Qed.

Lemma qa_prompt_shape (template : string) (n : Z) :
  exists pre post, forall text : string,
    qa_prompt template n text = pre +:+ py_slice_to 5000 text +:+ post.
Proof.
  let t := eval unfold qa_prompt in (qa_prompt template n "") in
  let r := split_prompt t in
  lazymatch r with
  | (?p, ?q) => exists p, q
  end.
  intros text. unfold qa_prompt. rewrite !append_assoc. reflexivity.
Qed.



(** ** C1 *)

(** C1 (the code departs from the claim): for a known question type,
    whatever text the service answers is handed to [eval], and whatever
    value [eval] returns is returned as it is; nothing checks that the
    value is a sequence of question/answer mappings. *)
Theorem qa_response_is_evaluated_unchecked :
  forall (w : world) (m : model) (text question_type template : string) (n : Z)
         (st : state) (response_text : string) (v : pyval),
    prompt_templates !! question_type = Some template ->
    generate_content_text m (qa_prompt template n text) = Ret response_text ->
    py_eval w response_text = Ret v ->
    generate_custom_qa w m text question_type n st =
      (add_events st [EvGenerate (qa_prompt template n text); EvEval response_text],
       Ret v).
Proof.
  intros w m text question_type template n st response_text v Htpl Hgen Heval.
  rewrite (generate_custom_qa_run _ _ _ _ _ _ _ Htpl).
  unfold qa_run. rewrite Hgen, Heval. reflexivity.
Qed.

Lemma qa_response_is_evaluated_unchecked_witness :
  snd (generate_custom_qa (demo_world None) (const_model "42") "some text"
         "factual" 3 st0) = Ret (PInt 42) /\
  is_qa_records (PInt 42) = false /\
  In (EvEval "42")
     (trace (fst (generate_custom_qa (demo_world None) (const_model "42") "some text"
                    "factual" 3 st0))).
Proof.
  pose proof (qa_response_is_evaluated_unchecked (demo_world None) (const_model "42")
                "some text" "factual" factual_template 3 st0 "42" (PInt 42)
                eq_refl eq_refl eq_refl) as Hrun.
  rewrite Hrun. split; [reflexivity|]. split; [reflexivity|].
  cbn [fst add_events trace st0 app]. right. left. reflexivity.
Defined.

(** ** C8 *)

Lemma configure_gemini_missing (w : world) (st : state) :
  key_missing (GOOGLE_API_KEY w) = true ->
  configure_gemini w st =
    (add_events st [EvPrint "Please set your GOOGLE_API_KEY"], Raise SystemExit).
Proof.
  intros Hkey. unfold configure_gemini. rewrite Hkey.
  unfold bind, print, exit, raise. rewrite emit_add. reflexivity.
Qed.

Lemma configure_gemini_present (w : world) (st : state) :
  key_missing (GOOGLE_API_KEY w) = false ->
  configure_gemini w st =
    (add_events st [EvGenaiConfigure (default "" (GOOGLE_API_KEY w))],
     Ret (GenerativeModel w (default "" (GOOGLE_API_KEY w)) "gemini-pro")).
Proof.
  intros Hkey. unfold configure_gemini. rewrite Hkey.
  unfold bind, ret, genai_configure. rewrite emit_add. reflexivity.
Qed.

(** C8: with no credential ([GOOGLE_API_KEY] is [None] or empty),
    [configure_gemini] prints its message and exits, so [main] ends with
    [SystemExit] after its two header widgets and never runs the widget
    tree: no file is written, no prompt is sent, nothing is evaluated.
    With a credential, [configure_gemini] configures the client and
    returns the model handle, which [main] hands to the widget tree. *)
Theorem missing_credential_is_fatal :
  forall (w : world) (st : state),
    (key_missing (GOOGLE_API_KEY w) = true ->
     configure_gemini w st =
       (add_events st [EvPrint "Please set your GOOGLE_API_KEY"], Raise SystemExit) /\
     forall widgets : model -> M unit,
       main w widgets st =
         (add_events st
            [EvStTitle "Enhanced PDF Analysis with Gemini AI";
             EvStWrite "Upload PDF files for comprehensive analysis and Q&A generation";
             EvPrint "Please set your GOOGLE_API_KEY"],
          Raise SystemExit)) /\
    (key_missing (GOOGLE_API_KEY w) = false ->
     exists key : string,
       GOOGLE_API_KEY w = Some key /\ key <> "" /\
       configure_gemini w st =
         (add_events st [EvGenaiConfigure key],
          Ret (GenerativeModel w key "gemini-pro")) /\
       forall widgets : model -> M unit,
         main w widgets st =
           widgets (GenerativeModel w key "gemini-pro")
             (add_events st
                [EvStTitle "Enhanced PDF Analysis with Gemini AI";
                 EvStWrite "Upload PDF files for comprehensive analysis and Q&A generation";
                 EvGenaiConfigure key])).
Proof.
  intros w st. split; intros Hkey.
  - split; [now apply configure_gemini_missing|].
    intros widgets. unfold main, st_title, st_write.
    unfold bind at 1. rewrite emit_add.
    unfold bind at 1. rewrite emit_add, add_events_app.
    unfold bind at 1. rewrite (configure_gemini_missing _ _ Hkey), add_events_app.
    reflexivity.
  - assert (Hsome : exists key, GOOGLE_API_KEY w = Some key /\ key <> "").
    { unfold key_missing, text_truthy in Hkey.
      destruct (GOOGLE_API_KEY w) as [[|c key]|]; try discriminate.
      exists (String c key). split; [reflexivity | discriminate]. }
    destruct Hsome as (key & Hk & Hne). exists key.
    split; [exact Hk|]. split; [exact Hne|].
    assert (Hcfg : forall st', configure_gemini w st' =
              (add_events st' [EvGenaiConfigure key],
               Ret (GenerativeModel w key "gemini-pro"))).
    { intros st'. rewrite (configure_gemini_present _ _ Hkey), Hk. reflexivity. }
    split; [apply Hcfg|].
    intros widgets. unfold main, st_title, st_write.
    unfold bind at 1. rewrite emit_add.
    unfold bind at 1. rewrite emit_add, add_events_app.
    unfold bind at 1. rewrite Hcfg, add_events_app.
    reflexivity.
Qed.

Lemma missing_credential_is_fatal_witness :
  (forall widgets : model -> M unit,
     main (demo_world None) widgets st0 =
       (add_events st0
          [EvStTitle "Enhanced PDF Analysis with Gemini AI";
           EvStWrite "Upload PDF files for comprehensive analysis and Q&A generation";
           EvPrint "Please set your GOOGLE_API_KEY"],
        Raise SystemExit)) /\
  (forall widgets : model -> M unit,
     snd (main (demo_world (Some "")) widgets st0) = Raise SystemExit) /\
  exists key : string,
    configure_gemini (demo_world (Some "secret")) st0 =
      (add_events st0 [EvGenaiConfigure key], Ret demo_model).
Proof.
  split; [|split].
  - apply (proj1 (missing_credential_is_fatal (demo_world None) st0)).
    reflexivity.
  - intros widgets.
    rewrite (proj2 (proj1 (missing_credential_is_fatal (demo_world (Some "")) st0)
                      eq_refl) widgets).
    reflexivity.
  - destruct (proj2 (missing_credential_is_fatal (demo_world (Some "secret")) st0)
                eq_refl) as (key & _ & _ & Hcfg & _).
    exists key. exact Hcfg.
Defined.

(** ** Batch processing *)

(** One turn of the loop of [process_files]. *)
Lemma process_files_cons (w : world) (m : model) (f : uploaded_file)
    (rest : list uploaded_file) (results : list pyval) (st st' : state)
    (text : option string) :
  extract_text_from_pdf w f "PyMuPDF" st = (st', Ret text) ->
  process_files w (f :: rest) m results st =
  match text with
  | Some t =>
      if str_truthy t then
        (let! summary := generate_summary m t in
         let! qa_pairs := generate_custom_qa w m t "factual" 3 in
         process_files w rest m
           (results ++ [result_dict (name f) summary qa_pairs])) st'
      else process_files w rest m results st'
  | None => process_files w rest m results st'
  end.
Proof.
  intros Hextract. cbn [process_files]. unfold bind at 1. rewrite Hextract.
  destruct text as [t|]; [|reflexivity].
  destruct (str_truthy t); reflexivity.
Qed.

Lemma factual_template_lookup :
  prompt_templates !! "factual" = Some factual_template.
Proof. vm_compute. reflexivity. Qed.

Section Batch.

(** A world and a model whose failures [except Exception] catches. *)
Variables (w : world) (m : model).
Hypothesis Hopen : forall data, catchable (fitz_pages w data).
Hypothesis Hpages :
  forall data pages, fitz_pages w data = Ret pages -> Forall catchable pages.
Hypothesis Hgen : forall prompt, catchable (generate_content_text m prompt).
Hypothesis Heval : forall code, catchable (py_eval w code).

Lemma page_texts_catchable (pages : list page) :
  Forall catchable pages -> catchable (page_texts pages).
Proof.
  induction 1 as [|p rest Hp _ IH]; [exact I|].
  cbn [page_texts]. destruct p as [t|e]; [|exact Hp].
  destruct (page_texts rest); [exact I | exact IH].
Qed.

(** The value [extract_text_from_pdf] hands to the batch loop. *)
Lemma extract_fitz_value (f : uploaded_file) (st : state) :
  snd (extract_text_from_pdf w f "PyMuPDF" st) = Ret (extracted_text w f).
Proof.
  rewrite extract_fitz. cbv zeta.
  unfold extraction_run, extraction_failed, extracted_text.
  pose proof (Hopen (getvalue f)) as Ho.
  pose proof (Hpages (getvalue f)) as Hp.
  destruct (fitz_pages w (getvalue f)) as [pages|e].
  - pose proof (page_texts_catchable pages (Hp pages eq_refl)) as Hc.
    destruct (page_texts pages) as [texts|e]; [reflexivity|].
    cbn [catchable] in Hc. rewrite Hc. reflexivity.
  - cbn [catchable] in Ho. rewrite Ho. reflexivity.
Qed.

Lemma summary_run_value (t : string) (st : state) :
  snd (summary_run m t st) = Ret (summary_of m t).
Proof.
  unfold summary_run, summary_of.
  pose proof (Hgen (summary_prompt t)) as Hc.
  destruct (generate_content_text m (summary_prompt t)) as [r|e]; [reflexivity|].
  cbn [catchable] in Hc. rewrite Hc. reflexivity.
Qed.

Lemma qa_run_value (t : string) (st : state) :
  snd (qa_run w m factual_template 3 t st) = Ret (qa_of w m t).
Proof.
  unfold qa_run, qa_of.
  pose proof (Hgen (qa_prompt factual_template 3 t)) as Hc.
  destruct (generate_content_text m (qa_prompt factual_template 3 t)) as [r|e].
  - pose proof (Heval r) as Hc'.
    destruct (py_eval w r) as [v|e]; [reflexivity|].
    cbn [catchable] in Hc'. rewrite Hc'. reflexivity.
  - cbn [catchable] in Hc. rewrite Hc. reflexivity.
Qed.

(** The loop computes the entries, after the results it starts with. *)
Lemma process_files_entries (files : list uploaded_file) :
  forall (results : list pyval) (st : state),
    snd (process_files w files m results st) =
    Ret (results ++ batch_entries w m files).
Proof.
  induction files as [|f rest IH]; intros results st.
  - cbn [process_files batch_entries]. unfold ret. cbn [snd].
    now rewrite app_nil_r.
  - pose proof (extract_fitz_value f st) as Hval.
    destruct (extract_text_from_pdf w f "PyMuPDF" st) as [st' o] eqn:Hextract.
    cbn [snd] in Hval. subst o.
    rewrite (process_files_cons _ _ _ _ _ _ _ _ Hextract).
    cbn [batch_entries].
    destruct (extracted_text w f) as [t|]; [|apply IH].
    destruct (str_truthy t); [|apply IH].
    unfold bind at 1. rewrite generate_summary_run.
    pose proof (summary_run_value t st') as Hsum.
    destruct (summary_run m t st') as [st1 o1]. cbn [snd] in Hsum. subst o1.
    unfold bind at 1.
    rewrite (generate_custom_qa_run _ _ _ _ _ _ _ factual_template_lookup).
    pose proof (qa_run_value t st1) as Hqa.
    destruct (qa_run w m factual_template 3 t st1) as [st2 o2].
    cbn [snd] in Hqa. subst o2.
    rewrite IH, <- app_assoc. reflexivity.
Qed.

End Batch.

Lemma batch_entries_filenames (w : world) (m : model) (files : list uploaded_file) :
  map entry_filename (batch_entries w m files) =
  map (fun f => Some (name f)) (List.filter (has_text w) files).
Proof.
  induction files as [|f rest IH]; [reflexivity|].
  cbn [batch_entries List.filter]. unfold has_text at 1, text_truthy.
  destruct (extracted_text w f) as [t|]; [|exact IH].
  destruct (str_truthy t); [|exact IH].
  cbn [map]. rewrite IH. reflexivity.
Qed.

Lemma demo_only_exceptions (key : option string) (response_text : string) :
  only_exceptions (demo_world key) (const_model response_text).
Proof.
  split; [|split; [|split]].
  - intros [|b data]; exact I || reflexivity.
  - intros [|b data] pages; [discriminate|].
    intros [= <-].
    assert (Hall : forall l, Forall catchable (map demo_page l)).
    { induction l as [|b' l IH]; constructor; [|exact IH].
      destruct b'; exact I || reflexivity. }
    apply (Hall (b :: data)).
  - intros prompt. exact I.
  - intros code. cbn [py_eval demo_world]. unfold demo_eval.
    destruct (String.eqb code demo_response); [exact I|].
    destruct (String.eqb code "42"); [exact I | reflexivity].
Qed.

(** ** C2 *)


(** What [except Exception] does not catch ends the batch: a response
    whose evaluation exits stops [process_multiple_pdfs] at that
    document. *)
Lemma batch_aborts_when_eval_exits :
  snd (process_multiple_pdfs exiting_world
         [file_of "a.pdf" "ab"; file_of "c.pdf" "c"] demo_model st0) =
  Raise SystemExit.
Proof. vm_compute. reflexivity. Qed.



(** ** C10 *)

(** The loop over [files1 ++ files2] is the loop over [files1], then the
    loop over [files2] from the results and the state it left. *)
Lemma process_files_app (w : world) (m : model) (files1 files2 : list uploaded_file) :
  forall (results : list pyval) (st : state),
    process_files w (files1 ++ files2) m results st =
    match process_files w files1 m results st with
    | (st1, Ret results1) => process_files w files2 m results1 st1
    | (st1, Raise e) => (st1, Raise e)
    end.
Proof.
  induction files1 as [|f rest IH]; intros results st.
  - reflexivity.
  - cbn [app].
    destruct (extract_text_from_pdf w f "PyMuPDF" st) as [st1 text] eqn:Hextract.
    destruct text as [text|e].
    + rewrite !(process_files_cons _ _ _ _ _ _ _ _ Hextract).
      destruct text as [t|]; [|apply IH].
      destruct (str_truthy t); [|apply IH].
      unfold bind.
      destruct (generate_summary m t st1) as [st2 [summary|e]]; [|reflexivity].
      destruct (generate_custom_qa w m t "factual" 3 st2) as [st3 [qa|e]];
        [|reflexivity].
      apply IH.
    + cbn [process_files]. unfold bind. rewrite Hextract. reflexivity.
Qed.

(** An extraction that returns adds no prompt to the trace. *)
Lemma extraction_sends_no_prompt (w : world) (f : uploaded_file) (st st' : state)
    (text : option string) :
  extract_text_from_pdf w f "PyMuPDF" st = (st', Ret text) ->
  prompts_sent (trace st') = prompts_sent (trace st).
Proof.
  rewrite extract_fitz. cbv zeta. unfold extraction_run, extraction_failed.
  assert (Hfail : forall e,
             (if is_Exception e
              then (add_events
                      (mkState (<[tmp_name w (fs st) := getvalue f]> (fs st)) (trace st))
                      [EvStError ("Error extracting text from PDF: " +:+ str_exn e)],
                    Ret None)
              else (mkState (<[tmp_name w (fs st) := getvalue f]> (fs st)) (trace st),
                    Raise e)) = (st', Ret text) ->
             prompts_sent (trace st') = prompts_sent (trace st)).
  { intros e. destruct (is_Exception e); [|discriminate].
    intros [= <- _]. cbn [add_events trace].
    rewrite prompts_sent_app. cbn [prompts_sent]. apply app_nil_r. }
  destruct (fitz_pages w (getvalue f)) as [pages|e]; [|apply Hfail].
  destruct (page_texts pages) as [texts|e]; [|apply Hfail].
  intros [= <- _]. reflexivity.
Qed.

(** C10: a document whose extraction returns the empty string is passed
    over as one whose extraction returns [None] is.  Wherever the
    document stands in the batch, the loop goes on with the remaining
    documents from the state extraction left and with the results it
    had: no entry is appended for the document, and no prompt is sent
    for it.  For the empty string extraction has left the trace as it
    was, so nothing is shown either. *)
Theorem empty_text_is_skipped :
  forall (w : world) (m : model) (f : uploaded_file) (rest : list uploaded_file)
         (results : list pyval) (st st' : state),
    (extract_text_from_pdf w f "PyMuPDF" st = (st', Ret (Some "")) ->
     process_files w (f :: rest) m results st = process_files w rest m results st' /\
     trace st' = trace st) /\
    (extract_text_from_pdf w f "PyMuPDF" st = (st', Ret None) ->
     process_files w (f :: rest) m results st = process_files w rest m results st' /\
     prompts_sent (trace st') = prompts_sent (trace st)) /\
    (forall (text : option string) (before : list uploaded_file) (start : state),
       extract_text_from_pdf w f "PyMuPDF" st = (st', Ret text) ->
       text = Some "" \/ text = None ->
       process_multiple_pdfs w before m start = (st, Ret results) ->
       process_multiple_pdfs w (before ++ f :: rest) m start =
         process_files w rest m results st').
Proof.
  intros w m f rest results st st'. split; [|split].
  - intros Hextract. split.
    + rewrite (process_files_cons _ _ _ _ _ _ _ _ Hextract). reflexivity.
    + rewrite extract_fitz in Hextract. cbv zeta in Hextract.
      unfold extraction_run, extraction_failed in Hextract.
      destruct (fitz_pages w (getvalue f)) as [pages|e].
      * destruct (page_texts pages) as [texts|e].
        -- injection Hextract as <- _. reflexivity.
        -- destruct (is_Exception e); discriminate Hextract.
      * destruct (is_Exception e); discriminate Hextract.
  - intros Hextract. split.
    + rewrite (process_files_cons _ _ _ _ _ _ _ _ Hextract). reflexivity.
    + exact (extraction_sends_no_prompt _ _ _ _ _ Hextract).
  - intros text before start Hextract Htext Hbefore.
    unfold process_multiple_pdfs in *.
    rewrite process_files_app, Hbefore.
    rewrite (process_files_cons _ _ _ _ _ _ _ _ Hextract).
    destruct Htext as [-> | ->]; reflexivity.
Qed.

Lemma empty_text_is_skipped_witness :
  extract_text_from_pdf (demo_world None) (mkFile "blank.pdf" [Byte.x01])
    "PyMuPDF" st0 = (st0, Ret (Some "")) /\
  process_files (demo_world None)
    [mkFile "blank.pdf" [Byte.x01]; file_of "c.pdf" "c"] demo_model
    [result_dict "a.pdf" (Some "s") PNone] st0 =
  process_files (demo_world None) [file_of "c.pdf" "c"] demo_model
    [result_dict "a.pdf" (Some "s") PNone] st0 /\
  process_files (demo_world None)
    [file_of "b.pdf" ""; file_of "c.pdf" "c"] demo_model
    [result_dict "a.pdf" (Some "s") PNone] st0 =
  process_files (demo_world None) [file_of "c.pdf" "c"] demo_model
    [result_dict "a.pdf" (Some "s") PNone]
    (fst (extract_text_from_pdf (demo_world None) (file_of "b.pdf" "") "PyMuPDF" st0)) /\
  process_multiple_pdfs (demo_world None)
    [file_of "a.pdf" "ab"; mkFile "blank.pdf" [Byte.x01]; file_of "c.pdf" "c"]
    demo_model st0 =
  process_files (demo_world None) [file_of "c.pdf" "c"] demo_model
    (batch_entries (demo_world None) demo_model [file_of "a.pdf" "ab"])
    (fst (process_multiple_pdfs (demo_world None) [file_of "a.pdf" "ab"]
            demo_model st0)).
Proof.
  assert (Hblank : extract_text_from_pdf (demo_world None)
                     (mkFile "blank.pdf" [Byte.x01]) "PyMuPDF" st0 =
                   (st0, Ret (Some ""))).
  { vm_compute. reflexivity. }
  split; [exact Hblank|]. split; [|split].
  - apply (proj1 (empty_text_is_skipped (demo_world None) demo_model
                    (mkFile "blank.pdf" [Byte.x01]) [file_of "c.pdf" "c"]
                    [result_dict "a.pdf" (Some "s") PNone] st0 st0)).
    exact Hblank.
  - apply (proj1 (proj2 (empty_text_is_skipped (demo_world None) demo_model
                    (file_of "b.pdf" "") [file_of "c.pdf" "c"]
                    [result_dict "a.pdf" (Some "s") PNone] st0
                    (fst (extract_text_from_pdf (demo_world None) (file_of "b.pdf" "")
                            "PyMuPDF" st0))))).
    vm_compute. reflexivity.
  - apply (proj2 (proj2 (empty_text_is_skipped (demo_world None) demo_model
                    (mkFile "blank.pdf" [Byte.x01]) [file_of "c.pdf" "c"]
                    (batch_entries (demo_world None) demo_model [file_of "a.pdf" "ab"])
                    (fst (process_multiple_pdfs (demo_world None) [file_of "a.pdf" "ab"]
                            demo_model st0))
                    (fst (process_multiple_pdfs (demo_world None) [file_of "a.pdf" "ab"]
                            demo_model st0))))
             (Some "") [file_of "a.pdf" "ab"] st0).
    + vm_compute. reflexivity.
    + left. reflexivity.
    + vm_compute. reflexivity.
Defined.


(** ** JSON: strings *)

Lemma hex_value_hex_digit (d : N) :
  (d < 16)%N -> hex_value (hex_digit d) = Some d.
Proof.
  intros Hd.
  assert (Hcases : (d = 0 \/ d = 1 \/ d = 2 \/ d = 3 \/ d = 4 \/ d = 5 \/ d = 6 \/
                    d = 7 \/ d = 8 \/ d = 9 \/ d = 10 \/ d = 11 \/ d = 12 \/
                    d = 13 \/ d = 14 \/ d = 15)%N) by lia.
  repeat (destruct Hcases as [->|Hcases]; [reflexivity|]). subst d. reflexivity.
Qed.

(** The four digits [hex4] writes are read back as the number. *)
Lemma decode_hex4 (n : N) (rest : string) :
  (n < 65536)%N ->
  exists h1 h2 h3 h4,
    hex4 n +:+ rest = String h1 (String h2 (String h3 (String h4 rest))) /\
    decode_uXXXX h1 h2 h3 h4 = Some n.
Proof.
  intros Hn. unfold hex4. do 4 eexists. split; [reflexivity|].
  unfold decode_uXXXX.
  assert (H1 : (n / 4096 < 16)%N) by (apply N.Div0.div_lt_upper_bound; lia).
  assert (H2 : (n / 256 mod 16 < 16)%N) by (apply N.mod_lt; lia).
  assert (H3 : (n / 16 mod 16 < 16)%N) by (apply N.mod_lt; lia).
  assert (H4 : (n mod 16 < 16)%N) by (apply N.mod_lt; lia).
  rewrite !hex_value_hex_digit by assumption. f_equal.
  assert (H16 : 16%N <> 0%N) by discriminate.
  assert (E256 : (n / 256 = n / 16 / 16)%N) by (now rewrite N.Div0.div_div).
  assert (E4096 : (n / 4096 = n / 16 / 16 / 16)%N) by (now rewrite !N.Div0.div_div).
  rewrite E4096, E256.
  pose proof (N.div_mod n 16 H16) as E1.
  pose proof (N.div_mod (n / 16) 16 H16) as E2.
  pose proof (N.div_mod (n / 16 / 16) 16 H16) as E3.
  lia.
Qed.

Lemma lor_small (base hi : N) :
  forallb (fun k => N.lor base (N.of_nat k) =? base + N.of_nat k)%N (seq 0 1024) = true ->
  (hi < 1024)%N -> N.lor base hi = (base + hi)%N.
Proof.
  intros Hall Hhi. rewrite List.forallb_forall in Hall.
  specialize (Hall (N.to_nat hi)). rewrite N2Nat.id in Hall.
  apply N.eqb_eq, Hall, in_seq. lia.
Qed.

(** The two surrogates the encoder writes for a code point from 0x10000
    on are a high and a low one, and the decoder joins them to the code
    point. *)
Lemma surrogate_pair (n : N) :
  (65536 <= n <= 1114111)%N ->
  let s1 := N.lor 55296 (N.land (N.shiftr (n - 65536) 10) 1023) in
  let s2 := N.lor 56320 (N.land (n - 65536) 1023) in
  is_high_surrogate s1 = true /\ is_low_surrogate s2 = true /\
  (s1 < 65536)%N /\ (s2 < 65536)%N /\ join_surrogates s1 s2 = n.
Proof.
  intros Hn. set (n' := (n - 65536)%N).
  assert (Hn' : (n' < 1048576)%N) by (unfold n'; lia).
  change 1023%N with (N.ones 10). rewrite !N.land_ones.
  assert (Hhi : (N.shiftr n' 10 mod 2 ^ 10 = N.shiftr n' 10)%N).
  { apply N.mod_small. rewrite N.shiftr_div_pow2.
    apply N.Div0.div_lt_upper_bound. exact Hn'. }
  rewrite Hhi.
  assert (Hhi_lt : (N.shiftr n' 10 < 1024)%N).
  { rewrite N.shiftr_div_pow2. apply N.Div0.div_lt_upper_bound. exact Hn'. }
  assert (Hlo_lt : (n' mod 2 ^ 10 < 1024)%N) by (apply N.mod_lt; discriminate).
  rewrite (lor_small 55296 _ ltac:(vm_compute; reflexivity) Hhi_lt).
  rewrite (lor_small 56320 _ ltac:(vm_compute; reflexivity) Hlo_lt).
  cbv zeta. unfold is_high_surrogate, is_low_surrogate, join_surrogates.
  assert (Hjoin : N.lor (N.shiftl (N.shiftr n' 10) 10) (n' mod 2 ^ 10) = n').
  { now rewrite <- N.land_ones, <- N.ldiff_ones_r, N.lor_ldiff_and. }
  revert Hjoin Hhi_lt Hlo_lt.
  generalize (N.shiftr n' 10) as hi. generalize (n' mod 2 ^ 10)%N as lo.
  intros lo hi Hjoin Hhi_lt Hlo_lt.
  replace (55296 + hi - 55296)%N with hi by lia.
  replace (56320 + lo - 56320)%N with lo by lia.
  rewrite Hjoin. repeat split.
  - apply andb_true_intro. split; apply N.leb_le; lia.
  - apply andb_true_intro. split; apply N.leb_le; lia.
  - lia.
  - lia.
  - unfold n'. lia.
Qed.

(** The scanner at [\uXXXX] for a code point that is no high
    surrogate. *)
Lemma scanstring_u (h1 h2 h3 h4 : ascii) (s3 : string) (uni : N) :
  decode_uXXXX h1 h2 h3 h4 = Some uni ->
  is_high_surrogate uni = false ->
  scanstring (String "\" (String "u" (String h1 (String h2 (String h3 (String h4 s3)))))) =
  cons_char uni (scanstring s3).
Proof.
  intros Hdecode Hhigh. cbn [scanstring].
  change (N_of_ascii "\" =? 34)%N with false.
  change (N_of_ascii "\" =? 92)%N with true.
  change (N_of_ascii "u" =? 117)%N with true. cbv iota.
  rewrite Hdecode, Hhigh. cbn [andb].
  destruct s3 as [|b [|u s4]]; reflexivity.
Qed.

(** The scanner at the two escapes of a surrogate pair. *)
Lemma scanstring_pair (h1 h2 h3 h4 k1 k2 k3 k4 : ascii) (s5 : string) (uni uni2 : N) :
  decode_uXXXX h1 h2 h3 h4 = Some uni ->
  decode_uXXXX k1 k2 k3 k4 = Some uni2 ->
  is_high_surrogate uni = true ->
  is_low_surrogate uni2 = true ->
  scanstring
    (String "\" (String "u" (String h1 (String h2 (String h3 (String h4
       (String "\" (String "u" (String k1 (String k2 (String k3 (String k4 s5)))))))))))) =
  cons_char (join_surrogates uni uni2) (scanstring s5).
Proof.
  intros Hdecode Hdecode2 Hhigh Hlow. cbn [scanstring].
  change (N_of_ascii "\" =? 34)%N with false.
  change (N_of_ascii "\" =? 92)%N with true.
  change (N_of_ascii "u" =? 117)%N with true. cbv iota.
  rewrite Hdecode, Hhigh. cbn [andb]. cbv iota.
  rewrite Hdecode2, Hlow. reflexivity.
Qed.

Lemma scanstring_escape_code_point (n : N) (rest : string) :
  is_scalar n = true ->
  scanstring (escape_code_point n +:+ rest) = cons_char n (scanstring rest).
Proof.
  intros Hscalar. unfold is_scalar in Hscalar.
  apply andb_prop in Hscalar as [Hmax Hsurrogate].
  apply N.leb_le in Hmax. apply negb_true_iff in Hsurrogate.
  unfold escape_code_point.
  destruct (N.eqb_spec n 34) as [->|H34]; [reflexivity|].
  destruct (N.eqb_spec n 92) as [->|H92]; [reflexivity|].
  destruct (N.eqb_spec n 10) as [->|H10]; [reflexivity|].
  destruct (N.eqb_spec n 13) as [->|H13]; [reflexivity|].
  destruct (N.eqb_spec n 9) as [->|H9]; [reflexivity|].
  destruct (N.eqb_spec n 12) as [->|H12]; [reflexivity|].
  destruct (N.eqb_spec n 8) as [->|H8]; [reflexivity|].
  destruct ((32 <=? n) && (n <=? 126))%N eqn:Hprintable.
  - apply andb_prop in Hprintable as [Hlo Hhi].
    apply N.leb_le in Hlo. apply N.leb_le in Hhi.
    cbn [String.append scanstring].
    rewrite N_ascii_embedding by lia.
    destruct (N.eqb_spec n 34); [contradiction|].
    destruct (N.eqb_spec n 92); [contradiction|].
    destruct (N.ltb_spec n 32); [lia | reflexivity].
  - destruct (N.ltb_spec n 65536) as [Hbmp|Hastral].
    + destruct (decode_hex4 n rest Hbmp) as (h1 & h2 & h3 & h4 & Htext & Hdecode).
      change (("\u" +:+ hex4 n) +:+ rest) with (String "\" (String "u" (hex4 n +:+ rest))).
      rewrite Htext. apply scanstring_u; [exact Hdecode|].
      unfold is_high_surrogate.
      destruct (N.leb_spec 55296 n), (N.leb_spec n 56319); try reflexivity.
      destruct (N.leb_spec 55296 n), (N.leb_spec n 57343); cbn in Hsurrogate;
        try discriminate; lia.
    + cbv zeta.
      destruct (surrogate_pair n ltac:(lia)) as (Hhigh & Hlow & H1 & H2 & Hjoin).
      cbv zeta in Hhigh, Hlow, H1, H2, Hjoin.
      set (s1 := N.lor 55296 (N.land (N.shiftr (n - 65536) 10) 1023)) in *.
      set (s2 := N.lor 56320 (N.land (n - 65536) 1023)) in *.
      rewrite !append_assoc.
      destruct (decode_hex4 s2 rest H2) as (k1 & k2 & k3 & k4 & Htext2 & Hdecode2).
      change ("\u" +:+ hex4 s2 +:+ rest) with (String "\" (String "u" (hex4 s2 +:+ rest))).
      rewrite Htext2.
      destruct (decode_hex4 s1 (String "\" (String "u"
                   (String k1 (String k2 (String k3 (String k4 rest)))))) H1)
        as (h1 & h2 & h3 & h4 & Htext1 & Hdecode1).
      change ("\u" +:+ hex4 s1 +:+ ?t) with (String "\" (String "u" (hex4 s1 +:+ t))).
      rewrite Htext1.
      rewrite (scanstring_pair _ _ _ _ _ _ _ _ _ _ _ Hdecode1 Hdecode2 Hhigh Hlow).
      now rewrite Hjoin.
Qed.

Lemma scanstring_escape_unicode (s : unicode) (rest : string) :
  scalar_text s ->
  scanstring (escape_unicode s +:+ String dquote rest) = Some (s, rest).
Proof.
  unfold scalar_text. induction s as [|n s IH]; intros Hscalar.
  - reflexivity.
  - cbn [forallb] in Hscalar. apply andb_prop in Hscalar as [Hn Hs].
    cbn [escape_unicode].
    rewrite append_assoc, (scanstring_escape_code_point _ _ Hn), (IH Hs).
    reflexivity.
Qed.

(** The encoding of a string, followed by anything, from the character
    after its opening quote. *)
Lemma py_encode_basestring_ascii_app (s : unicode) (rest : string) :
  py_encode_basestring_ascii s +:+ rest =
  String dquote (escape_unicode s +:+ String dquote rest).
Proof.
  unfold py_encode_basestring_ascii. cbn [String.append].
  rewrite append_assoc. reflexivity.
Qed.

(** On texts below 256 the encoder is the one of the export. *)
Lemma escape_code_point_char (c : ascii) :
  escape_code_point (N_of_ascii c) = escape_char c.
Proof.
  destruct c as [b0 b1 b2 b3 b4 b5 b6 b7].
  destruct b0, b1, b2, b3, b4, b5, b6, b7; vm_compute; reflexivity.
Qed.

Lemma escape_unicode_utext (s : string) : escape_unicode (utext s) = escape_str s.
Proof.
  induction s as [|c s IH]; [reflexivity|].
  unfold utext in *. cbn [list_ascii_of_string map escape_unicode escape_str].
  now rewrite escape_code_point_char, IH.
Qed.

Lemma scalar_text_utext (s : string) : scalar_text (utext s).
Proof.
  unfold scalar_text, utext. induction s as [|c s IH]; [reflexivity|].
  cbn [list_ascii_of_string map forallb]. rewrite IH, andb_true_r.
  pose proof (N_ascii_bounded c) as Hc. unfold is_scalar.
  apply andb_true_intro. split; [apply N.leb_le; lia|].
  apply negb_true_iff, andb_false_intro1, N.leb_gt. lia.
Qed.

(** ** JSON: integers *)

Lemma pretty_N_char_digit (d : N) :
  (d < 10)%N ->
  is_digit (pretty_N_char d) = true /\
  (N_of_ascii (pretty_N_char d) - 48 = d)%N.
Proof.
  intros Hd.
  assert (d = 0 \/ d = 1 \/ d = 2 \/ d = 3 \/ d = 4 \/ d = 5 \/ d = 6 \/
          d = 7 \/ d = 8 \/ d = 9)%N as Hcases by lia.
  repeat (destruct Hcases as [-> | Hcases]; [split; reflexivity|]).
  subst d. split; reflexivity.
Qed.

(** The digits [pretty] writes for a positive number are read back as
    that number after the value read so far. *)
Lemma scan_digits_pretty_N_go (x : N) :
  forall s : string,
    exists k : N, forall acc : N,
      scan_digits acc (pretty_N_go x s) = scan_digits (acc * 10 ^ k + x) s.
Proof.
  induction (N.lt_wf_0 x) as [x _ IH]. intros s.
  destruct (N.eq_dec x 0%N) as [->|Hx].
  - exists 0%N. intros acc. rewrite pretty_N_go_0. f_equal. cbn. lia.
  - rewrite pretty_N_go_step by lia.
    destruct (IH (x / 10)%N (N.div_lt x 10 ltac:(lia) eq_refl)
                (String (pretty_N_char (x mod 10)) s)) as [k Hk].
    exists (N.succ k). intros acc. rewrite Hk.
    destruct (pretty_N_char_digit (x mod 10)) as [Hdigit Hvalue];
      [apply N.mod_lt; lia|].
    cbn [scan_digits]. rewrite Hdigit, Hvalue. f_equal.
    rewrite N.pow_succ_r'. pose proof (N.div_mod x 10 ltac:(lia)). lia.
Qed.

(** The first character [pretty] writes for a positive number is a digit
    other than zero. *)
Lemma pretty_N_go_head (x : N) :
  (0 < x)%N ->
  forall s : string,
    exists c tl, pretty_N_go x s = String c tl /\
                 is_digit c = true /\ Ascii.eqb c "0" = false.
Proof.
  induction (N.lt_wf_0 x) as [x _ IH]. intros Hx s.
  rewrite pretty_N_go_step by lia.
  destruct (N.eq_dec (x / 10)%N 0%N) as [Hsmall|Hbig].
  - rewrite Hsmall, pretty_N_go_0.
    assert (x < 10)%N as Hlt by (apply N.div_small_iff in Hsmall; lia).
    rewrite N.mod_small by exact Hlt.
    exists (pretty_N_char x), s. split; [reflexivity|].
    assert (x = 1 \/ x = 2 \/ x = 3 \/ x = 4 \/ x = 5 \/ x = 6 \/
            x = 7 \/ x = 8 \/ x = 9)%N as Hcases by lia.
    repeat (destruct Hcases as [-> | Hcases]; [split; reflexivity|]).
    subst x. split; reflexivity.
  - apply IH; [apply N.div_lt; lia | now apply N.neq_0_lt_0].
Qed.

Lemma after_value_facts (rest : string) :
  after_value rest ->
  has_frac_or_exp rest = false /\
  forall acc : N, scan_digits acc rest = (acc, rest).
Proof.
  destruct rest as [|c rest]; [intros _; split; reflexivity|].
  intros [-> | ->]; split; try reflexivity; destruct rest; reflexivity.
Qed.

Lemma scan_natural_pretty (x : N) (rest : string) :
  after_value rest ->
  scan_natural (pretty x +:+ rest) = Some (x, rest).
Proof.
  intros Hrest. unfold pretty, pretty_N. case_decide as Hx.
  - subst x. reflexivity.
  - assert (Happ : forall y s, pretty_N_go y s +:+ rest = pretty_N_go y (s +:+ rest)).
    { intros y. induction (N.lt_wf_0 y) as [y _ IH]. intros s.
      destruct (N.eq_dec y 0%N) as [->|Hy]; [now rewrite !pretty_N_go_0|].
      rewrite (pretty_N_go_step y s), (pretty_N_go_step y (s +:+ rest)) by lia.
      rewrite IH by (apply N.div_lt; lia). reflexivity. }
    rewrite Happ. cbn [String.append].
    destruct (pretty_N_go_head x ltac:(lia) rest) as (c & tl & Heq & Hdigit & Hzero).
    destruct (scan_digits_pretty_N_go x rest) as [k Hk].
    rewrite Heq in Hk |- *. unfold scan_natural. rewrite Hzero, Hdigit.
    rewrite Hk. cbn [N.mul N.add]. 
    destruct (after_value_facts rest Hrest) as [_ Hstop]. now rewrite Hstop.
Qed.

(** An integer written by [json.dumps] is read back by [match_number]. *)
Lemma match_number_pretty (z : Z) (rest : string) :
  after_value rest ->
  match_number (pretty z +:+ rest) = Some (z, rest).
Proof.
  intros Hrest.
  destruct (after_value_facts rest Hrest) as [Hfloat _].
  assert (Hpos : forall p : positive,
             match_number (pretty (Npos p) +:+ rest) = Some (Z.pos p, rest)).
  { intros p.
    pose proof (scan_natural_pretty (Npos p) rest Hrest) as Hscan.
    unfold pretty, pretty_N in Hscan |- *. case_decide as Hp; [discriminate Hp|].
    destruct (pretty_N_go_head (Npos p) ltac:(lia) "") as (c & tl & Heq & Hdigit & _).
    rewrite Heq in Hscan |- *. cbn [String.append] in Hscan |- *.
    unfold match_number.
    assert (Hdash : Ascii.eqb c "-" = false).
    { destruct c as [b0 b1 b2 b3 b4 b5 b6 b7].
      destruct b0, b1, b2, b3, b4, b5, b6, b7; try reflexivity; discriminate Hdigit. }
    rewrite Hdash, Hscan, Hfloat. reflexivity. }
  destruct z as [|p|p].
  - change (pretty 0%Z) with "0". cbn [String.append].
    unfold match_number. cbn [Ascii.eqb Bool.eqb scan_natural]. now rewrite Hfloat.
  - exact (Hpos p).
  - change (pretty (Z.neg p)) with ("-" +:+ pretty (Npos p)).
    rewrite append_assoc. cbn [String.append].
    unfold match_number. change (Ascii.eqb "-" "-") with true. cbv iota.
    rewrite (scan_natural_pretty (Npos p) rest Hrest), Hfloat. reflexivity.
Qed.

Lemma number_start_facts (c : ascii) :
  is_digit c || Ascii.eqb c "-" = true ->
  starts_value c = true /\
  Ascii.eqb c dquote = false /\ Ascii.eqb c "{" = false /\
  Ascii.eqb c "[" = false /\ Ascii.eqb c "n" = false /\
  Ascii.eqb c "t" = false /\ Ascii.eqb c "f" = false.
Proof.
  destruct c as [b0 b1 b2 b3 b4 b5 b6 b7].
  destruct b0, b1, b2, b3, b4, b5, b6, b7; intros H;
    try discriminate H; repeat split; reflexivity.
Qed.

(** [pretty] writes an integer with a digit or the minus sign first. *)
Lemma pretty_Z_head (z : Z) (rest : string) :
  exists c tl, pretty z +:+ rest = String c tl /\
               is_digit c || Ascii.eqb c "-" = true.
Proof.
  assert (Hpos : forall p : positive,
             exists c tl, pretty (Npos p) +:+ rest = String c tl /\
                          is_digit c = true).
  { intros p. unfold pretty, pretty_N. case_decide as Hp; [discriminate Hp|].
    destruct (pretty_N_go_head (Npos p) ltac:(lia) "") as (c & tl & Heq & Hdigit & _).
    rewrite Heq. exists c, (tl +:+ rest). split; [reflexivity | exact Hdigit]. }
  destruct z as [|p|p].
  - exists "0"%char, rest. split; reflexivity.
  - destruct (Hpos p) as (c & tl & Heq & Hdigit).
    exists c, tl. split; [exact Heq|]. now rewrite Hdigit.
  - exists "-"%char, (pretty (Npos p) +:+ rest). split; reflexivity.
Qed.

Lemma after_value_newline (s rest : string) : after_value ((nl +:+ s) +:+ rest).
Proof. right. reflexivity. Qed.

Lemma after_value_comma (s rest : string) : after_value (("," +:+ s) +:+ rest).
Proof. left. reflexivity. Qed.

(** ** JSON: white space *)

Lemma skip_ws_spaces (n : nat) (s : string) :
  skip_ws (spaces n +:+ s) = skip_ws s.
Proof. induction n as [|n IH]; [reflexivity | exact IH]. Qed.

Lemma skip_ws_newline_indent (n : nat) (s : string) :
  skip_ws ((nl +:+ spaces n) +:+ s) = skip_ws s.
Proof. rewrite append_assoc. exact (skip_ws_spaces n s). Qed.

Lemma starts_value_facts (c : ascii) :
  starts_value c = true ->
  is_ws c = false /\ Ascii.eqb c "]" = false /\ Ascii.eqb c "}" = false /\
  Ascii.eqb c "," = false /\ Ascii.eqb c ":" = false.
Proof.
  destruct c as [b0 b1 b2 b3 b4 b5 b6 b7].
  destruct b0, b1, b2, b3, b4, b5, b6, b7; intros H;
    try discriminate H; repeat split; reflexivity.
Qed.

(** ** JSON: values *)

(** Induction over values, with the property for the items of a list and
    of a dict. *)
Lemma pyval_nested_ind (P : pyval -> Prop) :
  P PNone ->
  (forall b, P (PBool b)) ->
  (forall z, P (PInt z)) ->
  (forall s, P (PStr s)) ->
  (forall l, Forall P l -> P (PList l)) ->
  (forall d, Forall (fun item => P (snd item)) d -> P (PDict d)) ->
  forall v, P v.
Proof.
  intros HNone HBool HInt HStr HList HDict.
  fix IH 1. intros [ | b | z | s | l | d ].
  - exact HNone.
  - apply HBool.
  - apply HInt.
  - apply HStr.
  - apply HList. induction l as [|x l IHl]; constructor; [apply IH | exact IHl].
  - apply HDict. induction d as [|[k x] d IHd]; constructor; [apply IH | exact IHd].
Qed.

Lemma uval_nested_ind (P : uval -> Prop) :
  P UNone ->
  (forall b, P (UBool b)) ->
  (forall z, P (UInt z)) ->
  (forall s, P (UStr s)) ->
  (forall l, Forall P l -> P (UList l)) ->
  (forall d, Forall (fun item => P (snd item)) d -> P (UDict d)) ->
  forall v, P v.
Proof.
  intros HNone HBool HInt HStr HList HDict.
  fix IH 1. intros [ | b | z | s | l | d ].
  - exact HNone.
  - apply HBool.
  - apply HInt.
  - apply HStr.
  - apply HList. induction l as [|x l IHl]; constructor; [apply IH | exact IHl].
  - apply HDict. induction d as [|[k x] d IHd]; constructor; [apply IH | exact IHd].
Qed.

Lemma dict_setitem_new (d : list (unicode * uval)) (key : unicode) (value : uval) :
  ~ In key (map fst d) ->
  dict_setitem d key value = d ++ [(key, value)].
Proof.
  induction d as [|[k v] d IH]; intros Hnew; [reflexivity|].
  cbn [dict_setitem]. cbn [map fst In] in Hnew.
  destruct (bool_decide_reflect (k = key)) as [->|Hne]; [tauto|].
  rewrite IH by tauto. reflexivity.
Qed.

Lemma dict_of_pairs_from (acc pairs : list (unicode * uval)) :
  List.NoDup (map fst (acc ++ pairs)) ->
  fold_left (fun d kv => dict_setitem d (fst kv) (snd kv)) pairs acc = acc ++ pairs.
Proof.
  revert acc. induction pairs as [|[k v] pairs IH]; intros acc Hnodup.
  - cbn [fold_left]. now rewrite app_nil_r.
  - cbn [fold_left fst snd].
    assert (Hnew : ~ In k (map fst acc)).
    { rewrite map_app in Hnodup. cbn [map fst] in Hnodup.
      apply List.NoDup_remove_2 in Hnodup.
      intros Hin. apply Hnodup. apply in_or_app. now left. }
    rewrite (dict_setitem_new _ _ _ Hnew).
    rewrite IH; rewrite <- app_assoc; [reflexivity | exact Hnodup].
Qed.

Lemma dict_of_pairs_nodup (pairs : list (unicode * uval)) :
  List.NoDup (map fst pairs) -> dict_of_pairs pairs = pairs.
Proof. intros Hnodup. exact (dict_of_pairs_from [] pairs Hnodup). Qed.

(** A plain value is written with a first character that starts a value. *)
Lemma iterencode_head (indent level : nat) (v : uval) (rest : string) :
  json_plain v ->
  exists c tl, iterencode_unicode indent level v +:+ rest = String c tl /\
               starts_value c = true.
Proof.
  intros Hplain. destruct Hplain as [ | b | z _ | s _ | l _ | d _ _ _ ].
  - eexists _, _. split; reflexivity.
  - destruct b; eexists _, _; split; reflexivity.
  - destruct (pretty_Z_head z rest) as (c & tl & Heq & Hc).
    exists c, tl. split; [exact Heq | now apply number_start_facts].
  - cbn [iterencode_unicode]. rewrite py_encode_basestring_ascii_app.
    eexists _, _. split; reflexivity.
  - destruct l; eexists _, _; split; reflexivity.
  - destruct d; eexists _, _; split; reflexivity.
Qed.

Lemma skip_ws_value (indent level : nat) (v : uval) (rest : string) :
  json_plain v ->
  skip_ws (iterencode_unicode indent level v +:+ rest) = iterencode_unicode indent level v +:+ rest.
Proof.
  intros Hplain.
  destruct (iterencode_head indent level v rest Hplain) as (c & tl & -> & Hc).
  apply starts_value_facts in Hc as (Hws & _).
  cbn [skip_ws]. rewrite Hws. reflexivity.
Qed.

(** ** JSON: containers *)

Lemma join_array_text (enc : uval -> string) (sep closing : string)
    (x : uval) (xs : list uval) (rest : string) :
  join sep (map enc (x :: xs)) +:+ (closing +:+ String "]" rest) =
  array_text enc sep closing x xs rest.
Proof.
  revert x. induction xs as [|y ys IH]; intros x.
  - reflexivity.
  - change (join sep (map enc (x :: y :: ys)))
      with (enc x +:+ sep +:+ join sep (map enc (y :: ys))).
    rewrite !append_assoc, IH. reflexivity.
Qed.

Lemma join_object_text (enc : uval -> string) (sep closing : string)
    (key : unicode) (value : uval) (items : list (unicode * uval)) (rest : string) :
  join sep (map (fun item => py_encode_basestring_ascii (fst item) +:+ ": " +:+
                             enc (snd item)) ((key, value) :: items)) +:+
    (closing +:+ String "}" rest) =
  String dquote (object_text enc sep closing key value items rest).
Proof.
  revert key value. induction items as [|[k v] items IH]; intros key value.
  - cbn [map join fst snd object_text].
    rewrite !append_assoc, py_encode_basestring_ascii_app. reflexivity.
  - change (join sep (map ?f ((key, value) :: (k, v) :: items)))
      with (f (key, value) +:+ sep +:+ join sep (map f ((k, v) :: items))).
    cbn beta. cbn [fst snd object_text].
    rewrite !append_assoc, IH, py_encode_basestring_ascii_app. reflexivity.
Qed.

Lemma skip_ws_nonws (c : ascii) (s : string) :
  is_ws c = false -> skip_ws (String c s) = String c s.
Proof. intros Hc. cbn [skip_ws]. now rewrite Hc. Qed.

Lemma array_text_unfold (enc : uval -> string) (sep closing : string)
    (x : uval) (xs : list uval) (rest : string) :
  array_text enc sep closing x xs rest =
  enc x +:+
  match xs with
  | [] => closing +:+ String "]" rest
  | y :: ys => sep +:+ array_text enc sep closing y ys rest
  end.
Proof. destruct xs; reflexivity. Qed.

Lemma object_text_unfold (enc : uval -> string) (sep closing : string)
    (key : unicode) (value : uval) (items : list (unicode * uval)) (rest : string) :
  object_text enc sep closing key value items rest =
  escape_unicode key +:+
  String dquote
    (String ":" (String " "
       (enc value +:+
        match items with
        | [] => closing +:+ String "}" rest
        | (k, v) :: items' =>
            sep +:+ String dquote (object_text enc sep closing k v items' rest)
        end))).
Proof. destruct items as [|[k v] items]; reflexivity. Qed.

Lemma skip_ws_array_text (indent level : nat) (sep closing : string)
    (x : uval) (xs : list uval) (rest : string) :
  json_plain x ->
  skip_ws (array_text (iterencode_unicode indent level) sep closing x xs rest) =
  array_text (iterencode_unicode indent level) sep closing x xs rest.
Proof.
  intros Hplain. rewrite array_text_unfold. now apply skip_ws_value.
Qed.

(** The loop of [JSONArray]: one value, then the bracket or a comma. *)
Lemma JSONArray_items_last (f : nat) (s r rest : string) (v : uval) :
  scan_once f s = Some (v, r) ->
  skip_ws r = String "]" rest ->
  JSONArray_items (S f) s = Some ([v], rest).
Proof. intros H1 H2. cbn [JSONArray_items]. rewrite H1, H2. reflexivity. Qed.

Lemma JSONArray_items_more (f : nat) (s r r' rest : string) (v : uval)
    (vs : list uval) :
  scan_once f s = Some (v, r) ->
  skip_ws r = String "," r' ->
  JSONArray_items f (skip_ws r') = Some (vs, rest) ->
  JSONArray_items (S f) s = Some (v :: vs, rest).
Proof.
  intros H1 H2 H3. cbn [JSONArray_items]. rewrite H1, H2.
  change (Ascii.eqb "," "]") with false. change (Ascii.eqb "," ",") with true.
  cbv iota. rewrite H3. reflexivity.
Qed.

Lemma JSONArray_items_array_text (indent level n k : nat) (xs : list uval) :
  forall (x : uval) (rest : string) (fuel : nat),
    Forall json_plain (x :: xs) ->
    Forall (reads_back indent) (x :: xs) ->
    items_size (x :: xs) <= fuel ->
    JSONArray_items fuel
      (array_text (iterencode_unicode indent level) ("," +:+ nl +:+ spaces n)
         (nl +:+ spaces k) x xs rest) =
    Some (x :: xs, rest).
Proof.
  induction xs as [|y ys IH]; intros x rest fuel Hplain Hread Hfuel;
    unfold items_size in Hfuel; cbn [map list_sum fold_right] in Hfuel;
    (destruct fuel as [|f]; [lia|]);
    apply Forall_cons_1 in Hread as [Hx Hread].
  - cbn [array_text].
    eapply JSONArray_items_last; [apply Hx; [apply after_value_newline | lia]|].
    rewrite skip_ws_newline_indent. reflexivity.
  - apply Forall_cons_1 in Hplain as [_ Hplain].
    rewrite array_text_unfold.
    eapply JSONArray_items_more; [apply Hx; [apply after_value_comma | lia] | |].
    + change (("," +:+ nl +:+ spaces n) +:+ ?t)
        with (String "," ((nl +:+ spaces n) +:+ t)).
      apply skip_ws_nonws. reflexivity.
    + rewrite skip_ws_newline_indent.
      rewrite skip_ws_array_text by (now apply Forall_cons_1 in Hplain).
      apply IH; [exact Hplain | exact Hread |].
      unfold items_size. cbn [map list_sum fold_right]. lia.
Qed.

(** The loop of [JSONObject]: a key, the colon, a value, then the brace
    or a comma and the quote of the next key. *)
Lemma JSONObject_items_last (f : nat) (s r r' r2 rest : string) (key : unicode) (value : uval) :
  scanstring s = Some (key, r) ->
  skip_ws r = String ":" r' ->
  scan_once f (skip_ws r') = Some (value, r2) ->
  skip_ws r2 = String "}" rest ->
  JSONObject_items (S f) s = Some ([(key, value)], rest).
Proof.
  intros H1 H2 H3 H4. cbn [JSONObject_items]. rewrite H1, H2.
  change (Ascii.eqb ":" ":") with true. cbv iota. rewrite H3, H4. reflexivity.
Qed.

Lemma JSONObject_items_more (f : nat) (s r r' r2 r3 r4 rest : string) (key : unicode)
    (value : uval) (pairs : list (unicode * uval)) :
  scanstring s = Some (key, r) ->
  skip_ws r = String ":" r' ->
  scan_once f (skip_ws r') = Some (value, r2) ->
  skip_ws r2 = String "," r3 ->
  skip_ws r3 = String dquote r4 ->
  JSONObject_items f r4 = Some (pairs, rest) ->
  JSONObject_items (S f) s = Some ((key, value) :: pairs, rest).
Proof.
  intros H1 H2 H3 H4 H5 H6. cbn [JSONObject_items]. rewrite H1, H2.
  change (Ascii.eqb ":" ":") with true. cbv iota. rewrite H3, H4.
  change (Ascii.eqb "," "}") with false. change (Ascii.eqb "," ",") with true.
  cbv iota. rewrite H5.
  change (Ascii.eqb dquote dquote) with true. cbv iota. rewrite H6. reflexivity.
Qed.

Lemma JSONObject_items_object_text (indent level n k : nat)
    (items : list (unicode * uval)) :
  forall (key : unicode) (value : uval) (rest : string) (fuel : nat),
    Forall (fun item => scalar_text (fst item)) ((key, value) :: items) ->
    Forall (fun item => json_plain (snd item)) ((key, value) :: items) ->
    Forall (fun item => reads_back indent (snd item)) ((key, value) :: items) ->
    list_sum (map (fun item => S (json_size (snd item))) ((key, value) :: items))
      <= fuel ->
    JSONObject_items fuel
      (object_text (iterencode_unicode indent level) ("," +:+ nl +:+ spaces n)
         (nl +:+ spaces k) key value items rest) =
    Some ((key, value) :: items, rest).
Proof.
  induction items as [|[k' v'] items IH];
    intros key value rest fuel Hkeys Hplain Hread Hfuel;
    cbn [map list_sum fold_right snd] in Hfuel;
    (destruct fuel as [|f]; [lia|]);
    apply Forall_cons_1 in Hread as [Hv Hread];
    apply Forall_cons_1 in Hplain as [Hpv Hplain];
    apply Forall_cons_1 in Hkeys as [Hkey Hkeys];
    cbn [fst snd] in Hv, Hpv, Hkey;
    rewrite object_text_unfold.
  - eapply JSONObject_items_last.
    + now apply scanstring_escape_unicode.
    + apply skip_ws_nonws. reflexivity.
    + change (skip_ws (String " " ?t)) with (skip_ws t).
      rewrite (skip_ws_value _ _ _ _ Hpv).
      apply Hv; [apply after_value_newline | lia].
    + rewrite skip_ws_newline_indent. reflexivity.
  - eapply JSONObject_items_more.
    + now apply scanstring_escape_unicode.
    + apply skip_ws_nonws. reflexivity.
    + change (skip_ws (String " " ?t)) with (skip_ws t).
      rewrite (skip_ws_value _ _ _ _ Hpv).
      apply Hv; [apply after_value_comma | lia].
    + change (("," +:+ nl +:+ spaces n) +:+ ?t)
        with (String "," ((nl +:+ spaces n) +:+ t)).
      apply skip_ws_nonws. reflexivity.
    + rewrite skip_ws_newline_indent. apply skip_ws_nonws. reflexivity.
    + apply IH; [exact Hkeys | exact Hplain | exact Hread |].
      cbn [map list_sum fold_right snd]. lia.
Qed.

(** ** JSON: reading a value back *)

Lemma iterencode_list_app (indent level : nat) (x : uval) (xs : list uval)
    (rest : string) :
  iterencode_unicode indent level (UList (x :: xs)) +:+ rest =
  String "["
    ((nl +:+ spaces (indent * S level)) +:+
     array_text (iterencode_unicode indent (S level))
       ("," +:+ nl +:+ spaces (indent * S level))
       (nl +:+ spaces (indent * level)) x xs rest).
Proof.
  rewrite <- join_array_text.
  change (iterencode_unicode indent level (UList (x :: xs)))
    with ("[" +:+ (nl +:+ spaces (indent * S level)) +:+
          join ("," +:+ nl +:+ spaces (indent * S level))
            (map (iterencode_unicode indent (S level)) (x :: xs)) +:+
          nl +:+ spaces (indent * level) +:+ "]").
  rewrite !append_assoc. reflexivity.
Qed.

Lemma iterencode_dict_app (indent level : nat) (key : unicode) (value : uval)
    (items : list (unicode * uval)) (rest : string) :
  iterencode_unicode indent level (UDict ((key, value) :: items)) +:+ rest =
  String "{"
    ((nl +:+ spaces (indent * S level)) +:+
     String dquote
       (object_text (iterencode_unicode indent (S level))
          ("," +:+ nl +:+ spaces (indent * S level))
          (nl +:+ spaces (indent * level)) key value items rest)).
Proof.
  rewrite <- join_object_text.
  change (iterencode_unicode indent level (UDict ((key, value) :: items)))
    with ("{" +:+ (nl +:+ spaces (indent * S level)) +:+
          join ("," +:+ nl +:+ spaces (indent * S level))
            (map (fun item => py_encode_basestring_ascii (fst item) +:+ ": " +:+
                              iterencode_unicode indent (S level) (snd item))
               ((key, value) :: items)) +:+
          nl +:+ spaces (indent * level) +:+ "}").
  rewrite !append_assoc. reflexivity.
Qed.

Lemma scan_once_array (f : nat) (s' r : string) (c : ascii) :
  skip_ws s' = String c r ->
  Ascii.eqb c "]" = false ->
  scan_once (S f) (String "[" s') =
  match JSONArray_items f (String c r) with
  | Some (values, rest) => Some (UList values, rest)
  | None => None
  end.
Proof.
  intros H1 H2. cbn [scan_once].
  change (Ascii.eqb "[" dquote) with false. change (Ascii.eqb "[" "{") with false.
  change (Ascii.eqb "[" "[") with true. cbv iota. rewrite H1, H2. reflexivity.
Qed.

Lemma scan_once_object (f : nat) (s' r : string) :
  skip_ws s' = String dquote r ->
  scan_once (S f) (String "{" s') =
  match JSONObject_items f r with
  | Some (pairs, rest) => Some (UDict (dict_of_pairs pairs), rest)
  | None => None
  end.
Proof.
  intros H1. cbn [scan_once].
  change (Ascii.eqb "{" dquote) with false. change (Ascii.eqb "{" "{") with true.
  cbv iota. rewrite H1.
  change (Ascii.eqb dquote "}") with false.
  change (Ascii.eqb dquote dquote) with true. reflexivity.
Qed.

(** Every plain value is read back from what the encoder writes for it. *)
Lemma scan_once_iterencode (indent : nat) (v : uval) :
  json_plain v -> reads_back indent v.
Proof.
  induction v as [ | b | z | s | l IHl | d IHd ] using uval_nested_ind;
    intros Hplain level rest fuel Hrest Hfuel;
    (destruct fuel as [|f]; [cbn [json_size] in Hfuel; lia|]).
  - reflexivity.
  - destruct b; reflexivity.
  - cbn [iterencode_unicode].
    destruct (pretty_Z_head z rest) as (c & tl & Heq & Hc).
    apply number_start_facts in Hc as (_ & H1 & H2 & H3 & H4 & H5 & H6).
    pose proof (match_number_pretty z rest Hrest) as Hnumber.
    rewrite Heq in Hnumber |- *. cbn [scan_once].
    rewrite H1, H2, H3, H4, H5, H6, Hnumber. reflexivity.
  - inversion Hplain as [ | | | s' Hscalar | | ]; subst s'.
    cbn [iterencode_unicode]. rewrite py_encode_basestring_ascii_app. cbn [scan_once].
    change (Ascii.eqb dquote dquote) with true. cbv iota.
    rewrite (scanstring_escape_unicode _ _ Hscalar). reflexivity.
  - inversion Hplain as [ | | | | l' Hitems | ]; subst l'.
    destruct l as [|x xs]; [reflexivity|].
    assert (Hread : Forall (reads_back indent) (x :: xs)).
    { clear -IHl Hitems. induction IHl as [|y ys Hy _ IH]; [constructor|].
      apply Forall_cons_1 in Hitems as [Hpy Hitems].
      constructor; [exact (Hy Hpy) | exact (IH Hitems)]. }
    rewrite iterencode_list_app.
    pose proof Hitems as Hx. apply Forall_cons_1 in Hx as [Hx _].
    set (text := array_text (iterencode_unicode indent (S level))
                   ("," +:+ nl +:+ spaces (indent * S level))
                   (nl +:+ spaces (indent * level)) x xs rest).
    assert (Hhead : exists c r, text = String c r /\ starts_value c = true).
    { unfold text. rewrite array_text_unfold. now apply iterencode_head. }
    destruct Hhead as (c & r & Htext & Hc).
    apply starts_value_facts in Hc as (_ & Hc & _).
    rewrite (scan_once_array f _ r c).
    + rewrite <- Htext. unfold text.
      rewrite JSONArray_items_array_text; [reflexivity | exact Hitems | exact Hread |].
      cbn [json_size] in Hfuel. unfold items_size. lia.
    + rewrite skip_ws_newline_indent. unfold text.
      rewrite (skip_ws_array_text _ _ _ _ _ _ _ Hx). exact Htext.
    + exact Hc.
  - inversion Hplain as [ | | | | | d' Hnodup Hkeys Hitems ]; subst d'.
    destruct d as [|[key value] items]; [reflexivity|].
    assert (Hread : Forall (fun item => reads_back indent (snd item))
                      ((key, value) :: items)).
    { clear -IHd Hitems. induction IHd as [|y ys Hy _ IH]; [constructor|].
      apply Forall_cons_1 in Hitems as [Hpy Hitems].
      constructor; [exact (Hy Hpy) | exact (IH Hitems)]. }
    rewrite iterencode_dict_app.
    rewrite (scan_once_object f _ _ (eq_trans (skip_ws_newline_indent _ _)
                                       (skip_ws_nonws dquote _ eq_refl))).
    rewrite JSONObject_items_object_text; [| exact Hkeys | exact Hitems | exact Hread |].
    + rewrite (dict_of_pairs_nodup _ Hnodup). reflexivity.
    + cbn [json_size] in Hfuel. lia.
Qed.

(** ** JSON: the fuel of [json.loads] *)

Lemma length_append (a b : string) :
  String.length (a +:+ b) = String.length a + String.length b.
Proof. induction a as [|c a IH]; [reflexivity|]. cbn. now rewrite IH. Qed.

Lemma join_size_le {A : Type} (size : A -> nat) (enc : A -> string) (sep : string)
    (x : A) (xs : list A) :
  2 <= String.length sep ->
  Forall (fun y => size y <= String.length (enc y)) (x :: xs) ->
  list_sum (map (fun y => S (size y)) (x :: xs)) <=
  S (String.length (join sep (map enc (x :: xs)))).
Proof.
  intros Hsep. revert x. induction xs as [|y ys IH]; intros x Hall;
    apply Forall_cons_1 in Hall as [Hx Hall].
  - cbn [map list_sum fold_right join]. lia.
  - specialize (IH y Hall).
    change (join sep (map enc (x :: y :: ys)))
      with (enc x +:+ sep +:+ join sep (map enc (y :: ys))).
    rewrite !length_append.
    cbn [map list_sum fold_right] in IH |- *. lia.
Qed.

Lemma separator_length (n : nat) :
  2 <= String.length ("," +:+ nl +:+ spaces n).
Proof. cbn. lia. Qed.

Lemma json_size_le_length (indent : nat) (v : uval) :
  json_plain v ->
  forall level : nat, json_size v <= String.length (iterencode_unicode indent level v).
Proof.
  induction v as [ | b | z | s | l IHl | d IHd ] using uval_nested_ind;
    intros Hplain level.
  - cbn. lia.
  - destruct b; cbn; lia.
  - destruct (pretty_Z_head z "") as (c & tl & Heq & _).
    rewrite append_empty_r in Heq. cbn [iterencode_unicode json_size].
    rewrite Heq. cbn [String.length]. lia.
  - cbn. lia.
  - inversion Hplain as [ | | | | l' Hitems | ]; subst l'.
    destruct l as [|x xs]; [cbn; lia|].
    assert (Hle : Forall (fun y => json_size y <=
                            String.length (iterencode_unicode indent (S level) y)) (x :: xs)).
    { clear -IHl Hitems. induction IHl as [|y ys Hy _ IH]; [constructor|].
      apply Forall_cons_1 in Hitems as [Hpy Hitems].
      constructor; [exact (Hy Hpy (S level)) | exact (IH Hitems)]. }
    pose proof (join_size_le json_size (iterencode_unicode indent (S level)) _ x xs
                  (separator_length (indent * S level)) Hle) as Hjoin.
    change (iterencode_unicode indent level (UList (x :: xs)))
      with ("[" +:+ (nl +:+ spaces (indent * S level)) +:+
            join ("," +:+ nl +:+ spaces (indent * S level))
              (map (iterencode_unicode indent (S level)) (x :: xs)) +:+
            nl +:+ spaces (indent * level) +:+ "]").
    rewrite !length_append. cbn [json_size String.length]. lia.
  - inversion Hplain as [ | | | | | d' Hnodup Hkeys Hitems ]; subst d'.
    destruct d as [|[key value] items]; [cbn; lia|].
    set (enc := fun item : unicode * uval =>
                  py_encode_basestring_ascii (fst item) +:+ ": " +:+
                  iterencode_unicode indent (S level) (snd item)).
    assert (Hle : Forall (fun item => json_size (snd item) <= String.length (enc item))
                    ((key, value) :: items)).
    { clear -IHd Hitems. induction IHd as [|y ys Hy _ IH]; [constructor|].
      apply Forall_cons_1 in Hitems as [Hpy Hitems].
      constructor; [|exact (IH Hitems)].
      unfold enc. rewrite !length_append. specialize (Hy Hpy (S level)). lia. }
    pose proof (join_size_le (fun item => json_size (snd item)) enc _
                  (key, value) items
                  (separator_length (indent * S level)) Hle) as Hjoin.
    change (iterencode_unicode indent level (UDict ((key, value) :: items)))
      with ("{" +:+ (nl +:+ spaces (indent * S level)) +:+
            join ("," +:+ nl +:+ spaces (indent * S level))
              (map enc ((key, value) :: items)) +:+
            nl +:+ spaces (indent * level) +:+ "}").
    rewrite !length_append. cbn [json_size String.length]. lia.
Qed.

(** Decoding what [json.dumps] wrote for a plain value gives the value. *)
Lemma json_loads_dumps (indent : nat) (v : uval) :
  json_plain v -> json_loads (json_dumps_unicode v indent) = Some v.
Proof.
  intros Hplain. unfold json_loads, json_dumps_unicode.
  pose proof (skip_ws_value indent 0 v "" Hplain) as Hws.
  rewrite append_empty_r in Hws. rewrite Hws.
  pose proof (scan_once_iterencode indent v Hplain 0 ""
                (S (String.length (iterencode_unicode indent 0 v))) I) as Hscan.
  rewrite append_empty_r in Hscan. rewrite Hscan; [reflexivity|].
  pose proof (json_size_le_length indent v Hplain 0). lia.
Qed.


(** ** JSON: the two encoders *)

(** On values whose texts are below 256 the encoder of [json.dumps]
    writes what it writes for the same values over all code points. *)
Lemma iterencode_to_uval (indent : nat) (v : pyval) :
  forall level : nat,
    iterencode indent level v = iterencode_unicode indent level (to_uval v).
Proof.
  induction v as [ | b | z | s | l IH | d IH ] using pyval_nested_ind;
    intros level.
  - reflexivity.
  - destruct b; reflexivity.
  - reflexivity.
  - cbn [iterencode to_uval iterencode_unicode].
    unfold encode_basestring_ascii, py_encode_basestring_ascii.
    now rewrite escape_unicode_utext.
  - destruct l as [|x xs]; [reflexivity|].
    assert (Hitems : map (iterencode indent (S level)) (x :: xs) =
                     map (iterencode_unicode indent (S level)) (map to_uval (x :: xs))).
    { clear -IH. induction IH as [|y ys Hy _ IHys]; [reflexivity|].
      cbn [map]. now rewrite Hy, IHys. }
    change (iterencode indent level (PList (x :: xs))) with
      ("[" +:+ (nl +:+ spaces (indent * S level)) +:+
       join ("," +:+ nl +:+ spaces (indent * S level))
         (map (iterencode indent (S level)) (x :: xs)) +:+
       nl +:+ spaces (indent * level) +:+ "]").
    rewrite Hitems. reflexivity.
  - destruct d as [|[k x] xs]; [reflexivity|].
    assert (Hitems :
              map (fun item => encode_basestring_ascii (fst item) +:+ ": " +:+
                               iterencode indent (S level) (snd item)) ((k, x) :: xs) =
              map (fun item => py_encode_basestring_ascii (fst item) +:+ ": " +:+
                               iterencode_unicode indent (S level) (snd item))
                (map (fun item => (utext (fst item), to_uval (snd item)))
                   ((k, x) :: xs))).
    { clear -IH. induction IH as [|[k' y] ys Hy _ IHys]; [reflexivity|].
      cbn [map fst snd] in Hy |- *. rewrite Hy, IHys.
      unfold encode_basestring_ascii, py_encode_basestring_ascii.
      now rewrite escape_unicode_utext. }
    change (iterencode indent level (PDict ((k, x) :: xs))) with
      ("{" +:+ (nl +:+ spaces (indent * S level)) +:+
       join ("," +:+ nl +:+ spaces (indent * S level))
         (map (fun item => encode_basestring_ascii (fst item) +:+ ": " +:+
                           iterencode indent (S level) (snd item)) ((k, x) :: xs)) +:+
       nl +:+ spaces (indent * level) +:+ "}").
    rewrite Hitems. reflexivity.
Qed.

Lemma save_analysis_results_to_uval (results : list pyval) :
  save_analysis_results results =
  save_analysis_results_unicode (map to_uval results).
Proof.
  unfold save_analysis_results, save_analysis_results_unicode, json_dumps,
    json_dumps_unicode.
  exact (iterencode_to_uval 2 (PList results) 0).
Qed.

(** ** JSON: the records *)

Lemma uqa_to_uval_plain (q : UQARecord) :
  scalar_qa q -> json_plain (uqa_to_uval q).
Proof.
  intros [Hquestion Hanswer]. apply plain_dict.
  - cbn [map fst]. repeat constructor; cbn [In]; intuition discriminate.
  - repeat constructor.
  - repeat constructor; assumption.
Qed.

Lemma uresult_to_uval_plain (r : UAnalysisResult) :
  scalar_result r -> json_plain (uresult_to_uval r).
Proof.
  intros (Hfilename & Hsummary & Hpairs). apply plain_dict.
  - cbn [map fst]. repeat constructor; cbn [In]; intuition discriminate.
  - repeat constructor.
  - repeat constructor; cbn [snd].
    + exact Hfilename.
    + destruct (uar_summary r); now constructor.
    + destruct (uar_qa_pairs r) as [l|]; [|constructor].
      apply plain_list, List.Forall_map. revert Hpairs.
      apply List.Forall_impl. exact uqa_to_uval_plain.
Qed.

Lemma uval_to_qa_list_to_uval (l : list UQARecord) :
  uval_to_qa_list (map uqa_to_uval l) = Some l.
Proof.
  induction l as [|[q a] l IH]; [reflexivity|].
  cbn [map uval_to_qa_list]. rewrite IH. reflexivity.
Qed.

Lemma uval_to_result_to_uval (r : UAnalysisResult) :
  uval_to_result (uresult_to_uval r) = Some r.
Proof.
  destruct r as [f s qs]. unfold uresult_to_uval, uval_to_result.
  cbn [uar_filename uar_summary uar_qa_pairs].
  rewrite !bool_decide_eq_true_2 by reflexivity. cbn [andb].
  destruct s as [t|], qs as [l|]; try reflexivity;
    rewrite uval_to_qa_list_to_uval; reflexivity.
Qed.

Lemma uval_to_results_to_uval (rs : list UAnalysisResult) :
  uval_to_results (map uresult_to_uval rs) = Some rs.
Proof.
  induction rs as [|r rs IH]; [reflexivity|].
  cbn [map uval_to_results]. rewrite uval_to_result_to_uval, IH. reflexivity.
Qed.

(** The dict the program builds for a record with texts below 256 is the
    dict of the record among those over all code points, and such a
    record holds no surrogates. *)
Lemma result_to_py_unicode (r : AnalysisResult) :
  to_uval (result_to_py r) = uresult_to_uval (result_to_unicode r).
Proof.
  destruct r as [f s qs]. unfold result_to_py, result_dict, uresult_to_uval.
  cbn [to_uval map fst snd ar_filename ar_summary ar_qa_pairs result_to_unicode
       uar_filename uar_summary uar_qa_pairs].
  do 4 f_equal.
  - f_equal. now destruct s.
  - do 2 f_equal. destruct qs as [l|]; [|reflexivity].
    cbn [qa_pairs_to_py to_uval option_map]. f_equal.
    rewrite !map_map. reflexivity.
Qed.

Lemma result_to_unicode_scalar (r : AnalysisResult) :
  scalar_result (result_to_unicode r).
Proof.
  destruct r as [f s qs]. unfold scalar_result. cbn. split; [|split].
  - apply scalar_text_utext.
  - destruct s; cbn; [apply scalar_text_utext | exact I].
  - destruct qs as [l|]; cbn; [|exact I].
    apply List.Forall_map, List.Forall_forall. intros q _.
    split; apply scalar_text_utext.
Qed.

(** ** C7 *)


(** What is read back in that case: the export of the two surrogates is
    the export of the code point of the pair. *)
Example surrogates_are_read_as_one_code_point :
  save_analysis_results_unicode [UStr [55357; 56832]%N] =
    save_analysis_results_unicode [UStr [128512%N]] /\
  json_loads (save_analysis_results_unicode [UStr [55357; 56832]%N]) =
    Some (UList [UStr [128512%N]]).
Proof. split; vm_compute; reflexivity. Qed.



(** The export of one entry without summary and pairs, as text. *)
Example save_analysis_results_text :
  save_analysis_results [result_dict "a.pdf" None PNone] =
  "[" +:+ nl +:+
  "  {" +:+ nl +:+
  "    " +:+ encode_basestring_ascii "filename" +:+ ": " +:+
             encode_basestring_ascii "a.pdf" +:+ "," +:+ nl +:+
  "    " +:+ encode_basestring_ascii "summary" +:+ ": null," +:+ nl +:+
  "    " +:+ encode_basestring_ascii "qa_pairs" +:+ ": null" +:+ nl +:+
  "  }" +:+ nl +:+
  "]".
Proof. vm_compute. reflexivity. Qed.

(** A code point from 0x10000 on is written as the escapes of its
    surrogate pair. *)
Example save_analysis_results_unicode_text :
  save_analysis_results_unicode [UStr [233; 8364; 128512]%N] =
  "[" +:+ nl +:+
  "  " +:+ String dquote ("\u00e9\u20ac\ud83d\ude00" +:+ String dquote "") +:+ nl +:+
  "]".
Proof. vm_compute. reflexivity. Qed.

(** * Further properties of the functions *)

(** ** Extraction: what a call leaves behind *)

Lemma extraction_run_some (pages : outcome (list page)) (st done st' : state)
    (text : string) :
  extraction_run pages st done = (st', Ret (Some text)) -> st' = done.
Proof.
  unfold extraction_run, extraction_failed. intros H.
  destruct pages as [pages|e].
  - destruct (page_texts pages) as [texts|e]; [congruence|].
    destruct (is_Exception e); discriminate.
  - destruct (is_Exception e); discriminate.
Qed.

(** X1.  A call of [extract_text_from_pdf] that returns a text leaves
    the state as it found it: with either parser nothing is shown, and
    with PyMuPDF the temporary copy is gone, provided the name picked
    for it was not the name of a file already on disk. *)
Theorem successful_extraction_restores_state :
  forall (w : world) (f : uploaded_file) (parser_choice : string)
         (st st' : state) (text : string),
    fs st !! tmp_name w (fs st) = None ->
    extract_text_from_pdf w f parser_choice st = (st', Ret (Some text)) ->
    st' = st.
Proof.
  intros w f parser_choice st st' text Hfresh Hrun.
  destruct (String.eqb_spec parser_choice "PyMuPDF") as [->|Hother].
  - rewrite extract_fitz in Hrun. cbv zeta in Hrun.
    apply extraction_run_some in Hrun. subst st'.
    rewrite (delete_id _ _ Hfresh). now destruct st.
  - rewrite (extract_pypdf2 _ _ _ _ Hother) in Hrun.
    now apply extraction_run_some in Hrun.
Qed.

Lemma successful_extraction_restores_state_witness :
  fs st0 !! tmp_name (demo_world None) (fs st0) = None /\
  fst (extract_text_from_pdf (demo_world None) (file_of "a.pdf" "abc") "PyMuPDF" st0) =
    st0.
Proof.
  split; [reflexivity|].
  apply (successful_extraction_restores_state (demo_world None)
           (file_of "a.pdf" "abc") "PyMuPDF" st0 _ "abc").
  - reflexivity.
  - vm_compute. reflexivity.
Defined.

(** What a branch of the extractor adds to the trace, by its result. *)
Lemma extraction_run_trace (pages : outcome (list page)) (st st1 done : state) :
  trace st1 = trace st -> trace done = trace st ->
  match extraction_run pages st1 done with
  | (st', Ret (Some _)) => trace st' = trace st
  | (st', Ret None) =>
      exists e : pyexn,
        is_Exception e = true /\
        trace st' =
          trace st ++ [EvStError ("Error extracting text from PDF: " +:+ str_exn e)]
  | (st', Raise e) => is_Exception e = false /\ trace st' = trace st
  end.
Proof.
  intros H1 Hdone.
  assert (Hfail : forall e,
             match extraction_failed st1 e with
             | (st', Ret (Some _)) => trace st' = trace st
             | (st', Ret None) =>
                 exists e : pyexn,
                   is_Exception e = true /\
                   trace st' =
                     trace st ++
                     [EvStError ("Error extracting text from PDF: " +:+ str_exn e)]
             | (st', Raise e) => is_Exception e = false /\ trace st' = trace st
             end).
  { intros e. unfold extraction_failed.
    destruct (is_Exception e) eqn:He.
    - exists e. split; [exact He|]. cbn [add_events trace]. now rewrite H1.
    - split; [exact He | exact H1]. }
  unfold extraction_run. destruct pages as [pages|e]; [|apply Hfail].
  destruct (page_texts pages) as [texts|e]; [exact Hdone | apply Hfail].
Qed.

Lemma extract_trace (w : world) (f : uploaded_file) (parser_choice : string)
    (st : state) :
  match extract_text_from_pdf w f parser_choice st with
  | (st', Ret (Some _)) => trace st' = trace st
  | (st', Ret None) =>
      exists e : pyexn,
        is_Exception e = true /\
        trace st' =
          trace st ++ [EvStError ("Error extracting text from PDF: " +:+ str_exn e)]
  | (st', Raise e) => is_Exception e = false /\ trace st' = trace st
  end.
Proof.
  destruct (String.eqb_spec parser_choice "PyMuPDF") as [->|Hother].
  - rewrite extract_fitz. cbv zeta. apply extraction_run_trace; reflexivity.
  - rewrite (extract_pypdf2 _ _ _ _ Hother).
    apply extraction_run_trace; reflexivity.
Qed.

(** X2.  [extract_text_from_pdf] returns [None] exactly when it has shown
    one error message, which quotes the exception; it shows nothing when
    it returns a text; and no [Exception] leaves it: what it raises is
    outside [Exception], and then nothing has been shown either. *)
Theorem extraction_reports_every_failure :
  forall (w : world) (f : uploaded_file) (parser_choice : string) (st : state),
    match extract_text_from_pdf w f parser_choice st with
    | (st', Ret (Some _)) => trace st' = trace st
    | (st', Ret None) =>
        exists e : pyexn,
          is_Exception e = true /\
          trace st' =
            trace st ++ [EvStError ("Error extracting text from PDF: " +:+ str_exn e)]
    | (st', Raise e) => is_Exception e = false /\ trace st' = trace st
    end.
Proof. exact extract_trace. Qed.

(** ** Generation: failures and the text that counts *)

Lemma summary_run_fs (m : model) (text : string) (st : state) :
  fs (fst (summary_run m text st)) = fs st.
Proof.
  unfold summary_run.
  destruct (generate_content_text m (summary_prompt text)) as [r|e];
    [reflexivity|].
  destruct (is_Exception e); reflexivity.
Qed.

(** X3.  No [Exception] of the service or of [eval] leaves
    [generate_summary] or [generate_custom_qa]: what either raises is
    outside [Exception], or is the [KeyError] of a question type without
    a template.  [generate_summary] does not touch the files on disk. *)
Theorem generation_contains_failures :
  forall (w : world) (m : model) (text question_type : string) (n : Z)
         (st : state),
    match snd (generate_summary m text st) with
    | Ret _ => True
    | Raise e => is_Exception e = false
    end /\
    match snd (generate_custom_qa w m text question_type n st) with
    | Ret _ => True
    | Raise e =>
        is_Exception e = false \/
        e = KeyError question_type /\ prompt_templates !! question_type = None
    end /\
    fs (fst (generate_summary m text st)) = fs st.
Proof.
  intros w m text question_type n st.
  rewrite generate_summary_run, summary_run_fs. split.
  { unfold summary_run.
    destruct (generate_content_text m (summary_prompt text)) as [r|e]; [exact I|].
    destruct (is_Exception e) eqn:He; [exact I | exact He]. }
  split; [|reflexivity].
  destruct (prompt_templates !! question_type) as [template|] eqn:Hlookup.
  - rewrite (generate_custom_qa_run _ _ _ _ _ _ _ Hlookup).
    unfold qa_run.
    destruct (generate_content_text m (qa_prompt template n text)) as [r|e].
    + destruct (py_eval w r) as [v|e]; [exact I|].
      destruct (is_Exception e) eqn:He; [exact I | left; exact He].
    + destruct (is_Exception e) eqn:He; [exact I | left; exact He].
  - assert (Hrun : generate_custom_qa w m text question_type n st =
                   (st, Raise (KeyError question_type))).
    { unfold generate_custom_qa, dict_getitem. rewrite Hlookup. reflexivity. }
    rewrite Hrun. cbn [snd]. right. split; reflexivity.
Qed.

Lemma py_slice_to_app (n : nat) (s extra : string) :
  n <= String.length s -> py_slice_to n (s +:+ extra) = py_slice_to n s.
Proof.
  revert s. induction n as [|n IH]; intros s Hlen.
  - now destruct s.
  - destruct s as [|c s]; cbn [String.length] in Hlen; [lia|].
    cbn [String.append py_slice_to]. rewrite IH by lia. reflexivity.
Qed.

(** The first thing [generate_custom_qa] does with a template is to send
    its prompt. *)
Lemma qa_run_first_request (w : world) (m : model) (template : string) (n : Z)
    (text : string) (st : state) :
  exists more : list event,
    trace (fst (qa_run w m template n text st)) =
    trace st ++ EvGenerate (qa_prompt template n text) :: more.
Proof.
  unfold qa_run.
  destruct (generate_content_text m (qa_prompt template n text)) as [r|e].
  - destruct (py_eval w r) as [v|e]; [|destruct (is_Exception e)];
      eexists; reflexivity.
  - destruct (is_Exception e); eexists; reflexivity.
Qed.

(** X4.  What a text holds after its first 5000 characters has no part
    in the summary, nor in the request for questions: [generate_summary]
    does the same, to the state and in what it returns, with and without
    it, and the request [generate_custom_qa] sends for the longer text
    is the one made from the text without it. *)
Theorem text_past_5000_characters_is_ignored :
  forall (w : world) (m : model) (text extra question_type template : string)
         (n : Z) (st : state),
    5000 <= String.length text ->
    prompt_templates !! question_type = Some template ->
    generate_summary m (text +:+ extra) st = generate_summary m text st /\
    exists more : list event,
      trace (fst (generate_custom_qa w m (text +:+ extra) question_type n st)) =
      trace st ++ EvGenerate (qa_prompt template n text) :: more.
Proof.
  intros w m text extra question_type template n st Hlen Hlookup. split.
  - unfold generate_summary, summary_prompt.
    now rewrite (py_slice_to_app 5000 text extra Hlen).
  - rewrite (generate_custom_qa_run _ _ _ _ _ _ _ Hlookup).
    destruct (qa_run_first_request w m template n (text +:+ extra) st)
      as [more Hmore].
    exists more. rewrite Hmore. unfold qa_prompt.
    now rewrite (py_slice_to_app 5000 text extra Hlen).
Qed.

Lemma text_past_5000_characters_is_ignored_witness :
  5000 <= String.length (spaces 5000) /\
  generate_summary demo_model (spaces 5000 +:+ "the end") st0 =
    generate_summary demo_model (spaces 5000) st0 /\
  exists more : list event,
    trace (fst (generate_custom_qa (demo_world None) demo_model
                  (spaces 5000 +:+ "the end") "factual" 3 st0)) =
    trace st0 ++ EvGenerate (qa_prompt factual_template 3 (spaces 5000)) :: more.
Proof.
  assert (Hlen : 5000 <= String.length (spaces 5000)).
  { apply Nat.leb_le. vm_compute. reflexivity. }
  split; [exact Hlen|].
  apply (text_past_5000_characters_is_ignored (demo_world None) demo_model
           (spaces 5000) "the end" "factual" factual_template 3 st0 Hlen).
  exact factual_template_lookup.
Defined.

(** ** Batches: composition, requests and files left on disk *)

Lemma process_files_results (w : world) (m : model) (files : list uploaded_file) :
  forall (results : list pyval) (st : state),
    process_files w files m results st =
    match process_files w files m [] st with
    | (st', Ret more) => (st', Ret (results ++ more))
    | (st', Raise e) => (st', Raise e)
    end.
Proof.
  induction files as [|f rest IH]; intros results st.
  - cbn [process_files]. unfold ret. now rewrite app_nil_r.
  - destruct (extract_text_from_pdf w f "PyMuPDF" st) as [st1 text] eqn:Hextract.
    destruct text as [text|e].
    + rewrite !(process_files_cons _ _ _ _ _ _ _ _ Hextract).
      destruct text as [t|]; [|apply IH].
      destruct (str_truthy t); [|apply IH].
      unfold bind.
      destruct (generate_summary m t st1) as [st2 [summary|e]]; [|reflexivity].
      destruct (generate_custom_qa w m t "factual" 3 st2) as [st3 [qa|e]];
        [|reflexivity].
      rewrite IH. rewrite (IH ([] ++ _)).
      destruct (process_files w rest m [] st3) as [st4 [more|e]]; [|reflexivity].
      now rewrite <- app_assoc.
    + cbn [process_files]. unfold bind. rewrite Hextract. reflexivity.
Qed.

(** X5.  A batch over [files1 ++ files2] is the batch over [files1]
    followed, from the state it leaves, by the batch over [files2]: the
    results are the two lists of results one after the other, and an
    exception that ends either batch ends the whole.  This holds for
    every behaviour of the libraries. *)
Theorem batch_of_concatenation :
  forall (w : world) (m : model) (files1 files2 : list uploaded_file) (st : state),
    process_multiple_pdfs w (files1 ++ files2) m st =
    match process_multiple_pdfs w files1 m st with
    | (st1, Ret results1) =>
        match process_multiple_pdfs w files2 m st1 with
        | (st2, Ret results2) => (st2, Ret (results1 ++ results2))
        | (st2, Raise e) => (st2, Raise e)
        end
    | (st1, Raise e) => (st1, Raise e)
    end.
Proof.
  intros w m files1 files2. unfold process_multiple_pdfs.
  assert (Hgen : forall results st,
             process_files w (files1 ++ files2) m results st =
             match process_files w files1 m results st with
             | (st1, Ret results1) => process_files w files2 m results1 st1
             | (st1, Raise e) => (st1, Raise e)
             end).
  { induction files1 as [|f rest IH]; intros results st.
    - reflexivity.
    - cbn [app].
      destruct (extract_text_from_pdf w f "PyMuPDF" st) as [st1 text] eqn:Hextract.
      destruct text as [text|e].
      + rewrite !(process_files_cons _ _ _ _ _ _ _ _ Hextract).
        destruct text as [t|]; [|apply IH].
        destruct (str_truthy t); [|apply IH].
        unfold bind.
        destruct (generate_summary m t st1) as [st2 [summary|e]]; [|reflexivity].
        destruct (generate_custom_qa w m t "factual" 3 st2) as [st3 [qa|e]];
          [|reflexivity].
        apply IH.
      + cbn [process_files]. unfold bind. rewrite Hextract. reflexivity. }
  intros st. rewrite Hgen.
  destruct (process_files w files1 m [] st) as [st1 [results1|e]]; [|reflexivity].
  apply process_files_results.
Qed.

(** The files on disk after an extraction with PyMuPDF. *)
Lemma extract_fitz_fs (w : world) (f : uploaded_file) (st : state) :
  fs (fst (extract_text_from_pdf w f "PyMuPDF" st)) =
  if extraction_fails w f
  then <[tmp_name w (fs st) := getvalue f]> (fs st)
  else delete (tmp_name w (fs st)) (fs st).
Proof.
  rewrite extract_fitz. cbv zeta.
  unfold extraction_run, extraction_fails, extracted_text.
  destruct (fitz_pages w (getvalue f)) as [pages|e];
    [|apply extraction_failed_fs].
  destruct (page_texts pages) as [texts|e]; [reflexivity|].
  apply extraction_failed_fs.
Qed.

Lemma extract_fitz_prompts (w : world) (f : uploaded_file) (st : state) :
  prompts_sent (trace (fst (extract_text_from_pdf w f "PyMuPDF" st))) =
  prompts_sent (trace st).
Proof.
  rewrite extract_fitz. cbv zeta.
  assert (Hfail : forall st1 e, trace st1 = trace st ->
             prompts_sent (trace (fst (extraction_failed st1 e))) =
             prompts_sent (trace st)).
  { intros st1 e H1. unfold extraction_failed.
    destruct (is_Exception e); cbn [fst add_events trace]; rewrite H1;
      [|reflexivity].
    rewrite prompts_sent_app. cbn [prompts_sent]. apply app_nil_r. }
  unfold extraction_run.
  destruct (fitz_pages w (getvalue f)) as [pages|e]; [|now apply Hfail].
  destruct (page_texts pages) as [texts|e]; [reflexivity | now apply Hfail].
Qed.

Section BatchState.

Variables (w : world) (m : model).
Hypothesis Hwb : only_exceptions w m.

(** One turn of the loop when no library raises past [except Exception]. *)
Lemma process_files_step (f : uploaded_file) (rest : list uploaded_file)
    (results : list pyval) (st : state) :
  process_files w (f :: rest) m results st =
  let st1 := fst (extract_text_from_pdf w f "PyMuPDF" st) in
  match extracted_text w f with
  | Some t =>
      if str_truthy t then
        process_files w rest m
          (results ++ [result_dict (name f) (summary_of m t) (qa_of w m t)])
          (fst (qa_run w m factual_template 3 t (fst (summary_run m t st1))))
      else process_files w rest m results st1
  | None => process_files w rest m results st1
  end.
Proof.
  destruct Hwb as (Hopen & Hpages & Hgen & Heval).
  pose proof (extract_fitz_value w Hopen Hpages f st) as Hval.
  destruct (extract_text_from_pdf w f "PyMuPDF" st) as [st1 o] eqn:Hextract.
  cbn [snd] in Hval. subst o.
  rewrite (process_files_cons _ _ _ _ _ _ _ _ Hextract). cbn [fst]. cbv zeta.
  destruct (extracted_text w f) as [t|]; [|reflexivity].
  destruct (str_truthy t); [|reflexivity].
  unfold bind at 1. rewrite generate_summary_run.
  pose proof (summary_run_value m Hgen t st1) as Hsum.
  destruct (summary_run m t st1) as [st2 o1]. cbn [snd] in Hsum. subst o1.
  cbn [fst]. unfold bind at 1.
  rewrite (generate_custom_qa_run _ _ _ _ _ _ _ factual_template_lookup).
  pose proof (qa_run_value w m Hgen Heval t st2) as Hqa.
  destruct (qa_run w m factual_template 3 t st2) as [st3 o2].
  cbn [snd] in Hqa. subst o2. reflexivity.
Qed.

(** The prompts of the documents are among the prompts a batch sends, in
    the order of the documents. *)
Lemma process_files_prompts (files : list uploaded_file) :
  forall (results : list pyval) (st : state),
    exists sent : list string,
      prompts_sent (trace (fst (process_files w files m results st))) =
        prompts_sent (trace st) ++ sent /\
      sublist (flat_map (document_prompts w) files) sent.
Proof.
  induction files as [|f rest IH]; intros results st.
  - exists []. cbn [process_files flat_map]. unfold ret. cbn [fst].
    split; [now rewrite app_nil_r | constructor].
  - rewrite process_files_step. cbv zeta. cbn [flat_map].
    unfold document_prompts at 1.
    destruct (extracted_text w f) as [t|].
    + destruct (str_truthy t).
      * match goal with
        | |- context [process_files w rest m ?results' ?st'] =>
            destruct (IH results' st') as (sent & -> & Hsub)
        end.
        rewrite qa_run_prompts, summary_run_prompts, extract_fitz_prompts.
        exists ([summary_prompt t; qa_prompt factual_template 3 t] ++ sent).
        rewrite <- !app_assoc. split; [reflexivity|].
        cbn [app]. now do 2 apply sublist_skip.
      * destruct (IH results (fst (extract_text_from_pdf w f "PyMuPDF" st)))
          as (sent & -> & Hsub).
        rewrite extract_fitz_prompts. now exists sent.
    + destruct (IH results (fst (extract_text_from_pdf w f "PyMuPDF" st)))
        as (sent & -> & Hsub).
      rewrite extract_fitz_prompts. now exists sent.
Qed.

Hypothesis Hfresh : forall files, files !! tmp_name w files = None.

(** The files on disk after a batch in which no document gives text. *)
Lemma process_files_leak (files : list uploaded_file) :
  Forall (fun f => has_text w f = false) files ->
  forall (results : list pyval) (st : state),
    fs st ⊆ fs (fst (process_files w files m results st)) /\
    size (fs (fst (process_files w files m results st))) =
      size (fs st) + length (List.filter (extraction_fails w) files).
Proof.
  induction files as [|f rest IH]; intros Hnone results st.
  - cbn [process_files List.filter length]. unfold ret. cbn [fst].
    split; [reflexivity | lia].
  - apply Forall_cons_1 in Hnone as [Hf Hnone].
    rewrite process_files_step. cbv zeta. cbn [List.filter].
    pose proof (extract_fitz_fs w f st) as Hfs.
    set (st1 := fst (extract_text_from_pdf w f "PyMuPDF" st)) in *.
    assert (Hnext :
               fs st ⊆ fs (fst (process_files w rest m results st1)) /\
               size (fs (fst (process_files w rest m results st1))) =
                 size (fs st) +
                 length (if extraction_fails w f
                         then f :: List.filter (extraction_fails w) rest
                         else List.filter (extraction_fails w) rest)).
    { destruct (IH Hnone results st1) as [Hsub Hsize].
      rewrite Hsize, Hfs. clear Hsize.
      destruct (extraction_fails w f).
      - split.
        + etrans; [|exact Hsub]. rewrite Hfs.
          apply insert_subseteq, Hfresh.
        + rewrite (map_size_insert_None _ _ _ (Hfresh (fs st))).
          cbn [length]. lia.
      - split.
        + etrans; [|exact Hsub]. rewrite Hfs.
          now rewrite (delete_id _ _ (Hfresh (fs st))).
        + now rewrite (delete_id _ _ (Hfresh (fs st))). }
    unfold has_text, text_truthy in Hf.
    destruct (extracted_text w f) as [t|]; [|exact Hnext].
    rewrite Hf. exact Hnext.
Qed.

End BatchState.




Lemma fresh_only_exceptions : only_exceptions fresh_world demo_model.
Proof. exact (demo_only_exceptions None demo_response). Qed.


(** ** The export: its characters, and what it determines *)

Lemma all_chars_app (p : ascii -> bool) (a b : string) :
  all_chars p (a +:+ b) = all_chars p a && all_chars p b.
Proof.
  induction a as [|c a IH]; [reflexivity|].
  cbn [String.append all_chars]. rewrite IH. now rewrite andb_assoc.
Qed.

Lemma escape_char_export (c : ascii) : all_chars export_char (escape_char c) = true.
Proof. destruct c as [[] [] [] [] [] [] [] []]; vm_compute; reflexivity. Qed.

Lemma escape_str_export (s : string) : all_chars export_char (escape_str s) = true.
Proof.
  induction s as [|c s IH]; [reflexivity|].
  cbn [escape_str]. now rewrite all_chars_app, escape_char_export, IH.
Qed.

Lemma encode_basestring_ascii_export (s : string) :
  all_chars export_char (encode_basestring_ascii s) = true.
Proof.
  unfold encode_basestring_ascii. cbn [all_chars].
  rewrite all_chars_app, escape_str_export. reflexivity.
Qed.

Lemma spaces_export (n : nat) : all_chars export_char (spaces n) = true.
Proof. induction n as [|n IH]; [reflexivity | exact IH]. Qed.

Lemma pretty_N_go_export (x : N) :
  forall s, all_chars export_char s = true ->
            all_chars export_char (pretty_N_go x s) = true.
Proof.
  induction (N.lt_wf_0 x) as [x _ IH]. intros s Hs.
  destruct (N.eq_dec x 0%N) as [->|Hx].
  - now rewrite pretty_N_go_0.
  - rewrite pretty_N_go_step by lia. apply IH.
    + apply N.div_lt; lia.
    + cbn [all_chars]. rewrite Hs, andb_true_r.
      unfold pretty_N_char. repeat case_match; reflexivity.
Qed.

Lemma pretty_N_export (x : N) : all_chars export_char (pretty x) = true.
Proof.
  unfold pretty, pretty_N. case_decide; [reflexivity|].
  now apply pretty_N_go_export.
Qed.

Lemma pretty_Z_export (z : Z) : all_chars export_char (pretty z) = true.
Proof.
  destruct z as [|p|p]; [reflexivity | apply pretty_N_export |].
  unfold pretty, pretty_Z. rewrite all_chars_app.
  apply andb_true_intro. split; [reflexivity | exact (pretty_N_export (Npos p))].
Qed.

Lemma join_export (sep : string) (chunks : list string) :
  all_chars export_char sep = true ->
  Forall (fun chunk => all_chars export_char chunk = true) chunks ->
  all_chars export_char (join sep chunks) = true.
Proof.
  intros Hsep. induction 1 as [|x rest Hx Hrest IH]; [reflexivity|].
  destruct rest as [|y rest]; [exact Hx|].
  change (join sep (x :: y :: rest)) with (x +:+ sep +:+ join sep (y :: rest)).
  now rewrite !all_chars_app, Hx, Hsep, IH.
Qed.

Lemma newline_indent_export (n : nat) :
  all_chars export_char (nl +:+ spaces n) = true.
Proof. rewrite all_chars_app, spaces_export. reflexivity. Qed.

Lemma iterencode_export (indent : nat) (v : pyval) :
  forall level : nat, all_chars export_char (iterencode indent level v) = true.
Proof.
  induction v as [| b | z | s | l IH | d IH] using pyval_nested_ind; intros level.
  - reflexivity.
  - destruct b; reflexivity.
  - apply pretty_Z_export.
  - apply encode_basestring_ascii_export.
  - destruct l as [|x xs]; [reflexivity|].
    change (iterencode indent level (PList (x :: xs))) with
      ("[" +:+ (nl +:+ spaces (indent * S level)) +:+
       join ("," +:+ nl +:+ spaces (indent * S level))
         (map (iterencode indent (S level)) (x :: xs)) +:+
       nl +:+ spaces (indent * level) +:+ "]").
    rewrite !all_chars_app, !spaces_export, join_export; [reflexivity | |].
    + rewrite !all_chars_app, spaces_export. reflexivity.
    + apply List.Forall_map. revert IH. apply List.Forall_impl. intros a Ha. apply Ha.
  - destruct d as [|[k x] xs]; [reflexivity|].
    change (iterencode indent level (PDict ((k, x) :: xs))) with
      ("{" +:+ (nl +:+ spaces (indent * S level)) +:+
       join ("," +:+ nl +:+ spaces (indent * S level))
         (map (fun item =>
                 encode_basestring_ascii (fst item) +:+ ": " +:+
                 iterencode indent (S level) (snd item)) ((k, x) :: xs)) +:+
       nl +:+ spaces (indent * level) +:+ "}").
    rewrite !all_chars_app, !spaces_export, join_export; [reflexivity | |].
    + rewrite !all_chars_app, spaces_export. reflexivity.
    + apply List.Forall_map. revert IH. apply List.Forall_impl. intros a Ha.
      rewrite !all_chars_app, encode_basestring_ascii_export, Ha. reflexivity.
Qed.

(** X8.  Whatever the results hold, the text [save_analysis_results]
    returns is made of printable ASCII characters and newlines only. *)
Theorem export_is_printable_ascii :
  forall results : list pyval,
    all_chars export_char (save_analysis_results results) = true.
Proof.
  intros results. unfold save_analysis_results, json_dumps.
  apply iterencode_export.
Qed.

(** X9.  The export determines the results, surrogates apart: two
    sequences of AnalysisResult records whose texts hold no surrogate
    code points and that have the same export are the same sequence. *)
Theorem export_determines_the_results :
  forall results1 results2 : list UAnalysisResult,
    Forall scalar_result results1 ->
    Forall scalar_result results2 ->
    save_analysis_results_unicode (map uresult_to_uval results1) =
    save_analysis_results_unicode (map uresult_to_uval results2) ->
    results1 = results2.
Proof.
  intros results1 results2 Hscalar1 Hscalar2 Hsame.
  assert (Hplain : forall rs, Forall scalar_result rs ->
                     json_plain (UList (map uresult_to_uval rs))).
  { intros rs Hrs. apply plain_list, List.Forall_map. revert Hrs.
    apply List.Forall_impl. exact uresult_to_uval_plain. }
  pose proof (json_loads_dumps 2 _ (Hplain results1 Hscalar1)) as H1.
  pose proof (json_loads_dumps 2 _ (Hplain results2 Hscalar2)) as H2.
  unfold save_analysis_results_unicode in Hsame. rewrite Hsame, H2 in H1.
  injection H1 as Hmap.
  pose proof (uval_to_results_to_uval results1) as Hback1.
  pose proof (uval_to_results_to_uval results2) as Hback2.
  rewrite <- Hmap, Hback2 in Hback1. congruence.
Qed.

Lemma export_determines_the_results_witness :
  save_analysis_results_unicode
    (map uresult_to_uval [mkUResult (utext "a.pdf") (Some [233%N]) None]) <>
  save_analysis_results_unicode
    (map uresult_to_uval [mkUResult (utext "a.pdf") (Some [195; 169]%N) None]).
Proof.
  intros Hsame.
  assert (Heq : [mkUResult (utext "a.pdf") (Some [233%N]) None] =
                [mkUResult (utext "a.pdf") (Some [195; 169]%N) None]).
  { apply (export_determines_the_results
             [mkUResult (utext "a.pdf") (Some [233%N]) None]
             [mkUResult (utext "a.pdf") (Some [195; 169]%N) None]).
    - repeat constructor.
    - repeat constructor.
    - exact Hsame. }
  discriminate Heq.
Defined.

(** * Properties of the page *)

Create HintDb page.

(** ** What a computation adds to the screen *)

Lemma adds_only_ret {A} (p : element -> bool) (a : A) : adds_only p (page_ret a).
Proof. intros u. exists []. cbn. now rewrite app_nil_r. Qed.

Lemma adds_only_lift {A} (p : element -> bool) (o : outcome A) : adds_only p (page_lift o).
Proof. intros u. exists []. cbn. now rewrite app_nil_r. Qed.

Lemma adds_only_show (p : element -> bool) (el : element) :
  p el = true -> adds_only p (show el).
Proof. intros Hel u. exists [el]. cbn. now rewrite Hel. Qed.

Lemma adds_only_bind {A B} (p : element -> bool) (c : Page A) (k : A -> Page B) :
  adds_only p c -> (forall a, adds_only p (k a)) -> adds_only p (page_bind c k).
Proof.
  intros Hc Hk u. unfold page_bind.
  destruct (Hc u) as (els1 & Hscreen1 & Hp1).
  destruct (c u) as [u1 [a|e]]; cbn [fst] in Hscreen1.
  - destruct (Hk a u1) as (els2 & Hscreen2 & Hp2).
    exists (els1 ++ els2). rewrite Hscreen2, Hscreen1, <- app_assoc.
    split; [reflexivity|]. rewrite forallb_app. now rewrite Hp1, Hp2.
  - exists els1. now split.
Qed.

Lemma adds_only_call {A} (p : element -> bool) (c : M A) :
  (forall d, forallb p (map ElEffect (trace (fst (c (mkState d []))))) = true) ->
  adds_only p (call c).
Proof.
  intros Hc u. unfold call. specialize (Hc (disk u)).
  destruct (c (mkState (disk u) [])) as [st' o]. cbn [fst] in *.
  exists (map ElEffect (trace st')). now split.
Qed.

Lemma adds_only_selectbox {A} (p : element -> bool) (ui : session) (label : string)
    (first : A) (others : list A) :
  p (ElWidget label) = true -> adds_only p (st_selectbox ui label first others).
Proof.
  intros Hp. apply adds_only_bind; [now apply adds_only_show | intros; apply adds_only_ret].
Qed.

Lemma adds_only_button (p : element -> bool) (ui : session) (label : string) :
  p (ElWidget label) = true -> adds_only p (st_button ui label).
Proof.
  intros Hp. apply adds_only_bind; [now apply adds_only_show | intros; apply adds_only_ret].
Qed.

Lemma adds_only_slider (p : element -> bool) (ui : session) (label : string)
    (min_value max_value value : Z) :
  p (ElWidget label) = true -> adds_only p (st_slider ui label min_value max_value value).
Proof.
  intros Hp. apply adds_only_bind; [now apply adds_only_show | intros; apply adds_only_ret].
Qed.

Lemma adds_only_file_uploader (p : element -> bool) (ui : session) (label : string) :
  p (ElWidget label) = true -> adds_only p (st_file_uploader ui label).
Proof.
  intros Hp. apply adds_only_bind; [now apply adds_only_show | intros; apply adds_only_ret].
Qed.


Lemma adds_only_bind_widget {A B} (p : element -> bool) (el : element) (a : A)
    (k : A -> Page B) :
  p el = true -> adds_only p (k a) ->
  adds_only p (page_bind (page_bind (show el) (fun _ => page_ret a)) k).
Proof.
  intros Hel Hk u. destruct (Hk (mkPage (disk u) (screen u ++ [el]))) as (els & Hscreen & Hp).
  exists (el :: els). cbn in *. rewrite Hscreen, <- app_assoc.
  split; [reflexivity|]. now rewrite Hel, Hp.
Qed.

Lemma adds_only_bind_button {B} (p : element -> bool) (ui : session) (label : string)
    (k : bool -> Page B) :
  p (ElWidget label) = true -> adds_only p (k (clicked ui label)) ->
  adds_only p (page_bind (st_button ui label) k).
Proof. apply adds_only_bind_widget. Qed.

Lemma adds_only_weaken {A} (p q : element -> bool) (c : Page A) :
  (forall el, p el = true -> q el = true) -> adds_only p c -> adds_only q c.
Proof.
  intros Hpq Hc u. destruct (Hc u) as (els & Hscreen & Hp).
  exists els. split; [exact Hscreen|].
  rewrite forallb_forall in *. auto.
Qed.

#[local] Hint Resolve adds_only_ret adds_only_lift : page.
#[local] Hint Resolve adds_only_selectbox adds_only_button adds_only_slider
  adds_only_file_uploader : page.
#[local] Hint Resolve adds_only_bind | 5 : page.
#[local] Hint Resolve adds_only_bind_button | 1 : page.
#[local] Hint Extern 1 (adds_only _ (show _)) =>
  apply adds_only_show; reflexivity : page.
#[local] Hint Extern 1 (adds_only _ (st_radio _ _ _ _)) =>
  apply adds_only_selectbox : page.
#[local] Hint Extern 1 (_ = true) => reflexivity : page.
#[local] Hint Extern 4 (adds_only _ (if ?b then _ else _)) =>
  first [ match goal with H : b = _ |- _ => rewrite H end | destruct b ] : page.
#[local] Hint Extern 4 (adds_only _ (match ?x with _ => _ end)) =>
  destruct x : page.

Lemma adds_only_show_qa_expanders (items : list pyval) :
  forall i : Z, adds_only own_element (show_qa_expanders i items).
Proof.
  induction items as [|qa rest IH]; intros i; cbn [show_qa_expanders];
    eauto 20 with page.
Qed.

Lemma adds_only_show_qa_lines (items : list pyval) :
  forall i : Z, adds_only own_element (show_qa_lines i items).
Proof.
  induction items as [|qa rest IH]; intros i; cbn [show_qa_lines];
    eauto 20 with page.
Qed.

Lemma adds_only_show_results (results : list pyval) :
  adds_only own_element (show_results results).
Proof.
  induction results as [|result rest IH]; cbn [show_results];
    eauto 30 using adds_only_show_qa_lines with page.
Qed.

Lemma own_element_no_request (el : element) :
  own_element el = true -> no_request el = true.
Proof. destruct el as [ev| | | | | | | | |]; try reflexivity; discriminate. Qed.

(** The start of [main] shows a title and a line of text, then prints a
    message or configures the library. *)
Lemma main_header_trace (w : world) (d : gmap string (list Byte.byte)) :
  forallb no_request
    (map ElEffect (trace (fst (main_header w (mkState d []))))) = true.
Proof.
  unfold main_header, bind, st_title, st_write, emit. cbn [fst].
  destruct (key_missing (GOOGLE_API_KEY w)) eqn:Hkey.
  - rewrite (configure_gemini_missing _ _ Hkey). reflexivity.
  - rewrite (configure_gemini_present _ _ Hkey). reflexivity.
Qed.

Lemma extract_no_request (w : world) (f : uploaded_file) (parser_choice : string)
    (d : gmap string (list Byte.byte)) :
  forallb no_request
    (map ElEffect (trace (fst (extract_text_from_pdf w f parser_choice (mkState d [])))))
  = true.
Proof.
  pose proof (extract_trace w f parser_choice (mkState d [])) as Htrace.
  destruct (extract_text_from_pdf w f parser_choice (mkState d []))
    as [st' [[text|]|e]]; cbn [fst trace] in *.
  - now rewrite Htrace.
  - destruct Htrace as (e & _ & ->). reflexivity.
  - destruct Htrace as [_ ->]. reflexivity.
Qed.

(** X11.  A run of [main] in which no button has just been clicked
    sends nothing to the service and evaluates nothing, whatever files
    are in the uploader and whatever the libraries do. *)
Theorem no_request_without_a_click :
  forall (w : world) (ui : session) (u : page_state),
    clicked ui "Generate Summary" = false ->
    clicked ui "Generate Q&A" = false ->
    clicked ui "Start Batch Analysis" = false ->
    exists els : list element,
      screen (fst (main_page w ui u)) = screen u ++ els /\
      forallb no_request els = true.
Proof.
  intros w ui u Hsummary Hqa Hbatch. revert u.
  change (adds_only no_request (main_page w ui)).
  unfold main_page. apply adds_only_bind.
  { apply adds_only_call. apply main_header_trace. }
  intros m. unfold page_widgets, single_file_analysis, batch_analysis.
  pose proof (fun w f p => adds_only_call no_request (extract_text_from_pdf w f p)
                             (extract_no_request w f p)) as Hextract.
  eauto 60 with page.
Qed.

Lemma no_request_without_a_click_witness :
  exists els : list element,
    screen (fst (main_page (demo_world (Some "secret"))
                   (idle_session [file_of "a.pdf" "ab"] 0) u0)) = screen u0 ++ els /\
    forallb no_request els = true.
Proof.
  apply (no_request_without_a_click (demo_world (Some "secret"))
           (idle_session [file_of "a.pdf" "ab"] 0) u0); reflexivity.
Defined.

(** ** The start of the page *)

(** [main_page] starts as [main] does, and draws its widgets for the
    model handle [configure_gemini] returns. *)
Lemma main_page_start (w : world) (ui : session) (u : page_state) :
  main_page w ui u =
  match call (main w (fun _ => ret tt)) u with
  | (u', Ret _) =>
      page_widgets w ui (GenerativeModel w (default "" (GOOGLE_API_KEY w)) "gemini-pro") u'
  | (u', Raise e) => (u', Raise e)
  end.
Proof.
  unfold main_page, main, page_bind, call, bind, st_title, st_write, emit.
  destruct (key_missing (GOOGLE_API_KEY w)) eqn:Hkey.
  - rewrite (configure_gemini_missing _ _ Hkey). reflexivity.
  - rewrite (configure_gemini_present _ _ Hkey). cbn [add_events fs trace].
    unfold ret. cbn [fs trace]. rewrite ?app_nil_r. reflexivity.
Qed.

(** ** Single steps of the page, and the choices that do not count *)

Lemma page_bind_show {B} (el : element) (k : unit -> Page B) (u : page_state) :
  page_bind (show el) k u = k tt (mkPage (disk u) (screen u ++ [el])).
Proof. reflexivity. Qed.

Lemma page_bind_widget {A B} (el : element) (a : A) (k : A -> Page B)
    (u : page_state) :
  page_bind (page_bind (show el) (fun _ => page_ret a)) k u =
  k a (mkPage (disk u) (screen u ++ [el])).
Proof. reflexivity. Qed.

Lemma page_bind_ret {A B} (a : A) (k : A -> Page B) (u : page_state) :
  page_bind (page_ret a) k u = k a u.
Proof. reflexivity. Qed.

Lemma page_bind_ext {A B} (c : Page A) (k k' : A -> Page B) (u : page_state) :
  (forall a u', k a u' = k' a u') -> page_bind c k u = page_bind c k' u.
Proof.
  intros Hk. unfold page_bind. destruct (c u) as [u' [a|e]]; [apply Hk | reflexivity].
Qed.

(** X13.  In batch mode the parser chosen in the sidebar has no effect:
    a run of [main] is the same whichever parser is set. *)
Theorem batch_ignores_the_parser_choice :
  forall (w : world) (ui : session) (parser : nat) (u : page_state),
    chosen ui "Choose analysis type" = 1 ->
    main_page w (with_parser ui parser) u = main_page w ui u.
Proof.
  intros w ui parser u Hmode. unfold main_page.
  apply page_bind_ext. intros m u1.
  unfold page_widgets, st_selectbox, st_radio, st_selectbox, st_file_uploader.
  rewrite !page_bind_show, !page_bind_widget.
  cbn [uploaded with_parser].
  destruct (uploaded ui) as [|file0 others]; [reflexivity|].
  rewrite !page_bind_widget. cbn [chosen with_parser String.eqb Ascii.eqb Bool.eqb].
  rewrite Hmode. cbn [nth String.eqb Ascii.eqb Bool.eqb].
  reflexivity.
Qed.

Lemma batch_ignores_the_parser_choice_witness :
  main_page (demo_world (Some "secret"))
    (with_parser (batch_session [file_of "a.pdf" "ab"]) 1) u0 =
  main_page (demo_world (Some "secret")) (batch_session [file_of "a.pdf" "ab"]) u0.
Proof.
  apply (batch_ignores_the_parser_choice (demo_world (Some "secret"))
           (batch_session [file_of "a.pdf" "ab"]) 1 u0).
  reflexivity.
Defined.

(** ** A document without text in single-file mode *)

(** X14.  In single-file mode, for a document whose extraction gives no
    text, the page draws the select box of files and the spinner and
    nothing of its own after them: no success message, no preview and no
    button.  When the text is empty no message is shown at all; when the
    extraction failed the one further element is the error message of
    [extract_text_from_pdf]. *)
Theorem document_without_text_gets_no_controls :
  forall (w : world) (ui : session) (m : model) (parser_choice : string)
         (file0 : uploaded_file) (others : list uploaded_file) (u : page_state)
         (text : option string),
    snd (extract_text_from_pdf w
           (nth (chosen ui "Select file to analyze") (file0 :: others) file0)
           parser_choice (mkState (disk u) [])) = Ret text ->
    text_truthy text = false ->
    exists els : list element,
      snd (single_file_analysis w ui m parser_choice file0 others u) = Ret tt /\
      screen (fst (single_file_analysis w ui m parser_choice file0 others u)) =
        screen u ++
        [ElWidget "Select file to analyze"; ElSpinner "Processing PDF..."] ++ els /\
      match text with
      | Some _ => els = []
      | None =>
          exists e : pyexn,
            els = [ElEffect (EvStError ("Error extracting text from PDF: " +:+
                                        str_exn e))]
      end.
Proof.
  intros w ui m parser_choice file0 others u text Hextract Htext.
  assert (Hrun : exists (d : gmap string (list Byte.byte)) (els : list element),
             single_file_analysis w ui m parser_choice file0 others u =
             (mkPage d
                (screen u ++
                 [ElWidget "Select file to analyze"; ElSpinner "Processing PDF..."] ++
                 els), Ret tt) /\
             match text with
             | Some _ => els = []
             | None =>
                 exists e : pyexn,
                   els = [ElEffect (EvStError ("Error extracting text from PDF: " +:+
                                               str_exn e))]
             end).
  { unfold single_file_analysis, st_selectbox.
    rewrite page_bind_widget, page_bind_show.
    unfold page_bind at 1, call at 1. cbn [disk screen].
    pose proof (extract_trace w
                  (nth (chosen ui "Select file to analyze") (file0 :: others) file0)
                  parser_choice (mkState (disk u) [])) as Htrace.
    destruct (extract_text_from_pdf w
                (nth (chosen ui "Select file to analyze") (file0 :: others) file0)
                parser_choice (mkState (disk u) [])) as [st1 o].
    cbn [snd] in Hextract. subst o. cbn [trace] in Htrace.
    destruct text as [t|]; cbn [text_truthy] in Htext.
    - rewrite Htext, Htrace. exists (fs st1), []. cbn [map page_ret].
      rewrite <- !app_assoc. now split.
    - destruct Htrace as (e & _ & ->).
      exists (fs st1),
        [ElEffect (EvStError ("Error extracting text from PDF: " +:+ str_exn e))].
      cbn [map page_ret app]. rewrite <- !app_assoc.
      split; [reflexivity | now exists e]. }
  destruct Hrun as (d & els & -> & Hels). exists els. now repeat split.
Qed.

Lemma document_without_text_gets_no_controls_witness :
  exists els : list element,
    snd (single_file_analysis (demo_world None)
           (single_session [mkFile "blank.pdf" [Byte.x01]] 0 0 5 true true)
           demo_model "PyMuPDF" (mkFile "blank.pdf" [Byte.x01]) [] u0) = Ret tt /\
    screen (fst (single_file_analysis (demo_world None)
                   (single_session [mkFile "blank.pdf" [Byte.x01]] 0 0 5 true true)
                   demo_model "PyMuPDF" (mkFile "blank.pdf" [Byte.x01]) [] u0)) =
      screen u0 ++
      [ElWidget "Select file to analyze"; ElSpinner "Processing PDF..."] ++ els /\
    els = [].
Proof.
  apply (document_without_text_gets_no_controls (demo_world None)
           (single_session [mkFile "blank.pdf" [Byte.x01]] 0 0 5 true true)
           demo_model "PyMuPDF" (mkFile "blank.pdf" [Byte.x01]) [] u0 (Some ""));
    vm_compute; reflexivity.
Defined.

(** ** The requests of the page *)

Lemma screen_prompts_app (scr scr' : list element) :
  screen_prompts (scr ++ scr') = screen_prompts scr ++ screen_prompts scr'.
Proof.
  induction scr as [|el scr IH]; [reflexivity|].
  destruct el as [[]| | | | | | | | |]; cbn [app screen_prompts]; now rewrite IH.
Qed.

Lemma screen_prompts_effects (tr : list event) :
  screen_prompts (map ElEffect tr) = prompts_sent tr.
Proof.
  induction tr as [|ev tr IH]; [reflexivity|].
  destruct ev; cbn [map screen_prompts prompts_sent]; now rewrite IH.
Qed.

Lemma screen_prompts_no_request (els : list element) :
  forallb no_request els = true -> screen_prompts els = [].
Proof.
  induction els as [|el els IH]; [reflexivity|].
  cbn [forallb]. intros H. apply andb_prop in H as [Hel Hels].
  destruct el as [[]| | | | | | | | |]; cbn [screen_prompts]; auto; discriminate.
Qed.

Lemma no_request_show_qa_pairs (selected_file : uploaded_file) (qa_pairs : pyval) :
  adds_only no_request (show_qa_pairs selected_file qa_pairs).
Proof.
  pose proof (fun i items =>
                adds_only_weaken own_element no_request (show_qa_expanders i items)
                  own_element_no_request (adds_only_show_qa_expanders items i)) as Hloop.
  unfold show_qa_pairs. cbv zeta. eauto 20 with page.
Qed.

(** Every option of the select box of question types has a template. *)
Lemma question_type_has_template (i : nat) :
  exists template : string,
    prompt_templates !!
      nth i ["factual"; "conceptual"; "analytical"; "application"] "factual" =
    Some template.
Proof.
  destruct i as [|[|[|[|[|i]]]]]; cbn [nth]; eexists; vm_compute; reflexivity.
Qed.

(** X15.  In single-file mode, for a document with text, a click on the
    Q&A button (the summary button not clicked) sends the service, as
    the first request of the run, the Q&A prompt made from the template
    of a question type that has one, for between 1 and 10 questions and
    the text of the document.  The [KeyError] of an unknown question
    type does not arise from the page. *)
Theorem page_requests_known_questions :
  forall (w : world) (ui : session) (m : model) (parser_choice : string)
         (file0 : uploaded_file) (others : list uploaded_file) (u : page_state)
         (text : string),
    snd (extract_text_from_pdf w
           (nth (chosen ui "Select file to analyze") (file0 :: others) file0)
           parser_choice (mkState (disk u) [])) = Ret (Some text) ->
    str_truthy text = true ->
    clicked ui "Generate Summary" = false ->
    clicked ui "Generate Q&A" = true ->
    exists (question_type template : string) (n : Z) (more : list string),
      prompt_templates !! question_type = Some template /\
      (1 <= n <= 10)%Z /\
      screen_prompts
        (screen (fst (single_file_analysis w ui m parser_choice file0 others u))) =
      screen_prompts (screen u) ++ qa_prompt template n text :: more.
Proof.
  intros w ui m parser_choice file0 others u text Hextract Htext Hsummary Hqa.
  destruct (question_type_has_template (chosen ui "Question Type"))
    as [template Hlookup].
  set (question_type :=
         nth (chosen ui "Question Type")
           ["factual"; "conceptual"; "analytical"; "application"] "factual") in *.
  set (n := if ((1 <=? slid ui "Number of questions") &&
                (slid ui "Number of questions" <=? 10))%Z
            then slid ui "Number of questions" else 5%Z).
  exists question_type, template, n, []. split; [exact Hlookup|]. split.
  { subst n. destruct (1 <=? slid ui "Number of questions")%Z eqn:H1;
      destruct (slid ui "Number of questions" <=? 10)%Z eqn:H2; cbn [andb]; lia. }
  unfold single_file_analysis, st_selectbox, st_button, st_slider.
  rewrite page_bind_widget, page_bind_show.
  unfold page_bind at 1, call at 1. cbn [disk screen].
  pose proof (extract_trace w
                (nth (chosen ui "Select file to analyze") (file0 :: others) file0)
                parser_choice (mkState (disk u) [])) as Htrace.
  destruct (extract_text_from_pdf w
              (nth (chosen ui "Select file to analyze") (file0 :: others) file0)
              parser_choice (mkState (disk u) [])) as [st1 o].
  cbn [snd] in Hextract. subst o. cbn [trace] in Htrace.
  rewrite Htext, Htrace. cbn [map].
  rewrite !page_bind_show, page_bind_widget, Hsummary, page_bind_ret.
  rewrite page_bind_show, !page_bind_widget, Hqa, page_bind_show.
  fold question_type. fold n.
  unfold page_bind at 1, call at 1. cbn [disk screen].
  rewrite (generate_custom_qa_run _ _ _ _ _ _ _ Hlookup).
  pose proof (qa_run_prompts w m template n text (mkState (fs st1) [])) as Hprompts.
  destruct (qa_run w m template n text (mkState (fs st1) [])) as [st2 [qa_pairs|e]];
    cbn [fst trace prompts_sent app] in Hprompts.
  - match goal with
    | |- context [show_qa_pairs ?f qa_pairs ?u2] =>
        destruct (no_request_show_qa_pairs f qa_pairs u2) as (els & -> & Hels)
    end.
    cbn [screen]. rewrite !screen_prompts_app, screen_prompts_effects, Hprompts.
    rewrite (screen_prompts_no_request els Hels). cbn [screen_prompts app].
    rewrite !app_nil_r. reflexivity.
  - cbn [fst screen].
    rewrite !screen_prompts_app, screen_prompts_effects, Hprompts.
    cbn [screen_prompts app]. rewrite !app_nil_r. reflexivity.
Qed.

Lemma page_requests_known_questions_witness :
  exists (question_type template : string) (n : Z) (more : list string),
    prompt_templates !! question_type = Some template /\
    (1 <= n <= 10)%Z /\
    screen_prompts
      (screen (fst (single_file_analysis (demo_world None)
                      (single_session [file_of "a.pdf" "ab"] 0 2 7 false true)
                      demo_model "PyPDF2" (file_of "a.pdf" "ab") [] u0))) =
    screen_prompts (screen u0) ++ qa_prompt template n "ab" :: more.
Proof.
  apply (page_requests_known_questions (demo_world None)
           (single_session [file_of "a.pdf" "ab"] 0 2 7 false true)
           demo_model "PyPDF2" (file_of "a.pdf" "ab") [] u0 "ab");
    vm_compute; reflexivity.
Defined.

(** ** Drawing the value of [qa_pairs] *)

Lemma has_qa_keys_qa_to_py (q : QARecord) : has_qa_keys (qa_to_py q) = true.
Proof. reflexivity. Qed.

Lemma py_getitem_exception (v : pyval) (key : string) (e : pyexn) :
  py_getitem v key = Raise e -> is_Exception e = true.
Proof.
  destruct v as [| b | z | s | l | d]; cbn [py_getitem];
    try (intros [= <-]; reflexivity).
  destruct (dict_lookup d key); [discriminate|]. intros [= <-]. reflexivity.
Qed.

Lemma py_iter_exception (v : pyval) (e : pyexn) :
  py_iter v = Raise e -> is_Exception e = true.
Proof.
  destruct v as [| b | z | s | l | d]; cbn [py_iter];
    try discriminate; intros [= <-]; reflexivity.
Qed.

(** The first loop over the pairs returns when every item has the two
    keys, and raises an [Exception] otherwise. *)
Lemma show_qa_expanders_outcome (items : list pyval) :
  forall (i : Z) (u : page_state),
    match snd (show_qa_expanders i items u) with
    | Ret _ => forallb has_qa_keys items = true
    | Raise e => forallb has_qa_keys items = false /\ is_Exception e = true
    end.
Proof.
  induction items as [|qa rest IH]; intros i u; [reflexivity|].
  cbn [show_qa_expanders forallb]. unfold has_qa_keys at 1 3.
  unfold page_bind at 1, page_lift.
  destruct (py_getitem qa "question") as [question|e] eqn:Hq;
    [|split; [reflexivity | exact (py_getitem_exception _ _ _ Hq)]].
  unfold page_bind at 1, show. unfold page_bind at 1.
  destruct (py_getitem qa "answer") as [answer|e] eqn:Ha;
    [|split; [reflexivity | exact (py_getitem_exception _ _ _ Ha)]].
  unfold page_bind at 1. cbn [andb]. apply IH.
Qed.

Lemma qa_text_chunks_outcome (items : list pyval) :
  forall i : Z,
    forallb has_qa_keys items = true ->
    exists chunks, qa_text_chunks i items = Ret chunks.
Proof.
  induction items as [|qa rest IH]; intros i Hkeys; [now exists []|].
  cbn [forallb] in Hkeys. apply andb_prop in Hkeys as [Hqa Hrest].
  cbn [qa_text_chunks]. unfold has_qa_keys in Hqa.
  destruct (py_getitem qa "question") as [question|]; [|discriminate].
  destruct (py_getitem qa "answer") as [answer|]; [|discriminate].
  destruct (IH (i + 1)%Z Hrest) as [chunks ->]. eauto.
Qed.

Lemma chars_lack_keys (s : string) :
  s <> "" ->
  forallb has_qa_keys (map (fun c => PStr (String c "")) (list_ascii_of_string s)) = false.
Proof. destruct s as [|c s]; [congruence | reflexivity]. Qed.

Lemma keys_lack_keys (d : list (string * pyval)) :
  d <> [] -> forallb has_qa_keys (map (fun item => PStr (fst item)) d) = false.
Proof. destruct d as [|item d]; [congruence | reflexivity]. Qed.

(** What drawing a truthy value that can be iterated comes to. *)
Lemma show_qa_pairs_outcome (selected_file : uploaded_file) (qa_pairs : pyval)
    (items : list pyval) (u : page_state) :
  py_truthy qa_pairs = true ->
  py_iter qa_pairs = Ret items ->
  if forallb has_qa_keys items
  then snd (show_qa_pairs selected_file qa_pairs u) = Ret tt
  else exists e : pyexn,
         snd (show_qa_pairs selected_file qa_pairs u) = Raise e /\
         is_Exception e = true.
Proof.
  intros Htruthy Hiter.
  assert (Hrun : show_qa_pairs selected_file qa_pairs u =
                 match show_qa_expanders 1 items u with
                 | (u1, Ret _) =>
                     match qa_text_chunks 1 items with
                     | Ret chunks =>
                         show (ElDownloadButton "Download Q&A"
                                 (join (nl +:+ nl) chunks)
                                 ("qa_results_" +:+ name selected_file +:+ ".txt")
                                 "text/plain") u1
                     | Raise e => (u1, Raise e)
                     end
                 | (u1, Raise e) => (u1, Raise e)
                 end).
  { unfold show_qa_pairs. rewrite Htruthy, Hiter. reflexivity. }
  rewrite Hrun. clear Hrun.
  pose proof (show_qa_expanders_outcome items 1 u) as Hloop.
  destruct (show_qa_expanders 1 items u) as [u1 [[]|e]]; cbn [snd] in Hloop.
  - rewrite Hloop.
    destruct (qa_text_chunks_outcome items 1 Hloop) as [chunks ->]. reflexivity.
  - destruct Hloop as [-> He]. exists e. split; [reflexivity | exact He].
Qed.

(** X16.  Drawing the value [generate_custom_qa] returned, by its type.
    A list is drawn without an exception when its items all have the
    keys [question] and [answer], the empty list included, and raises an
    [Exception] otherwise.  [None], a [bool], an [int], a [str] or a
    [dict] is passed over, nothing being drawn, when it is falsy, and
    raises an [Exception] when it is truthy. *)
Theorem qa_pairs_are_checked_when_drawn :
  forall (selected_file : uploaded_file) (qa_pairs : pyval) (u : page_state),
    match qa_pairs with
    | PList items =>
        if forallb has_qa_keys items
        then snd (show_qa_pairs selected_file qa_pairs u) = Ret tt
        else exists e : pyexn,
               snd (show_qa_pairs selected_file qa_pairs u) = Raise e /\
               is_Exception e = true
    | PNone | PBool _ | PInt _ | PStr _ | PDict _ =>
        if py_truthy qa_pairs
        then exists e : pyexn,
               snd (show_qa_pairs selected_file qa_pairs u) = Raise e /\
               is_Exception e = true
        else show_qa_pairs selected_file qa_pairs u = (u, Ret tt)
    end.
Proof.
  intros selected_file qa_pairs u.
  assert (Hfalsy : py_truthy qa_pairs = false ->
                   show_qa_pairs selected_file qa_pairs u = (u, Ret tt)).
  { intros Hfalsy. unfold show_qa_pairs. now rewrite Hfalsy. }
  assert (Hother : py_truthy qa_pairs = true ->
                   forall e, py_iter qa_pairs = Raise e ->
                   exists e : pyexn,
                     snd (show_qa_pairs selected_file qa_pairs u) = Raise e /\
                     is_Exception e = true).
  { intros Htruthy e Hiter. exists e. unfold show_qa_pairs. rewrite Htruthy.
    unfold page_bind, page_lift. rewrite Hiter.
    split; [reflexivity | exact (py_iter_exception _ _ Hiter)]. }
  destruct qa_pairs as [| b | z | s | l | d].
  - now apply Hfalsy.
  - destruct (py_truthy (PBool b)) eqn:Htruthy; [|now apply Hfalsy].
    now apply (Hother eq_refl _ eq_refl).
  - destruct (py_truthy (PInt z)) eqn:Htruthy; [|now apply Hfalsy].
    now apply (Hother eq_refl _ eq_refl).
  - destruct (py_truthy (PStr s)) eqn:Htruthy; [|now apply Hfalsy].
    pose proof (show_qa_pairs_outcome selected_file (PStr s) _ u Htruthy eq_refl)
      as Hrun.
    rewrite chars_lack_keys in Hrun; [exact Hrun|]. now destruct s.
  - destruct l as [|x xs].
    + cbn [forallb]. now rewrite Hfalsy.
    + exact (show_qa_pairs_outcome selected_file (PList (x :: xs)) _ u
               eq_refl eq_refl).
  - destruct (py_truthy (PDict d)) eqn:Htruthy; [|now apply Hfalsy].
    pose proof (show_qa_pairs_outcome selected_file (PDict d) _ u Htruthy eq_refl)
      as Hrun.
    rewrite keys_lack_keys in Hrun; [exact Hrun|]. now destruct d.
Qed.

Lemma show_qa_expanders_records (l : list QARecord) :
  forall (n : nat) (u : page_state),
    show_qa_expanders (Z.of_nat n + 1) (map qa_to_py l) u =
    (mkPage (disk u)
       (screen u ++ concat (imap (fun i q => qa_expander (n + i) q) l)),
     Ret tt).
Proof.
  induction l as [|q l IH]; intros n u.
  - cbn. rewrite app_nil_r. now destruct u.
  - cbn [map show_qa_expanders]. unfold page_bind, page_lift, show.
    cbn [py_getitem qa_to_py dict_lookup String.eqb Ascii.eqb Bool.eqb py_str
         disk screen].
    replace (Z.of_nat n + 1 + 1)%Z with (Z.of_nat (S n) + 1)%Z by lia.
    rewrite IH. cbn [disk screen imap concat].
    rewrite <- !app_assoc. cbn [app]. unfold qa_expander at 2.
    replace (n + 0) with n by lia. cbn [app].
    do 6 f_equal. apply imap_ext. intros i x _. cbn.
    now replace (n + S i) with (S (n + i)) by lia.
Qed.

Lemma qa_text_chunks_records (l : list QARecord) :
  forall n : nat,
    qa_text_chunks (Z.of_nat n + 1) (map qa_to_py l) =
    Ret (imap (fun i q => qa_entry (n + i) q) l).
Proof.
  induction l as [|q l IH]; intros n; [reflexivity|].
  cbn [map qa_text_chunks].
  cbn [py_getitem qa_to_py dict_lookup String.eqb Ascii.eqb Bool.eqb py_str].
  replace (Z.of_nat n + 1 + 1)%Z with (Z.of_nat (S n) + 1)%Z by lia.
  rewrite IH. cbn [imap]. unfold qa_entry at 2.
  replace (n + 0) with n by lia. do 2 f_equal.
  apply imap_ext. intros i x _. cbn.
  now replace (n + S i) with (S (n + i)) by lia.
Qed.

(** X17.  For a non-empty list of question and answer pairs the page
    draws one expander per pair, labelled with the number of the pair,
    counted from 1, and the question, and holding the answer; then it
    offers, under the name [qa_results_<file name>.txt], the text of the
    entries [Q<i>: <question>], newline, [A: <answer>], a blank line
    between two entries. *)
Theorem qa_download_lists_the_pairs :
  forall (selected_file : uploaded_file) (q : QARecord) (l : list QARecord)
         (u : page_state),
    show_qa_pairs selected_file (PList (map qa_to_py (q :: l))) u =
    (mkPage (disk u)
       (screen u ++ concat (imap qa_expander (q :: l)) ++
        [ElDownloadButton "Download Q&A" (qa_text (q :: l))
           ("qa_results_" +:+ name selected_file +:+ ".txt") "text/plain"]),
     Ret tt).
Proof.
  intros selected_file q l u. unfold show_qa_pairs.
  pose proof (show_qa_expanders_records (q :: l) 0 u) as Hloop.
  pose proof (qa_text_chunks_records (q :: l) 0) as Hchunks.
  change (Z.of_nat 0 + 1)%Z with 1%Z in Hloop, Hchunks.
  cbn [py_truthy map]. unfold page_bind at 1, page_lift at 1. cbn [py_iter].
  unfold page_bind at 1.
  change (qa_to_py q :: map qa_to_py l) with (map qa_to_py (q :: l)).
  rewrite Hloop. unfold page_bind, page_lift. rewrite Hchunks.
  unfold show. cbn [disk screen]. rewrite <- app_assoc. reflexivity.
Qed.

(** ** Drawing the results of a batch *)

Lemma show_qa_lines_outcome (items : list pyval) :
  forall (i : Z) (u : page_state),
    match snd (show_qa_lines i items u) with
    | Ret _ => forallb has_qa_keys items = true
    | Raise e => forallb has_qa_keys items = false /\ is_Exception e = true
    end.
Proof.
  induction items as [|qa rest IH]; intros i u; [reflexivity|].
  cbn [show_qa_lines forallb]. unfold has_qa_keys at 1 3.
  unfold page_bind at 1, page_lift.
  destruct (py_getitem qa "question") as [question|e] eqn:Hq;
    [|split; [reflexivity | exact (py_getitem_exception _ _ _ Hq)]].
  unfold page_bind at 1, show. unfold page_bind at 1.
  destruct (py_getitem qa "answer") as [answer|e] eqn:Ha;
    [|split; [reflexivity | exact (py_getitem_exception _ _ _ Ha)]].
  unfold page_bind at 1. unfold page_bind at 1. cbn [andb]. apply IH.
Qed.

(** The loop over the results returns when every result can be drawn,
    and raises an [Exception] otherwise. *)
Lemma show_results_outcome (results : list pyval) :
  forall u : page_state,
    match snd (show_results results u) with
    | Ret _ => forallb can_display results = true
    | Raise e => forallb can_display results = false /\ is_Exception e = true
    end.
Proof.
  induction results as [|result rest IH]; intros u; [reflexivity|].
  cbn [show_results forallb]. unfold can_display at 1 3.
  unfold page_bind at 1, page_lift.
  destruct (py_getitem result "filename") as [filename|e] eqn:Hf;
    [|split; [reflexivity | exact (py_getitem_exception _ _ _ Hf)]].
  unfold page_bind at 1, show. unfold page_bind at 1. unfold page_bind at 1.
  destruct (py_getitem result "summary") as [summary|e] eqn:Hs;
    [|split; [reflexivity | exact (py_getitem_exception _ _ _ Hs)]].
  unfold page_bind at 1. unfold page_bind at 1. unfold page_bind at 1.
  destruct (py_getitem result "qa_pairs") as [qa_pairs|e] eqn:Hq;
    [|split; [reflexivity | exact (py_getitem_exception _ _ _ Hq)]].
  unfold page_bind at 1.
  destruct (py_iter qa_pairs) as [items|e] eqn:Hi;
    [|split; [reflexivity | exact (py_iter_exception _ _ Hi)]].
  unfold page_bind at 1.
  match goal with
  | |- context [show_qa_lines 1 items ?u1] =>
      pose proof (show_qa_lines_outcome items 1 u1) as Hlines;
      destruct (show_qa_lines 1 items u1) as [u2 [[]|e]]; cbn [snd] in Hlines
  end.
  - rewrite Hlines. cbn [andb]. apply IH.
  - destruct Hlines as [-> He]. split; [reflexivity | exact He].
Qed.

Lemma can_display_result_to_py (r : AnalysisResult) :
  can_display (result_to_py r) = match ar_qa_pairs r with Some _ => true | None => false end.
Proof.
  destruct r as [filename summary [qs|]]; [|reflexivity].
  unfold can_display, result_to_py, result_dict. cbn.
  induction qs as [|q qs IH]; [reflexivity|].
  cbn [map forallb]. now rewrite has_qa_keys_qa_to_py.
Qed.

(** The page in batch mode, up to the call of [process_multiple_pdfs]. *)
Lemma page_widgets_batch (w : world) (ui : session) (m : model) (u : page_state) :
  uploaded ui <> [] ->
  chosen ui "Choose analysis type" = 1 ->
  clicked ui "Start Batch Analysis" = true ->
  page_widgets w ui m u =
  (let* results := call (process_multiple_pdfs w (uploaded ui) m) in
   match results with
   | [] => page_ret tt
   | _ :: _ =>
       do* show (ElSuccess "Batch analysis complete!") in
       do* show_results results in
       show (ElDownloadButton "Download All Results" (save_analysis_results results)
               "batch_analysis_results.json" "application/json")
   end)
    (mkPage (disk u)
       (screen u ++
        [ ElSidebarHeader "Configuration"; ElWidget "PDF Parser";
          ElWidget "Choose PDF files"; ElWidget "Choose analysis type";
          ElWrite (PStr ("Processing " +:+ pretty (length (uploaded ui)) +:+ " files..."));
          ElWidget "Start Batch Analysis"; ElSpinner "Processing files..." ])).
Proof.
  intros Hfiles Hmode Hclick.
  unfold page_widgets, st_selectbox, st_radio, st_selectbox, st_file_uploader.
  unfold page_bind at 1. unfold show at 1.
  unfold page_bind at 1. unfold page_bind at 1. unfold show at 1. unfold page_ret at 1.
  unfold page_bind at 1. unfold page_bind at 1. unfold show at 1. unfold page_ret at 1.
  destruct (uploaded ui) as [|file0 others] eqn:Hup; [congruence|].
  unfold page_bind at 1. unfold page_bind at 1. unfold show at 1. unfold page_ret at 1.
  rewrite Hmode. cbn [nth String.eqb Ascii.eqb Bool.eqb].
  unfold batch_analysis, st_button.
  unfold page_bind at 1. unfold show at 1.
  unfold page_bind at 1. unfold page_bind at 1. unfold show at 1. unfold page_ret at 1.
  rewrite Hclick.
  unfold page_bind at 1. unfold show at 1. cbn [disk screen].
  rewrite <- !app_assoc. reflexivity.
Qed.

Section BatchPage.

Variables (w : world) (m : model) (ui : session).
Hypothesis Hwb : only_exceptions w m.
Hypothesis Hmode : chosen ui "Choose analysis type" = 1.
Hypothesis Hclick : clicked ui "Start Batch Analysis" = true.

Lemma call_batch (u : page_state) :
  exists (d : gmap string (list Byte.byte)) (tr : list event),
    call (process_multiple_pdfs w (uploaded ui) m) u =
    (mkPage d (screen u ++ map ElEffect tr), Ret (batch_entries w m (uploaded ui))).
Proof.
  destruct Hwb as (Hopen & Hpages & Hgen & Heval).
  pose proof (process_files_entries w m Hopen Hpages Hgen Heval (uploaded ui) []
                (mkState (disk u) [])) as Hentries.
  unfold call, process_multiple_pdfs.
  destruct (process_files w (uploaded ui) m [] (mkState (disk u) [])) as [st' o].
  cbn [snd app] in Hentries. subst o. now exists (fs st'), (trace st').
Qed.

(** The elements the page draws in batch mode before it calls
    [process_multiple_pdfs]. *)
Lemma batch_page_run (u : page_state) :
  batch_entries w m (uploaded ui) <> [] ->
  exists (d : gmap string (list Byte.byte)) (tr : list event),
    page_widgets w ui m u =
    match
      show_results (batch_entries w m (uploaded ui))
        (mkPage d
           (screen u ++
            [ ElSidebarHeader "Configuration"; ElWidget "PDF Parser";
              ElWidget "Choose PDF files"; ElWidget "Choose analysis type";
              ElWrite (PStr ("Processing " +:+ pretty (length (uploaded ui)) +:+
                             " files..."));
              ElWidget "Start Batch Analysis"; ElSpinner "Processing files..." ] ++
            map ElEffect tr ++ [ElSuccess "Batch analysis complete!"]))
    with
    | (u', Ret _) =>
        (mkPage (disk u')
           (screen u' ++
            [ElDownloadButton "Download All Results"
               (save_analysis_results (batch_entries w m (uploaded ui)))
               "batch_analysis_results.json" "application/json"]),
         Ret tt)
    | (u', Raise e) => (u', Raise e)
    end.
Proof.
  intros Hentries.
  assert (Hfiles : uploaded ui <> []).
  { intros Hnil. apply Hentries. now rewrite Hnil. }
  rewrite (page_widgets_batch w ui m u Hfiles Hmode Hclick).
  unfold page_bind at 1.
  match goal with
  | |- context [call _ ?u1] => destruct (call_batch u1) as (d & tr & ->)
  end.
  exists d, tr. cbn [screen].
  destruct (batch_entries w m (uploaded ui)) as [|entry entries]; [congruence|].
  unfold page_bind at 1, show at 1. unfold page_bind at 1. cbn [disk screen].
  rewrite <- !app_assoc. reflexivity.
Qed.

(** What the page draws in batch mode for a batch with entries: the
    success message, then the results; the download button after them
    when every result could be drawn. *)
Lemma batch_page_outcome (u : page_state) :
  batch_entries w m (uploaded ui) <> [] ->
  exists (before after : list element) (d : gmap string (list Byte.byte)),
    if forallb can_display (batch_entries w m (uploaded ui)) then
      page_widgets w ui m u =
      (mkPage d
         (screen u ++ (before ++ ElSuccess "Batch analysis complete!" :: after) ++
          [ElDownloadButton "Download All Results"
             (save_analysis_results (batch_entries w m (uploaded ui)))
             "batch_analysis_results.json" "application/json"]),
       Ret tt)
    else
      exists e : pyexn,
        is_Exception e = true /\
        page_widgets w ui m u =
        (mkPage d (screen u ++ before ++ ElSuccess "Batch analysis complete!" :: after),
         Raise e).
Proof.
  intros Hentries.
  destruct (batch_page_run u Hentries) as (d & tr & ->).
  match goal with
  | |- context [show_results ?rs ?u2] =>
      pose proof (show_results_outcome rs u2) as Hshow;
      destruct (adds_only_show_results rs u2) as (els & Hscreen & _);
      destruct (show_results rs u2) as [[d3 scr3] [[]|e]];
      cbn [fst snd disk screen] in Hshow, Hscreen
  end.
  - rewrite Hshow. cbn [disk screen]. subst scr3.
    exists ([ ElSidebarHeader "Configuration"; ElWidget "PDF Parser";
              ElWidget "Choose PDF files"; ElWidget "Choose analysis type";
              ElWrite (PStr ("Processing " +:+ pretty (length (uploaded ui)) +:+
                             " files..."));
              ElWidget "Start Batch Analysis"; ElSpinner "Processing files..." ] ++
            map ElEffect tr), els, d3.
    rewrite <- !app_assoc. cbn [app]. reflexivity.
  - destruct Hshow as [-> He]. subst scr3.
    exists ([ ElSidebarHeader "Configuration"; ElWidget "PDF Parser";
              ElWidget "Choose PDF files"; ElWidget "Choose analysis type";
              ElWrite (PStr ("Processing " +:+ pretty (length (uploaded ui)) +:+
                             " files..."));
              ElWidget "Start Batch Analysis"; ElSpinner "Processing files..." ] ++
            map ElEffect tr), els, d3.
    exists e. split; [exact He|].
    rewrite <- !app_assoc. cbn [app]. reflexivity.
Qed.

End BatchPage.




